(** * Health assistant: the tool-dispatch / query-resolution loop of app.py

    A shallow embedding of the tools registered in [tools_dict]
    ([get_oura_sleep_score], [get_oura_activity_steps], [log_gym_set],
    [get_readiness_report]), of the profile loader and of [process_query],
    followed by the properties the specification states about them. The
    start-up of the completion service, the status of the sidebar and the
    chat block of the page are embedded as well; the last part proves
    further properties that the code itself shows.

    Conventions of the embedding.
    - A Python [str] is the [string] of the bytes of its UTF-8 encoding.
      Splitting on the bar, the tests on the ASCII prefixes and the
      replacement of the ASCII marker act on these bytes as they act on the
      characters; [strip] decodes the characters at both ends and removes
      every white-space character of [str.strip], the ones beyond ASCII
      included.
    - A Python value that the code handles dynamically is a [pyval]; a float
      is the rational it denotes (or an infinity, or nan), so comparisons are
      exact, as they are in Python, also between int and float.
    - A date is its proleptic Gregorian ordinal ([date.toordinal]).
    - A raised exception is a [Raise] result; [try_except] is the handler
      [except Exception] (or the bare [except]).
    - The completion service and the data store are external: every request
      is recorded in a trace of events (newest first) and answered by an
      oracle of the environment that may depend on the history. The trace
      also records each entry into a tool function.
    - Library functions whose result is fixed by the Python runtime and not
      by this program (parsing and printing of dates and numbers, float
      arithmetic, [str] of an exception) are fields of [PyRuntime].
    - Console output ([print], [traceback.print_exc]) is not modelled. *)

From Stdlib Require Import ZArith NArith QArith Qround Ascii String List Lia Bool.
From stdpp Require Import base tactics option list gmap strings pretty.

Close Scope Q_scope.
Open Scope Z_scope.

(** ** Text *)

Definition nl : string := String "010"%char EmptyString.
Definition dquote : string := String "034"%char EmptyString.

(** [c.isspace()] for the character with code point [cp], which is what
    [str.strip()] removes: tab to carriage return, the separators 28..31,
    the space, U+0085, U+00A0, U+1680, U+2000..U+200A, U+2028, U+2029,
    U+202F, U+205F and U+3000. *)
Definition is_space (cp : N) : bool :=
  ((9 <=? cp) && (cp <=? 13) || (28 <=? cp) && (cp <=? 32)
   || (cp =? 133) || (cp =? 160) || (cp =? 5760)
   || (8192 <=? cp) && (cp <=? 8202) || (cp =? 8232) || (cp =? 8233)
   || (cp =? 8239) || (cp =? 8287) || (cp =? 12288))%N.

(** UTF-8: the code point of a character of one, two or three bytes (the
    white space has none of four). *)
Definition continuation (b : ascii) : option N :=
  let n := N_of_ascii b in
  if ((128 <=? n) && (n <=? 191))%N then Some (n - 128)%N else None.

Definition decode1 (a : ascii) : option N :=
  let n := N_of_ascii a in
  if (n <? 128)%N then Some n else None.

Definition decode2 (a b : ascii) : option N :=
  let n := N_of_ascii a in
  if ((194 <=? n) && (n <=? 223))%N then
    match continuation b with
    | Some y => Some ((n - 192) * 64 + y)%N
    | None => None
    end
  else None.

Definition decode3 (a b c : ascii) : option N :=
  let n := N_of_ascii a in
  if ((224 <=? n) && (n <=? 239))%N then
    match continuation b, continuation c with
    | Some y, Some z =>
        let cp := ((n - 224) * 4096 + y * 64 + z)%N in
        if (2048 <=? cp)%N then Some cp else None
    | _, _ => None
    end
  else None.

Definition space_code (code : option N) : bool :=
  match code with
  | Some cp => is_space cp
  | None => false
  end.

(** The text without the white-space characters at its head; [two] and
    [three] decode the characters of two and three bytes. *)
Fixpoint strip_head (two : ascii -> ascii -> option N)
    (three : ascii -> ascii -> ascii -> option N) (s : string) : string :=
  match s with
  | String a s1 =>
      if space_code (decode1 a) then strip_head two three s1
      else
        match s1 with
        | String b s2 =>
            if space_code (two a b) then strip_head two three s2
            else
              match s2 with
              | String c s3 =>
                  if space_code (three a b c) then strip_head two three s3 else s
              | EmptyString => s
              end
        | EmptyString => s
        end
  | EmptyString => EmptyString
  end.

Definition lstrip (s : string) : string := strip_head decode2 decode3 s.

(** At the end of the text the bytes of a character come in reverse. *)
Definition rstrip (s : string) : string :=
  String.rev
    (strip_head (fun a b => decode2 b a) (fun a b c => decode3 c b a)
       (String.rev s)).

Definition strip (s : string) : string := rstrip (lstrip s).

(** The text starts with a white-space character. *)
Definition space_head (two : ascii -> ascii -> option N)
    (three : ascii -> ascii -> ascii -> option N) (s : string) : bool :=
  match s with
  | String a s1 =>
      space_code (decode1 a)
      || match s1 with
         | String b s2 =>
             space_code (two a b)
             || match s2 with
                | String c _ => space_code (three a b c)
                | EmptyString => false
                end
         | EmptyString => false
         end
  | EmptyString => false
  end.

(** U+00A0, the no-break space. *)
Definition nbsp : string := String "194"%char (String "160"%char EmptyString).

(** [s.split(sep)] for a one-character separator: never an empty list. *)
Fixpoint split_on (sep : ascii) (s : string) : list string :=
  match s with
  | EmptyString => [EmptyString]
  | String c s' =>
      if Ascii.eqb c sep then EmptyString :: split_on sep s'
      else match split_on sep s' with
           | w :: ws => String c w :: ws
           | [] => [String c EmptyString]
           end
  end.

(** [s.replace(old, new)], scanning left to right; [skip] counts the
    characters of a match still to be dropped. *)
Fixpoint replace_go (old new : string) (skip : nat) (s : string) : string :=
  match s with
  | EmptyString => EmptyString
  | String c s' =>
      match skip with
      | S k => replace_go old new k s'
      | O =>
          if String.prefix old s
          then new +:+ replace_go old new (String.length old - 1) s'
          else String c (replace_go old new O s')
      end
  end.

Definition replace (old new s : string) : string := replace_go old new O s.

(** ["\n".join(l)] and friends. *)
Fixpoint join (sep : string) (l : list string) : string :=
  match l with
  | [] => EmptyString
  | [x] => x
  | x :: rest => x +:+ sep +:+ join sep rest
  end.

(** ** Values, exceptions, results *)

Inductive pyfloat : Type :=
| FNan
| FInf (negative : bool)
| FFin (q : Q).

Inductive pyval : Type :=
| VNone
| VStr (s : string)
| VInt (n : Z)
| VFloat (f : pyfloat).

Abbreviation dict := (gmap string pyval).

Definition type_name (v : pyval) : string :=
  match v with
  | VNone => "NoneType"
  | VStr _ => "str"
  | VInt _ => "int"
  | VFloat _ => "float"
  end.

Inductive exn : Type :=
| TypeError_arity (fn : string) (given : nat)
| TypeError_operand (op : string) (left right : string)
| TypeError_argument (fn : string) (got : string)
| TypeError_format (spec : string) (got : string)
| ValueError_format (spec : string) (got : string)
| ValueError_isoformat (s : string)
| ValueError_float (s : string)
| ValueError_int (s : string)
| NameError (name : string)
| KeyError (key : string)
| IndexError
| OverflowError
| ServiceError (msg : string).

Inductive result (A : Type) : Type :=
| Ok (a : A)
| Raise (e : exn).
Arguments Ok {A} a.
Arguments Raise {A} e.

(** Dates: ordinals counted from [date.min] (0001-01-01), which is 1;
    1970-01-01 has ordinal 719163. *)
Definition date : Type := Z.
Definition date_min : date := 1.
Definition epoch : date := 719163.

(** [d - timedelta(days=n)] for [0 <= n]: going back from a date can only
    leave the range below [date.min]. *)
Definition date_sub_days (d : date) (n : Z) : result date :=
  if date_min <=? d - n then Ok (d - n) else Raise OverflowError.

(** ** The Python runtime *)

Class PyRuntime : Type := {
  (** [date.fromisoformat(s)], [None] for the ValueError *)
  parse_isoformat : string -> option date;
  (** [d.isoformat()] *)
  isoformat : date -> string;
  (** [float(s)] and [int(s)] on a string, [None] for the ValueError *)
  parse_float : string -> option pyfloat;
  parse_int : string -> option Z;
  (** [repr] of a float, as an f-string prints it *)
  float_repr : pyfloat -> string;
  (** [x // k] and [x % k] for a float [x] and an int [k] *)
  float_floordiv : pyfloat -> Z -> pyfloat;
  float_mod : pyfloat -> Z -> pyfloat;
  (** [format(v, ",")] *)
  format_thousands : pyval -> result string;
  (** [str(e)] *)
  exn_str : exn -> string
}.

(** ** Requests to the external services *)

Inductive row_filter : Type :=
| Gte (column value : string)
| Lte (column value : string)
| Eq (column value : string).

Record query : Type := {
  q_table : string;
  q_columns : string;
  q_filters : list row_filter;
  q_order_desc : option string;
  q_limit : option Z
}.

Inductive event : Type :=
| ELlm (prompt : string) (stop : list string)
| ESelect (q : query)
| EInsert (table : string) (row : dict)
| ECall (tool_name : string) (args : list pyval).

Definition trace : Type := list event.

Record Env : Type := {
  (** days the system clock counts since 1970-01-01 *)
  clock_days : N;
  (** [llm] is not [None] *)
  llm_ready : bool;
  (** the store client was created; the tools are registered only then *)
  supabase_available : bool;
  (** the module-level dictionary filled at start-up *)
  USER_PROFILE : dict;
  (** [llm.invoke(prompt, stop=...)] *)
  llm_invoke : trace -> string -> list string -> result string;
  (** [....execute()] of a select: [response.data] *)
  store_select : trace -> query -> result (list dict);
  (** [....insert(row).execute()]: [response.error] when there is one *)
  store_insert : trace -> string -> dict -> result (option string)
}.

(** [date.today()] *)
Definition today (env : Env) : date := epoch + Z.of_N (clock_days env).

(** ** Computations: a trace of requests and a result or an exception *)

Definition M (A : Type) : Type := trace -> result A * trace.

Definition ret {A} (a : A) : M A := fun tr => (Ok a, tr).
Definition raise {A} (e : exn) : M A := fun tr => (Raise e, tr).
Definition lift {A} (r : result A) : M A := fun tr => (r, tr).

Definition bind {A B} (m : M A) (k : A -> M B) : M B :=
  fun tr =>
    match m tr with
    | (Ok a, tr') => k a tr'
    | (Raise e, tr') => (Raise e, tr')
    end.

(** [try: m  except Exception as e: h e] *)
Definition try_except {A} (m : M A) (h : exn -> M A) : M A :=
  fun tr =>
    match m tr with
    | (Ok a, tr') => (Ok a, tr')
    | (Raise e, tr') => h e tr'
    end.

Notation "x <- m ;; k" := (bind m (fun x => k))
  (at level 100, m at next level, right associativity).
Notation "m ;;; k" := (bind m (fun _ => k))
  (at level 100, right associativity).

Fixpoint foldM {A B} (f : A -> B -> M A) (l : list B) (a : A) : M A :=
  match l with
  | [] => ret a
  | x :: rest => a' <- f a x ;; foldM f rest a'
  end.

(** ** Operations of the Python runtime on dynamic values *)

Definition truthy (v : pyval) : bool :=
  match v with
  | VNone => false
  | VStr s => negb (String.eqb s EmptyString)
  | VInt n => negb (n =? 0)
  | VFloat (FFin q) => negb (Qeq_bool q 0)
  | VFloat _ => true
  end.

(** The exact value of an int among the floats. *)
Definition exact (n : Z) : pyfloat := FFin (inject_Z n).

Definition float_gt (a b : pyfloat) : bool :=
  match a, b with
  | FNan, _ | _, FNan => false
  | FInf true, _ => false
  | FInf false, FInf false => false
  | FInf false, _ => true
  | FFin _, FInf negative => negative
  | FFin p, FFin q => match Qcompare p q with Gt => true | _ => false end
  end.

Definition float_eq (a b : pyfloat) : bool :=
  match a, b with
  | FFin p, FFin q => Qeq_bool p q
  | FInf s, FInf t => Bool.eqb s t
  | _, _ => false
  end.

Definition string_gt (s t : string) : bool :=
  match String.compare s t with Gt => true | _ => false end.

(** [a > b] *)
Definition py_gt (a b : pyval) : result bool :=
  match a, b with
  | VInt m, VInt n => Ok (m >? n)
  | VInt m, VFloat g => Ok (float_gt (exact m) g)
  | VFloat f, VInt n => Ok (float_gt f (exact n))
  | VFloat f, VFloat g => Ok (float_gt f g)
  | VStr s, VStr t => Ok (string_gt s t)
  | _, _ => Raise (TypeError_operand ">" (type_name a) (type_name b))
  end.

(** [a == b], as a dictionary compares its keys *)
Definition py_eq (a b : pyval) : bool :=
  match a, b with
  | VNone, VNone => true
  | VStr s, VStr t => String.eqb s t
  | VInt m, VInt n => m =? n
  | VInt m, VFloat g => float_eq (exact m) g
  | VFloat f, VInt n => float_eq f (exact n)
  | VFloat f, VFloat g => float_eq f g
  | _, _ => false
  end.

(** [d.get(key, default)] and [d[key]] *)
Definition dict_get (d : dict) (key : string) (dflt : pyval) : pyval :=
  default dflt (d !! key).

Definition dict_item (d : dict) (key : string) : result pyval :=
  match d !! key with
  | Some v => Ok v
  | None => Raise (KeyError key)
  end.

(** [l[i]] for [0 <= i] *)
Definition list_item {A} (l : list A) (i : nat) : result A :=
  match l !! i with
  | Some x => Ok x
  | None => Raise IndexError
  end.

Section Runtime.
Context {rt : PyRuntime}.

(** [str(v)], which is also what an f-string field prints *)
Definition py_str (v : pyval) : string :=
  match v with
  | VNone => "None"
  | VStr s => s
  | VInt n => pretty n
  | VFloat f => float_repr f
  end.

(** [v // k] and [v % k] for an int literal [k]; on a string [%] is
    formatting, which the code never reaches: [//] comes first and raises. *)
Definition floordiv (v : pyval) (k : Z) : result pyval :=
  match v with
  | VInt n => Ok (VInt (n / k))
  | VFloat f => Ok (VFloat (float_floordiv f k))
  | _ => Raise (TypeError_operand "//" (type_name v) "int")
  end.

Definition modulo (v : pyval) (k : Z) : result pyval :=
  match v with
  | VInt n => Ok (VInt (n mod k))
  | VFloat f => Ok (VFloat (float_mod f k))
  | _ => Raise (TypeError_operand "%" (type_name v) "int")
  end.

(** [date.fromisoformat(v)] *)
Definition fromisoformat (v : pyval) : result date :=
  match v with
  | VStr s =>
      match parse_isoformat s with
      | Some d => Ok d
      | None => Raise (ValueError_isoformat s)
      end
  | _ => Raise (TypeError_argument "fromisoformat" (type_name v))
  end.

(** [float(s)] and [int(s)] for a string [s] *)
Definition py_float (s : string) : result pyval :=
  match parse_float s with
  | Some f => Ok (VFloat f)
  | None => Raise (ValueError_float s)
  end.

Definition py_int (s : string) : result pyval :=
  match parse_int s with
  | Some n => Ok (VInt n)
  | None => Raise (ValueError_int s)
  end.

Section Tools.
Variable env : Env.

(** *** Requests *)

Definition execute_select (q : query) : M (list dict) :=
  fun tr => (store_select env tr q, ESelect q :: tr).

Definition execute_insert (table : string) (row : dict) : M (option string) :=
  fun tr => (store_insert env tr table row, EInsert table row :: tr).

Definition llm_call (prompt : string) (stop : list string) : M string :=
  fun tr => (llm_invoke env tr prompt stop, ELlm prompt stop :: tr).

(** *** get_oura_sleep_score *)

Definition sleep_recent_query : query :=
  {| q_table := "oura_sleep"; q_columns := "day, score"; q_filters := [];
     q_order_desc := Some "day"; q_limit := Some 7 |}.

Definition get_oura_sleep_score (day : pyval) : M string :=
  try_except
    (parsed_date <- lift (fromisoformat day) ;;
     response <- execute_select sleep_recent_query ;;
     match response with
     | data :: _ =>
         let result := "Sleep data for " +:+ py_str day +:+ ":" in
         let result := result +:+ nl +:+ "- Score: "
                         +:+ py_str (dict_get data "score" (VStr "N/A")) in
         let duration := dict_get data "total_sleep_duration" VNone in
         result <- (if truthy duration then
                      hours <- lift (floordiv duration 3600) ;;
                      rest <- lift (modulo duration 3600) ;;
                      minutes <- lift (floordiv rest 60) ;;
                      ret (result +:+ nl +:+ "- Total sleep: " +:+ py_str hours
                             +:+ "h " +:+ py_str minutes +:+ "m")
                    else ret result) ;;
         ret (result +:+ nl +:+ "- Efficiency: "
                +:+ py_str (dict_get data "efficiency" (VStr "N/A")) +:+ "%")
     | [] =>
         (* f"No Oura sleep data found for {summary_date}.": the name is
            bound nowhere *)
         raise (NameError "summary_date")
     end)
    (fun e => ret ("Error while fetching sleep data: " +:+ exn_str e)).

(** *** get_oura_activity_steps *)

Definition activity_day_query (day : string) : query :=
  {| q_table := "oura_activity"; q_columns := "steps, active_calories, score";
     q_filters := [Eq "day" day]; q_order_desc := None; q_limit := None |}.

Definition get_oura_activity_steps (day : pyval) : M string :=
  try_except
    (parsed_date <- lift (fromisoformat day) ;;
     response <- execute_select (activity_day_query (isoformat parsed_date)) ;;
     match response with
     | data :: _ =>
         let result := "Activity data for " +:+ py_str day +:+ ":" in
         steps <- lift (format_thousands (dict_get data "steps" (VInt 0))) ;;
         let result := result +:+ nl +:+ "- Steps: " +:+ steps in
         let result := result +:+ nl +:+ "- Active calories: "
                         +:+ py_str (dict_get data "active_calories" (VStr "N/A")) in
         let result := result +:+ nl +:+ "- Activity score: "
                         +:+ py_str (dict_get data "score" (VStr "N/A")) in
         ret result
     | [] => ret ("No activity data found for " +:+ py_str day +:+ ".")
     end)
    (fun e => ret ("Error while fetching activity data: " +:+ exn_str e)).

(** *** log_gym_set *)

Definition invalid_parameters_message : string :=
  "Error: Missing or invalid workout parameters. Please check exercise name, weight, reps, and set number.".

Definition internal_error_message : string :=
  "An internal error occurred while trying to log the workout.".

Definition workout_row (date_str exercise weight reps sets : pyval) : dict :=
  <["workout_date" := date_str]>
    (<["exercise_name" := exercise]>
       (<["weight_kg" := weight]>
          (<["repetitions" := reps]>
             (<["sets" := sets]> ∅)))).

Definition confirmation (date_str exercise weight reps sets : pyval) : string :=
  "Successfully logged Set " +:+ py_str sets +:+ " of " +:+ py_str exercise
    +:+ " (" +:+ py_str weight +:+ "kg x " +:+ py_str reps +:+ " reps) for "
    +:+ py_str date_str +:+ ".".

(** [exercise and weight > 0 and reps > 0 and sets > 0], left to right *)
Definition parameters_ok (exercise weight reps sets : pyval) : result bool :=
  if truthy exercise then
    match py_gt weight (VInt 0) with
    | Ok true =>
        match py_gt reps (VInt 0) with
        | Ok true => py_gt sets (VInt 0)
        | other => other
        end
    | other => other
    end
  else Ok false.

Definition log_gym_set (date_str exercise weight reps sets : pyval) : M string :=
  try_except
    (_ <- lift (fromisoformat date_str) ;;
     ok <- lift (parameters_ok exercise weight reps sets) ;;
     if negb ok then ret invalid_parameters_message
     else
       let data := workout_row date_str exercise weight reps sets in
       response_error <- execute_insert "manual_workouts" data ;;
       match response_error with
       | Some err => ret ("Error: Failed to insert set. Details: " +:+ err)
       | None => ret (confirmation date_str exercise weight reps sets)
       end)
    (fun e => ret internal_error_message).

(** *** get_readiness_report *)

(** The window: [end] from [end_date] or today, [start] from [start_date]
    or three days before [end]; each in its own [try], whose handler
    computes the default again. *)
Definition readiness_window (start_date end_date : pyval) : M (date * date) :=
  end_ <- try_except
            (if truthy end_date then lift (fromisoformat end_date)
             else ret (today env))
            (fun _ => ret (today env)) ;;
  start <- try_except
             (if truthy start_date then lift (fromisoformat start_date)
              else lift (date_sub_days end_ 3))
             (fun _ => lift (date_sub_days end_ 3)) ;;
  ret (start, end_).

Definition range_query (table columns column : string) (start end_ : date) : query :=
  {| q_table := table; q_columns := columns;
     q_filters := [Gte column (isoformat start); Lte column (isoformat end_)];
     q_order_desc := Some column; q_limit := None |}.

Definition report_header (start end_ : date) : string :=
  "--- HEALTH READINESS REPORT (" +:+ isoformat start +:+ " to "
    +:+ isoformat end_ +:+ ") ---" +:+ nl.

Definition no_data_sentinel : string :=
  "No recent Oura or manual workout data found to generate advice.".

(** One pass of the loop over the sleep records. *)
Definition sleep_line (report : string) (record : dict) : M string :=
  let duration := dict_get record "total_sleep_duration" (VInt 0) in
  hours <- lift (floordiv duration 3600) ;;
  rest <- lift (modulo duration 3600) ;;
  minutes <- lift (floordiv rest 60) ;;
  day <- lift (dict_item record "day") ;;
  ret (report +:+ " - " +:+ py_str day +:+ ": Score "
         +:+ py_str (dict_get record "score" (VStr "N/A")) +:+ ", Duration "
         +:+ py_str hours +:+ "h " +:+ py_str minutes +:+ "m, Efficiency "
         +:+ py_str (dict_get record "efficiency" (VStr "N/A")) +:+ "%" +:+ nl).

Definition sleep_section (report : string) (data : list dict) : M string :=
  match data with
  | _ :: _ => foldM sleep_line data (report +:+ nl +:+ "SLEEP SUMMARY:" +:+ nl)
  | [] => ret (report +:+ nl +:+ "SLEEP SUMMARY: No data available" +:+ nl)
  end.

(** One pass of the loop over the activity records. *)
Definition activity_line (report : string) (record : dict) : M string :=
  day <- lift (dict_item record "day") ;;
  steps <- lift (format_thousands (dict_get record "steps" (VInt 0))) ;;
  ret (report +:+ " - " +:+ py_str day +:+ ": Steps " +:+ steps +:+ ", Calories "
         +:+ py_str (dict_get record "active_calories" (VStr "N/A")) +:+ ", Score "
         +:+ py_str (dict_get record "score" (VStr "N/A")) +:+ nl).

Definition activity_section (report : string) (data : list dict) : M string :=
  match data with
  | _ :: _ => foldM activity_line data (report +:+ nl +:+ "ACTIVITY SUMMARY:" +:+ nl)
  | [] => ret (report +:+ nl +:+ "ACTIVITY SUMMARY: No data available" +:+ nl)
  end.

(** The value kept per exercise: [{'weight': .., 'reps': .., 'date': ..}]. *)
Record lift_entry : Type := {
  e_weight : pyval;
  e_reps : pyval;
  e_date : pyval
}.

(** The dictionary [exercises]: keys in the order of their first insertion,
    as a Python dict iterates them. *)
Definition exercises_dict : Type := list (pyval * lift_entry).

Fixpoint exercises_get (key : pyval) (d : exercises_dict) : option lift_entry :=
  match d with
  | [] => None
  | (k, v) :: rest => if py_eq k key then Some v else exercises_get key rest
  end.

(** [exercises[key] = v]: a key already present keeps its key and place. *)
Fixpoint exercises_set (key : pyval) (v : lift_entry) (d : exercises_dict)
  : exercises_dict :=
  match d with
  | [] => [(key, v)]
  | (k, w) :: rest =>
      if py_eq k key then (k, v) :: rest else (k, w) :: exercises_set key v rest
  end.

(** One pass of the loop that groups the workout records. *)
Definition max_lift_step (exercises : exercises_dict) (record : dict)
  : M exercises_dict :=
  ex_name <- lift (dict_item record "exercise_name") ;;
  let weight := dict_get record "weight_kg" (VInt 0) in
  heavier <- match exercises_get ex_name exercises with
             | None => ret true
             | Some best => lift (py_gt weight (e_weight best))
             end ;;
  if heavier : bool then
    workout_date <- lift (dict_item record "workout_date") ;;
    ret (exercises_set ex_name
           {| e_weight := weight;
              e_reps := dict_get record "repetitions" (VInt 0);
              e_date := workout_date |} exercises)
  else ret exercises.

Definition max_lifts (data : list dict) : M exercises_dict :=
  foldM max_lift_step data [].

Definition lift_line (report : string) (item : pyval * lift_entry) : string :=
  let '(ex_name, data) := item in
  report +:+ " - " +:+ py_str ex_name +:+ ": Max " +:+ py_str (e_weight data)
    +:+ "kg x " +:+ py_str (e_reps data) +:+ " reps on " +:+ py_str (e_date data)
    +:+ nl.

Definition workout_section (report : string) (data : list dict) : M string :=
  match data with
  | _ :: _ =>
      exercises <- max_lifts data ;;
      ret (fold_left lift_line exercises (report +:+ nl +:+ "RECENT WORKOUTS:" +:+ nl))
  | [] => ret (report +:+ nl +:+ "RECENT WORKOUTS: No data available" +:+ nl)
  end.

Definition sleep_range_query (start end_ : date) : query :=
  range_query "oura_sleep" "day, score, total_sleep_duration, efficiency" "day"
    start end_.

Definition activity_range_query (start end_ : date) : query :=
  range_query "oura_activity" "day, steps, active_calories, score" "day"
    start end_.

Definition workout_range_query (start end_ : date) : query :=
  range_query "manual_workouts"
    "workout_date, exercise_name, weight_kg, repetitions, sets" "workout_date"
    start end_.

Definition get_readiness_report (start_date end_date : pyval) : M string :=
  if negb (supabase_available env) then ret "Database connection not available."
  else
    window <- readiness_window start_date end_date ;;
    let '(start, end_) := window in
    try_except
      (sleep_res <- execute_select (sleep_range_query start end_) ;;
       activity_res <- execute_select (activity_range_query start end_) ;;
       workout_res <- execute_select (workout_range_query start end_) ;;
       let report := report_header start end_ in
       report <- sleep_section report sleep_res ;;
       report <- activity_section report activity_res ;;
       report <- workout_section report workout_res ;;
       if String.eqb report (report_header start end_)
       then ret no_data_sentinel
       else ret report)
      (fun e =>
         ret ("An error occurred while accessing the aggregated data for the report: "
                +:+ exn_str e)).

(** *** The registry *)

Inductive tool : Type :=
| GetOuraSleepScore
| GetOuraActivitySteps
| LogGymSet
| GetReadinessReport.

Definition tool_name (t : tool) : string :=
  match t with
  | GetOuraSleepScore => "get_oura_sleep_score"
  | GetOuraActivitySteps => "get_oura_activity_steps"
  | LogGymSet => "log_gym_set"
  | GetReadinessReport => "get_readiness_report"
  end.

(** First line of the description, which the decorator takes from the
    docstring. *)
Definition tool_summary (t : tool) : string :=
  match t with
  | GetOuraSleepScore =>
      "Retrieves the Oura sleep score and details for a specific date (YYYY-MM-DD)."
  | GetOuraActivitySteps =>
      "Retrieves total steps and active calories for a specific date (YYYY-MM-DD)."
  | LogGymSet =>
      "Logs a single set of a gym workout. Input requires date (YYYY-MM-DD), exercise name (text), weight (float), repetitions (int), and set number (int)."
  | GetReadinessReport =>
      "Gathers a summary of recent sleep, steps, and maximal lifts for training advice."
  end.

(** [tools_dict.values()]: empty unless the store client exists. *)
Definition tools_dict : list tool :=
  if supabase_available env
  then [GetOuraSleepScore; GetOuraActivitySteps; LogGymSet; GetReadinessReport]
  else [].

(** [tools_dict.get(name)] *)
Definition tools_dict_get (name : string) : option tool :=
  find (fun t => String.eqb (tool_name t) name) tools_dict.

(** [tool_func.func( *args )]: Python binds the positional arguments to the
    parameters and raises TypeError when they do not fit; when they fit the
    function is entered, which the trace records. *)
Definition call_tool (t : tool) (args : list pyval) : M string :=
  let entered (body : M string) : M string :=
    fun tr => body (ECall (tool_name t) args :: tr) in
  match t, args with
  | GetOuraSleepScore, [day] => entered (get_oura_sleep_score day)
  | GetOuraActivitySteps, [day] => entered (get_oura_activity_steps day)
  | LogGymSet, [date_str; exercise; weight; reps; sets] =>
      entered (log_gym_set date_str exercise weight reps sets)
  | GetReadinessReport, [] => entered (get_readiness_report VNone VNone)
  | GetReadinessReport, [start_date] =>
      entered (get_readiness_report start_date VNone)
  | GetReadinessReport, [start_date; end_date] =>
      entered (get_readiness_report start_date end_date)
  | _, _ => raise (TypeError_arity (tool_name t) (length args))
  end.

(** *** process_query *)

Definition tools_desc : string :=
  join nl (map (fun t => "- " +:+ tool_name t +:+ ": " +:+ strip (tool_summary t))
             tools_dict).

Definition decision_prompt (today_ yesterday : date) (user_query : string) : string :=
  join nl
    [ "You are a health assistant and decision-maker. Your sole task is to determine the appropriate action based on the user's request.";
      EmptyString;
      "    Available tools:";
      "    " +:+ tools_desc;
      "    ";
      "    Current Date Context:";
      "    - Today's date: " +:+ isoformat today_;
      "    - Yesterday's date: " +:+ isoformat yesterday;
      EmptyString;
      "    User Request: " +:+ dquote +:+ user_query +:+ dquote;
      EmptyString;
      "    ---";
      "    Decide ONLY ONE of the following actions. DO NOT include any extra text.";
      EmptyString;
      "    ACTION: TOOL_CALL | <tool_name> | <tool_input_1> | <tool_input_2> ...";
      "    ACTION: DIRECT_ANSWER | <Your natural language response>";
      EmptyString;
      "    If the request is a simple greeting (e.g., 'hi'), or non-data related, use DIRECT_ANSWER.";
      "    If the tool needs a date but the user says 'yesterday', use the exact date "
        +:+ isoformat yesterday +:+ ".";
      EmptyString;
      "    Example Output 1 (Log): ACTION: TOOL_CALL | log_gym_set | "
        +:+ isoformat today_ +:+ " | Bench Press | 80.5 | 5 | 1";
      "    Example Output 2 (Query): ACTION: TOOL_CALL | get_oura_sleep_score | "
        +:+ isoformat yesterday;
      "    Example Output 3 (Greeting): ACTION: DIRECT_ANSWER | Hello there! How can I help you check your metrics today?";
      EmptyString;
      "    Your concise response (start immediately with ACTION: TOOL_CALL or ACTION: DIRECT_ANSWER):";
      "    " ].

(** The coaching block, read from [USER_PROFILE] when the report tool ran. *)
Definition coaching_instruction (name : string) : result string :=
  if String.eqb name "get_readiness_report" then
    match dict_item (USER_PROFILE env) "age" with
    | Raise e => Raise e
    | Ok age =>
    match dict_item (USER_PROFILE env) "weight" with
    | Raise e => Raise e
    | Ok weight =>
    match dict_item (USER_PROFILE env) "height" with
    | Raise e => Raise e
    | Ok height =>
        Ok (nl +:+ "USER PROFILE: Age " +:+ py_str age +:+ ", Weight "
              +:+ py_str weight +:+ "kg, Height " +:+ py_str height +:+ "cm. "
              +:+ nl +:+ "Use the data and this profile information to provide specific, actionable training advice: "
              +:+ "1. Suggest a good training intensity (e.g., heavy, light, or rest day). 2. Recommend a focus (e.g., recovery or volume). "
              +:+ "3. Base advice on low sleep scores (<70) or low total sleep duration (<7h) indicating a strong need for recovery.")
    end end end
  else Ok EmptyString.

Definition format_prompt (tool_result user_query coaching : string) : string :=
  join nl
    [ "Based on this data:";
      tool_result;
      "Provide a friendly, natural, conversational answer to the user request: "
        +:+ dquote +:+ user_query +:+ dquote;
      coaching;
      "Be concise, warm, and helpful. Do not mention the word 'tool' or 'database'. Just give a natural response." ].

(** [clean_tool_inputs = [i for i in tool_inputs if i]] *)
Definition clean_inputs (tool_inputs : list string) : list string :=
  List.filter (fun i => negb (String.eqb i EmptyString)) tool_inputs.

(** The list [typed_inputs] of the [log_gym_set] branch, built left to right. *)
Definition typed_inputs (tool_inputs : list string) : result (list pyval) :=
  match list_item tool_inputs 0 with Raise e => Raise e | Ok date_str =>
  match list_item tool_inputs 1 with Raise e => Raise e | Ok exercise =>
  match list_item tool_inputs 2 with Raise e => Raise e | Ok w =>
  match py_float w with Raise e => Raise e | Ok weight =>
  match list_item tool_inputs 3 with Raise e => Raise e | Ok r =>
  match py_int r with Raise e => Raise e | Ok reps =>
  match list_item tool_inputs 4 with Raise e => Raise e | Ok s =>
  match py_int s with Raise e => Raise e | Ok sets =>
    Ok [VStr date_str; VStr exercise; weight; reps; sets]
  end end end end end end end end.

(** The branch on the tool name that follows the first call. *)
Definition branch_call (tool_func : tool) (name : string) (tool_inputs : list string)
  : M string :=
  if String.eqb name "log_gym_set" then
    args <- lift (typed_inputs tool_inputs) ;;
    call_tool tool_func args
  else if String.eqb name "get_readiness_report" then
    match tool_inputs with
    | a :: b :: _ => call_tool tool_func [VStr a; VStr b]
    | [a] => call_tool tool_func [VStr a]
    | [] => call_tool tool_func []
    end
  else call_tool tool_func (map VStr tool_inputs).

Definition tool_error_reply (e : exn) : string :=
  "Sorry, I ran into an error trying to execute the action. Please check the date format or simplify your request. Error: "
    +:+ exn_str e.

Definition malformed_reply : string :=
  "Sorry, I couldn't understand the AI's response format. Try asking a specific question about sleep, activity, or logging a set.".

(** The body of the inner [try] of the TOOL_CALL branch. *)
Definition execute_tool_call (decision user_query : string) : M string :=
  let parts := split_on "|" decision in
  name_field <- lift (list_item parts 1) ;;
  let name := strip name_field in
  let tool_inputs := map strip (drop 2 parts) in
  match tools_dict_get name with
  | None => ret ("Error: Tool '" +:+ name +:+ "' not found.")
  | Some tool_func =>
      let clean_tool_inputs := clean_inputs tool_inputs in
      tool_result <- call_tool tool_func (map VStr clean_tool_inputs) ;;
      tool_result <- branch_call tool_func name tool_inputs ;;
      coaching <- lift (coaching_instruction name) ;;
      llm_call (format_prompt tool_result user_query coaching) []
  end.

Definition process_query (user_query : string) : M string :=
  if negb (llm_ready env) then ret "AI model is not running. Please start Ollama."
  else
    let today_ := today env in
    yesterday <- lift (date_sub_days today_ 1) ;;
    try_except
      (answer <- llm_call (decision_prompt today_ yesterday user_query) [nl] ;;
       let decision := strip answer in
       if String.prefix "ACTION: TOOL_CALL" decision then
         try_except (execute_tool_call decision user_query)
           (fun e => ret (tool_error_reply e))
       else if String.prefix "ACTION: DIRECT_ANSWER" decision then
         ret (strip (replace "ACTION: DIRECT_ANSWER |" EmptyString decision))
       else ret malformed_reply)
      (fun e => ret ("Sorry, I encountered a critical error: " +:+ exn_str e)).

End Tools.
End Runtime.

(** ** Loading the user profile at start-up *)

(** What [open("polar_token.json")] and [json.load] find. *)
Inductive profile_file : Type :=
| FileMissing
| FileNotJson
| FileJsonObject (fields : dict)
| FileJsonOther.

Definition load_user_profile (file : profile_file) : dict :=
  match file with
  | FileJsonObject polar_token_data =>
      <["age" := dict_get polar_token_data "age" (VInt 35)]>
        (<["weight" := dict_get polar_token_data "weight" (VInt 59)]>
           (<["height" := dict_get polar_token_data "height" (VInt 162)]>
              (<["gender" := dict_get polar_token_data "gender" (VStr "FEMALE")]> ∅)))
  | FileMissing | FileNotJson | FileJsonOther =>
      (* the handler only prints a warning: USER_PROFILE stays {} *)
      ∅
  end.

(** ** The page: start-up of the completion service, status and chat *)

Section Page.
Context {rt : PyRuntime}.
Variable env : Env.

(** The start-up block of the completion service: [llm] is assigned when
    the client is constructed, [ollama_available] only after the probe
    request ["Say OK"] has been answered. The result is the pair
    ([llm] is not [None], [ollama_available]). *)
Definition init_ollama (construct : result unit) : M (bool * bool) :=
  match construct with
  | Raise _ => ret (false, false)
  | Ok _ =>
      try_except
        (_ <- llm_call env "Say OK" [] ;; ret (true, true))
        (fun _ => ret (true, false))
  end.

(** The three branches of the status shown in the sidebar; [None] when no
    branch is taken. *)
Inductive status : Type :=
| AgentReady
| OllamaError
| SupabaseError.

Definition sidebar_status (ollama_available : bool) : option status :=
  if ollama_available && supabase_available env then Some AgentReady
  else if negb ollama_available then Some OllamaError
  else if negb (supabase_available env) then Some SupabaseError
  else None.

(** An entry of [st.session_state.messages]. *)
Record message : Type := {
  role : string;
  content : string
}.

Definition components_missing_reply : string :=
  "AI components are not initialized. Please check the System Status sidebar.".

(** The block run when the chat box delivers an input: [messages] is the
    list kept in the session state, the result is the list afterwards. An
    input that is absent or empty is falsy and skips the block. The first
    value given to [assistant_response] is overwritten on every path and
    left out. The rendering of the messages is not modelled. *)
Definition chat_turn (ollama_available : bool) (messages : list message)
    (user_input : option string) : M (list message) :=
  match user_input with
  | None => ret messages
  | Some text =>
      if String.eqb text EmptyString then ret messages
      else
        let messages := messages ++ [{| role := "user"; content := text |}] in
        assistant_response <-
          (if ollama_available && supabase_available env then
             try_except (process_query env text)
               (fun e =>
                  ret ("Sorry, an error occurred while the AI was processing: "
                         +:+ exn_str e))
           else ret components_missing_reply) ;;
        ret (messages
               ++ [{| role := "assistant"; content := assistant_response |}])
  end.

End Page.

(** * Vocabulary of the properties *)

(** ** Traces: what a computation adds to the history *)

(** Kinds of events. *)
Definition is_llm (e : event) : bool :=
  match e with ELlm _ _ => true | _ => false end.

Definition is_store (e : event) : bool :=
  match e with ESelect _ | EInsert _ _ => true | _ => false end.

Definition is_insert (e : event) : bool :=
  match e with EInsert _ _ => true | _ => false end.

Definition is_call (e : event) : bool :=
  match e with ECall _ _ => true | _ => false end.

(** Completion requests, store round trips, inserts and tool entries among
    the events [ev]. *)
Definition n_llm (ev : list event) : nat := length (List.filter is_llm ev).
Definition n_store (ev : list event) : nat := length (List.filter is_store ev).
Definition n_insert (ev : list event) : nat := length (List.filter is_insert ev).
Definition calls (ev : list event) : list event := List.filter is_call ev.

(** Round trips a tool may make each time it is entered: the report reads
    three tables, every other tool sends one request. *)
Definition trips_allowed (e : event) : nat :=
  match e with
  | ECall name _ => if String.eqb name "get_readiness_report" then 3 else 1
  | _ => 0
  end.

(** The round trips the entries among [ev] allow together. *)
Definition trip_budget (ev : list event) : nat :=
  list_sum (map trips_allowed ev).

(** [m] adds events [ev] with [P ev] to any history. *)
Definition emits {A} (P : list event -> Prop) (m : M A) : Prop :=
  forall tr, exists ev, snd (m tr) = ev ++ tr /\ P ev.

(** [m] sends no request and enters no tool. *)
Definition pure {A} (m : M A) : Prop := forall tr, snd (m tr) = tr.

(** [m] returns: no exception leaves it. *)
Definition returns {A} (m : M A) : Prop := forall tr, exists a, fst (m tr) = Ok a.

(** Events that are store requests, at most [k] of them. *)
Definition store_only (k : nat) (ev : list event) : Prop :=
  forallb is_store ev = true /\ (length ev <= k)%nat.

(** What a call adds: nothing when the arguments do not fit, else the entry
    and then the requests of the body. *)
Definition call_events (t : tool) (args : list pyval) (ev : list event) : Prop :=
  ev = [] \/
  exists body,
    ev = body ++ [ECall (tool_name t) args]
    /\ store_only (trips_allowed (ECall (tool_name t) args)) body.

(** The tool phase of a query: no completion request, and no more round
    trips than the entered tools may make. *)
Definition tool_phase (ev : list event) : Prop :=
  n_llm ev = 0%nat /\ (n_store ev <= trip_budget ev)%nat.

(** The query phase: the tool phase and then at most one completion
    request. *)
Definition query_phase (k : nat) (ev : list event) : Prop :=
  (n_llm ev <= k)%nat /\ (n_store ev <= trip_budget ev)%nat.

(** ** The dispatch of a decision *)

Section Dispatch.
Context {rt : PyRuntime}.
Variable env : Env.

(** The report of a window without records: the header and the three
    placeholders. *)
Definition empty_report (start end_ : date) : string :=
  report_header start end_
    +:+ (nl +:+ "SLEEP SUMMARY: No data available" +:+ nl)
    +:+ (nl +:+ "ACTIVITY SUMMARY: No data available" +:+ nl)
    +:+ (nl +:+ "RECENT WORKOUTS: No data available" +:+ nl).

(** The arguments of the call in the branch on the tool name. *)
Definition branch_args (name : string) (tool_inputs : list string)
  : result (list pyval) :=
  if String.eqb name "log_gym_set" then typed_inputs tool_inputs
  else if String.eqb name "get_readiness_report" then
    match tool_inputs with
    | a :: b :: _ => Ok [VStr a; VStr b]
    | [a] => Ok [VStr a]
    | [] => Ok []
    end
  else Ok (map VStr tool_inputs).

(** The decision request of [user_query] after history [tr] is answered
    with a TOOL_CALL line; split on the bar, its field 1 trims to [name]
    and its fields from 2 on trim to [tool_inputs]. *)
Definition decides_tool_call (user_query : string) (tr : trace)
    (name : string) (tool_inputs : list string) : Prop :=
  llm_ready env = true
  /\ exists answer name_field,
       llm_invoke env tr
         (decision_prompt env (today env) (today env - 1) user_query) [nl]
       = Ok answer
       /\ String.prefix "ACTION: TOOL_CALL" (strip answer) = true
       /\ split_on "|" (strip answer) !! 1%nat = Some name_field
       /\ name = strip name_field
       /\ tool_inputs = map strip (drop 2 (split_on "|" (strip answer))).

(** The decision request of [user_query]. *)
Definition decision_event (user_query : string) : event :=
  ELlm (decision_prompt env (today env) (today env - 1) user_query) [nl].

(** The dispatch ended in the error reply of its handler, after no, one or
    two entries into the tool and without a synthesis request. *)
Definition error_outcome (name : string) (tool_inputs : list string)
    (tr0 : trace) (out : result string * trace) : Prop :=
  let first := ECall name (map VStr (clean_inputs tool_inputs)) in
  exists e ev,
    out = (Ok (tool_error_reply e), ev ++ tr0)
    /\ n_llm ev = 0%nat
    /\ (calls ev = [] \/ calls ev = [first]
        \/ exists args,
             branch_args name tool_inputs = Ok args
             /\ calls ev = [ECall name args; first]).

(** The dispatch reached the synthesis request: the tool was entered with
    the cleaned strings and returned [r1], then with the arguments of the
    branch and returned [result], which the prompt carries. *)
Definition synthesis_outcome (t : tool) (name : string)
    (tool_inputs : list string) (user_query : string) (tr0 : trace)
    (out : result string * trace) : Prop :=
  let first := ECall name (map VStr (clean_inputs tool_inputs)) in
  exists args r1 body1 result body2 coaching,
    branch_args name tool_inputs = Ok args
    /\ store_only (trips_allowed first) body1
    /\ store_only (trips_allowed first) body2
    /\ call_tool env t (map VStr (clean_inputs tool_inputs)) tr0
       = (Ok r1, body1 ++ first :: tr0)
    /\ call_tool env t args (body1 ++ first :: tr0)
       = (Ok result, body2 ++ ECall name args :: body1 ++ first :: tr0)
    /\ coaching_instruction env name = Ok coaching
    /\ out
       = (Ok (match llm_invoke env
                      (body2 ++ ECall name args :: body1 ++ first :: tr0)
                      (format_prompt result user_query coaching) [] with
              | Ok reply => reply
              | Raise e => tool_error_reply e
              end),
          ELlm (format_prompt result user_query coaching) []
            :: body2 ++ ECall name args :: body1 ++ first :: tr0).

(** The trimmed fields taken by position, none dropped: the first five for
    [log_gym_set], coerced to (str, str, float, int, int) in the order of its
    parameters; the first two for [get_readiness_report]; all of them for
    the other tools. *)
Definition positional_args (name : string) (fields : list string)
  : option (list pyval) :=
  if String.eqb name "log_gym_set" then
    match fields with
    | date_str :: exercise :: weight :: reps :: sets :: _ =>
        match parse_float weight, parse_int reps, parse_int sets with
        | Some w, Some r, Some s =>
            Some [VStr date_str; VStr exercise; VFloat w; VInt r; VInt s]
        | _, _, _ => None
        end
    | _ => None
    end
  else if String.eqb name "get_readiness_report" then
    Some (map VStr (take 2 fields))
  else Some (map VStr fields).

(** The date an argument supplies: it is given, not empty, and parses. *)
Definition supplied (v : pyval) : option date :=
  if truthy v then
    match fromisoformat v with
    | Ok d => Some d
    | Raise _ => None
    end
  else None.

End Dispatch.

(** ** The heaviest lift per exercise *)

(** [a > b] on rationals. *)
Definition Qgtb (a b : Q) : bool :=
  match Qcompare a b with Gt => true | _ => false end.

(** The number a JSON number denotes. *)
Definition num_value (v : pyval) : option Q :=
  match v with
  | VInt n => Some (inject_Z n)
  | VFloat (FFin q) => Some q
  | _ => None
  end.

Definition named (record : dict) (name : string) : Prop :=
  record !! "exercise_name" = Some (VStr name).

(** A workout record as the data model has it: a text name, a date, and a
    number (or nothing, read as 0) as weight. *)
Definition conforms (record : dict) : Prop :=
  (exists name, named record name)
  /\ is_Some (record !! "workout_date")
  /\ is_Some (num_value (dict_get record "weight_kg" (VInt 0))).

(** The weight the aggregation compares. *)
Definition weight_of (record : dict) : Q :=
  default 0%Q (num_value (dict_get record "weight_kg" (VInt 0))).

(** What the aggregation keeps of a record. *)
Definition entry_of (record : dict) : lift_entry :=
  {| e_weight := dict_get record "weight_kg" (VInt 0);
     e_reps := dict_get record "repetitions" (VInt 0);
     e_date := dict_get record "workout_date" VNone |}.

(** [records !! i] is the heaviest record named [name], and the first of
    the heaviest ones. *)
Definition first_heaviest (records : list dict) (name : string) (i : nat)
    (record : dict) : Prop :=
  records !! i = Some record
  /\ named record name
  /\ forall j other,
       records !! j = Some other -> named other name ->
       (weight_of other <= weight_of record)%Q
       /\ ((j < i)%nat -> (weight_of other < weight_of record)%Q).

(** What the dictionary holds after the records [seen]. *)
Definition keeps_heaviest (seen : list dict) (exercises : exercises_dict) : Prop :=
  forall name,
    match exercises_get (VStr name) exercises with
    | None => forall record, record ∈ seen -> ~ named record name
    | Some entry =>
        exists i record,
          first_heaviest seen name i record /\ entry = entry_of record
    end.

(** ** Round trips, entry by entry *)

(** The events from the oldest on: [allowed] is the number of round trips
    left to the tool entered last. An entry allows the round trips of its
    tool, a completion request ends the allowance, and a store request
    takes one; the result is what is left at the end, or [None] when a
    store request is made that no entry allows. *)
Fixpoint trips_left (allowed : nat) (oldest_first : list event) : option nat :=
  match oldest_first with
  | [] => Some allowed
  | ECall name args :: rest => trips_left (trips_allowed (ECall name args)) rest
  | ELlm _ _ :: rest => trips_left 0 rest
  | (ESelect _ | EInsert _ _) :: rest =>
      match allowed with
      | S fewer => trips_left fewer rest
      | O => None
      end
  end.

(** Every store request among [ev] (newest first) is made inside an entry
    into a tool, at most three of them per entry into the report tool and
    at most one per entry into any other tool. *)
Definition trips_per_entry (ev : list event) : Prop :=
  is_Some (trips_left 0 (rev ev)).

(** The same from any allowance: the events owe nothing to an earlier
    entry. *)
Definition self_contained (ev : list event) : Prop :=
  forall allowed, is_Some (trips_left allowed (rev ev)).

(** ** The parameters of the tools *)

(** The numbers of positional arguments that fit the parameters: [day];
    [day]; [date_str, exercise, weight, reps, sets]; [start_date=None,
    end_date=None]. *)
Definition accepts (t : tool) (n : nat) : bool :=
  match t with
  | GetOuraSleepScore | GetOuraActivitySteps => (n =? 1)%nat
  | LogGymSet => (n =? 5)%nat
  | GetReadinessReport => (n <=? 2)%nat
  end.

(** ** Text: occurrences *)

(** [old] occurs in [s], at some position. *)
Fixpoint occurs (old s : string) : bool :=
  String.prefix old s
  || match s with
     | String _ s' => occurs old s'
     | EmptyString => false
     end.

(** The character [c] occurs in [s]. *)
Fixpoint has_char (c : ascii) (s : string) : bool :=
  match s with
  | String x s' => Ascii.eqb x c || has_char c s'
  | EmptyString => false
  end.

(** ** Records the report can render *)

(** An int or a float. *)
Definition numeric (v : pyval) : bool :=
  match v with
  | VInt _ | VFloat _ => true
  | VNone | VStr _ => false
  end.

(** A sleep record whose line can be rendered: its duration (0 when the key
    is missing) is a number and it has a day. *)
Definition sleep_record_ok (record : dict) : bool :=
  numeric (dict_get record "total_sleep_duration" (VInt 0))
  && bool_decide (is_Some (record !! "day")).

Section ReportNotions.
Context {rt : PyRuntime}.

(** The result of the report tool when its handler caught [x]. *)
Definition report_failed (x : exn) : string :=
  "An error occurred while accessing the aggregated data for the report: "
    +:+ exn_str x.

(** The history after the first [k] of the three queries of the report
    were sent after [tr]. *)
Definition report_requested (start end_ : date) (k : nat) (tr : trace) : trace :=
  rev (map ESelect
         (take k [sleep_range_query start end_;
                  activity_range_query start end_;
                  workout_range_query start end_]))
    ++ tr.

End ReportNotions.

(** ** Exercise names in the order of their first appearance *)

Definition name_of (record : dict) : option string :=
  match record !! "exercise_name" with
  | Some (VStr name) => Some name
  | _ => None
  end.

Definition add_name (seen : list string) (name : string) : list string :=
  if bool_decide (name ∈ seen) then seen else seen ++ [name].

Definition first_seen (names : list string) : list string :=
  fold_left add_name names [].

(** ** The same environment with another profile *)

Definition with_profile (profile : dict) (env : Env) : Env :=
  {| clock_days := clock_days env;
     llm_ready := llm_ready env;
     supabase_available := supabase_available env;
     USER_PROFILE := profile;
     llm_invoke := llm_invoke env;
     store_select := store_select env;
     store_insert := store_insert env |}.

(** ** A reference runtime

    The runtime the closed examples below are evaluated with. It follows
    CPython on the plain forms: dates written YYYY-MM-DD, integers and
    floats written in decimal with an optional sign, floats that are short
    decimals. It rejects the other forms CPython reads (exponents,
    underscores, inf and nan, white space around a number, week dates);
    the examples use none of them. *)

Module Reference.

Definition digit_value (c : ascii) : option Z :=
  let n := Z.of_nat (nat_of_ascii c) in
  if (48 <=? n) && (n <=? 57) then Some (n - 48) else None.

Fixpoint digits_go (acc : Z) (s : string) : option Z :=
  match s with
  | EmptyString => Some acc
  | String c s' =>
      match digit_value c with
      | Some d => digits_go (10 * acc + d) s'
      | None => None
      end
  end.

(** A non-empty run of decimal digits. *)
Definition digits (s : string) : option Z :=
  match s with
  | EmptyString => None
  | _ => digits_go 0 s
  end.

Definition is_leap (y : Z) : bool :=
  (y mod 4 =? 0) && (negb (y mod 100 =? 0) || (y mod 400 =? 0)).

Definition days_in_month (y m : Z) : Z :=
  if m =? 2 then (if is_leap y then 29 else 28)
  else if (m =? 4) || (m =? 6) || (m =? 9) || (m =? 11) then 30
  else 31.

Definition days_before_year (y : Z) : Z :=
  let p := y - 1 in p * 365 + p / 4 - p / 100 + p / 400.

(** Days of year [y] before the first of month [S k]. *)
Fixpoint days_before_month (y : Z) (k : nat) : Z :=
  match k with
  | O => 0
  | S j => days_before_month y j + days_in_month y (Z.of_nat k)
  end.

Definition ymd_to_ordinal (y m d : Z) : Z :=
  days_before_year y + days_before_month y (Z.to_nat (m - 1)) + d.

(** [date.fromisoformat] on the form YYYY-MM-DD. *)
Definition parse_isoformat (s : string) : option date :=
  if negb (String.length s =? 10)%nat then None
  else
    match digits (substring 0 4 s), digits (substring 5 2 s),
          digits (substring 8 2 s) with
    | Some y, Some m, Some d =>
        if String.eqb (substring 4 1 s) "-" && String.eqb (substring 7 1 s) "-"
           && (1 <=? y) && (1 <=? m) && (m <=? 12)
           && (1 <=? d) && (d <=? days_in_month y m)
        then Some (ymd_to_ordinal y m d)
        else None
    | _, _, _ => None
    end.

(** The month and day of the [n]-th day (from 0) of year [y], looking from
    month [m] on. *)
Fixpoint month_day (y : Z) (fuel : nat) (m n : Z) : Z * Z :=
  match fuel with
  | O => (m, n + 1)
  | S k =>
      let len := days_in_month y m in
      if n <? len then (m, n + 1) else month_day y k (m + 1) (n - len)
  end.

Definition ordinal_to_ymd (o : Z) : Z * Z * Z :=
  let n := o - 1 in
  let n400 := n / 146097 in
  let n := n mod 146097 in
  let n100 := n / 36524 in
  let n := n mod 36524 in
  let n4 := n / 1461 in
  let n := n mod 1461 in
  let n1 := n / 365 in
  let n := n mod 365 in
  let year := n400 * 400 + 1 + n100 * 100 + n4 * 4 + n1 in
  if (n1 =? 4) || (n100 =? 4) then (year - 1, 12, 31)
  else let '(m, d) := month_day year 11 1 n in (year, m, d).

Definition pad (width : nat) (n : Z) : string :=
  let s := pretty n in
  String.concat EmptyString (repeat "0" (width - String.length s)) +:+ s.

Definition isoformat (d : date) : string :=
  let '(y, m, dd) := ordinal_to_ymd d in
  pad 4 y +:+ "-" +:+ pad 2 m +:+ "-" +:+ pad 2 dd.

(** An optional sign before the rest. *)
Definition signed {A} (parse : string -> option A) (neg : A -> A) (s : string)
  : option A :=
  match s with
  | String "-" rest => neg <$> parse rest
  | String "+" rest => parse rest
  | _ => parse s
  end.

Definition parse_int (s : string) : option Z := signed digits Z.opp s.

(** Digits, then perhaps a point and more digits. *)
Definition unsigned_decimal (s : string) : option Q :=
  match split_on "." s with
  | [whole] => inject_Z <$> digits whole
  | [whole; frac] =>
      match digits whole, digits_go 0 frac with
      | Some w, Some f =>
          let scale := Pos.pow 10 (Pos.of_nat (String.length frac)) in
          if (String.length frac =? 0)%nat then Some (inject_Z w)
          else Some (Qred (Qmake (w * Zpos scale + f) scale))
      | _, _ => None
      end
  | _ => None
  end.

Definition parse_float (s : string) : option pyfloat :=
  FFin <$> signed unsigned_decimal Qopp s.

(** The decimals of [r / d] for [0 <= r < d], as long as there are some. *)
Fixpoint decimals (fuel : nat) (r : Z) (d : Z) : string :=
  match fuel with
  | O => EmptyString
  | S k =>
      if r =? 0 then EmptyString
      else pretty (10 * r / d) +:+ decimals k (10 * r mod d) d
  end.

Definition float_repr (f : pyfloat) : string :=
  match f with
  | FNan => "nan"
  | FInf true => "-inf"
  | FInf false => "inf"
  | FFin q =>
      let n := Qnum q in
      let d := Zpos (Qden q) in
      let whole := Z.abs n / d in
      let frac := decimals 17 (Z.abs n mod d) d in
      (if n <? 0 then "-" else EmptyString) +:+ pretty whole +:+ "."
        +:+ (if String.eqb frac EmptyString then "0" else frac)
  end.

Definition float_floordiv (f : pyfloat) (k : Z) : pyfloat :=
  match f with
  | FFin q => FFin (inject_Z (Qfloor (q / inject_Z k)))
  | _ => FNan
  end.

Definition float_mod (f : pyfloat) (k : Z) : pyfloat :=
  match f with
  | FFin q =>
      FFin (Qred (q - inject_Z k * inject_Z (Qfloor (q / inject_Z k))))
  | _ => FNan
  end.

(** Commas between groups of three digits, from the right. *)
Fixpoint group3 (rev_digits : list ascii) (k : nat) : list ascii :=
  match rev_digits with
  | [] => []
  | c :: rest =>
      match k, rest with
      | 2%nat, _ :: _ => c :: ","%char :: group3 rest 0
      | _, _ => c :: group3 rest (S k)
      end
  end.

Definition thousands (n : Z) : string :=
  (if n <? 0 then "-" else EmptyString)
    +:+ string_of_list_ascii
          (rev (group3 (rev (list_ascii_of_string (pretty (Z.abs n)))) 0)).

Definition format_thousands (v : pyval) : result string :=
  match v with
  | VInt n => Ok (thousands n)
  | VFloat (FFin q) =>
      let d := Zpos (Qden q) in
      let frac := decimals 17 (Z.abs (Qnum q) mod d) d in
      Ok ((if Qnum q <? 0 then "-" else EmptyString)
            +:+ thousands (Z.abs (Qnum q) / d) +:+ "."
            +:+ (if String.eqb frac EmptyString then "0" else frac))
  | VFloat f => Ok (float_repr f)
  | VStr _ => Raise (ValueError_format "," "s")
  | VNone => Raise (TypeError_format "," "NoneType")
  end.

Definition quoted (s : string) : string := "'" +:+ s +:+ "'".

(** The parameters of the tool functions, and how many are required. *)
Definition parameters (fn : string) : list string * nat :=
  if String.eqb fn "log_gym_set"
  then (["date_str"; "exercise"; "weight"; "reps"; "sets"], 5%nat)
  else if String.eqb fn "get_readiness_report"
  then (["start_date"; "end_date"], 0%nat)
  else (["day"], 1%nat).

Fixpoint name_list (names : list string) : string :=
  match names with
  | [] => EmptyString
  | [a] => quoted a
  | [a; b] => quoted a +:+ " and " +:+ quoted b
  | a :: rest =>
      quoted a +:+ ", "
        +:+ match rest with
            | [b; c] => quoted b +:+ ", and " +:+ quoted c
            | _ => name_list rest
            end
  end.

Definition arity_message (fn : string) (given : nat) : string :=
  let '(names, required) := parameters fn in
  if (given <? required)%nat then
    let missing := drop given names in
    fn +:+ "() missing " +:+ pretty (length missing) +:+ " required positional argument"
      +:+ (if (length missing =? 1)%nat then EmptyString else "s") +:+ ": "
      +:+ name_list missing
  else
    fn +:+ "() takes "
      +:+ (if (required =? length names)%nat then pretty required
           else "from " +:+ pretty required +:+ " to " +:+ pretty (length names))
      +:+ " positional argument"
      +:+ (if (length names =? 1)%nat then EmptyString else "s")
      +:+ " but " +:+ pretty given
      +:+ (if (given =? 1)%nat then " was given" else " were given").

Definition exn_str (e : exn) : string :=
  match e with
  | TypeError_arity fn given => arity_message fn given
  | TypeError_operand op l r =>
      if String.eqb op ">"
      then "'>' not supported between instances of " +:+ quoted l +:+ " and " +:+ quoted r
      else "unsupported operand type(s) for " +:+ op +:+ ": " +:+ quoted l
             +:+ " and " +:+ quoted r
  | TypeError_argument fn _ => fn +:+ ": argument must be str"
  | TypeError_format _ got => "unsupported format string passed to " +:+ got +:+ ".__format__"
  | ValueError_format spec got => "Cannot specify " +:+ quoted spec +:+ " with " +:+ quoted got +:+ "."
  | ValueError_isoformat s => "Invalid isoformat string: " +:+ quoted s
  | ValueError_float s => "could not convert string to float: " +:+ quoted s
  | ValueError_int s => "invalid literal for int() with base 10: " +:+ quoted s
  | NameError name => "name " +:+ quoted name +:+ " is not defined"
  | KeyError key => quoted key
  | IndexError => "list index out of range"
  | OverflowError => "date value out of range"
  | ServiceError msg => msg
  end.

Definition runtime : PyRuntime :=
  Build_PyRuntime parse_isoformat isoformat parse_float parse_int float_repr
    float_floordiv float_mod format_thousands exn_str.

End Reference.

(** ** Closed environments for the examples *)

Module Examples.

(** 2025-10-25 on the clock; the completion service answers the decision
    request (the one with a stop sequence) and the synthesis request as
    given; the store answers every select through [select] and every insert
    with [insert]. *)
Definition scripted (decision synthesis : result string)
    (select : query -> result (list dict)) (insert : result (option string))
    (profile : dict) : Env :=
  {| clock_days := 20386;
     llm_ready := true;
     supabase_available := true;
     USER_PROFILE := profile;
     llm_invoke := fun _ _ stop =>
                     match stop with [] => synthesis | _ => decision end;
     store_select := fun _ q => select q;
     store_insert := fun _ _ _ => insert |}.

Definition no_records (q : query) : result (list dict) := Ok [].

Definition default_profile : dict :=
  <["age" := VInt 35]> (<["weight" := VInt 59]> (<["height" := VInt 162]>
    (<["gender" := VStr "FEMALE"]> ∅))).

(** The scenarios of the closed instances. *)

Definition nothing_stored : Env :=
  scripted (Ok "ACTION: TOOL_CALL | get_readiness_report")
    (Ok "Take it easy today.") no_records (Ok None) default_profile.


Definition squat_logged : Env :=
  scripted (Ok "ACTION: TOOL_CALL | log_gym_set | 2025-10-25 | Squat | 100.0 | 5 | 3")
    (Ok "Logged.") no_records (Ok None) default_profile.

Definition squat_strings : list pyval :=
  [VStr "2025-10-25"; VStr "Squat"; VStr "100.0"; VStr "5"; VStr "3"].

Definition squat_typed : list pyval :=
  [VStr "2025-10-25"; VStr "Squat"; VFloat (FFin 100); VInt 5; VInt 3].

Definition squat_row : dict :=
  workout_row (VStr "2025-10-25") (VStr "Squat") (VFloat (FFin 100)) (VInt 5)
    (VInt 3).

Definition sleep_without_date : Env :=
  scripted (Ok "ACTION: TOOL_CALL | get_oura_sleep_score")
    (Ok "You slept well.") no_records (Ok None) default_profile.

Definition synthesis_down : Env :=
  scripted (Ok "ACTION: TOOL_CALL | get_oura_activity_steps | 2025-10-24")
    (Raise (ServiceError "connection refused")) no_records (Ok None)
    default_profile.

Definition profile_missing : Env :=
  scripted (Ok "ACTION: TOOL_CALL | get_readiness_report")
    (Ok "Take it easy today.") no_records (Ok None)
    (load_user_profile FileMissing).

Definition workout (day name : string) (weight : pyval) (reps : Z) : dict :=
  <["workout_date" := VStr day]>
    (<["exercise_name" := VStr name]>
       (<["weight_kg" := weight]>
          (<["repetitions" := VInt reps]> (<["sets" := VInt 1]> ∅)))).

Definition bench_newer_lighter : dict :=
  workout "2025-10-24" "Bench Press" (VInt 80) 5.

Definition bench_older_heavier : dict :=
  workout "2025-10-23" "Bench Press" (VFloat (FFin (201 # 2))) 3.

Definition bench_heavier_again : dict :=
  workout "2025-10-22" "Bench Press" (VFloat (FFin (201 # 2))) 2.

(** A store with one night, one day of activity and the two bench
    presses. *)
Definition one_day_stored (q : query) : result (list dict) :=
  if String.eqb (q_table q) "oura_sleep" then
    Ok [ <["day" := VStr "2025-10-24"]> (<["score" := VInt 82]>
           (<["total_sleep_duration" := VInt 27000]>
              (<["efficiency" := VInt 91]> ∅))) ]
  else if String.eqb (q_table q) "oura_activity" then
    Ok [ <["day" := VStr "2025-10-24"]> (<["steps" := VInt 12345]>
           (<["active_calories" := VInt 450]> (<["score" := VInt 88]> ∅))) ]
  else Ok [bench_newer_lighter; bench_older_heavier].

Definition one_day : Env :=
  scripted (Ok "ACTION: TOOL_CALL | get_readiness_report")
    (Ok "Take it easy today.") one_day_stored (Ok None) default_profile.

End Examples.

(** ** Further closed environments *)

Module Scenarios.
Import Examples.

Definition greeting : Env :=
  scripted (Ok " ACTION: DIRECT_ANSWER | Hello! How can I help? ")
    (Ok "unused") no_records (Ok None) default_profile.

Definition greeting_colon : Env :=
  scripted (Ok "ACTION: DIRECT_ANSWER: Hello!")
    (Ok "unused") no_records (Ok None) default_profile.

Definition weather_tool : Env :=
  scripted (Ok "ACTION: TOOL_CALL | get_weather | Paris")
    (Ok "unused") no_records (Ok None) default_profile.

Definition tool_call_no_bar : Env :=
  scripted (Ok "ACTION: TOOL_CALL get_readiness_report")
    (Ok "unused") no_records (Ok None) default_profile.

Definition steps_trailing_bar : Env :=
  scripted (Ok "ACTION: TOOL_CALL | get_oura_activity_steps | 2025-10-24 |")
    (Ok "You walked a lot.") no_records (Ok None) default_profile.

(** A row of the query of [get_oura_sleep_score]: the selected columns. *)
Definition night (day : string) (score : Z) : dict :=
  <["day" := VStr day]> (<["score" := VInt score]> ∅).

Definition two_nights : Env :=
  scripted (Ok "ACTION: TOOL_CALL | get_oura_sleep_score | 2025-10-20")
    (Ok "You slept well.")
    (fun _ => Ok [night "2025-10-24" 82; night "2025-10-23" 75])
    (Ok None) default_profile.

(** A night whose duration the store holds as null. *)
Definition night_without_duration : dict :=
  <["day" := VStr "2025-10-23"]> (<["score" := VInt 75]>
    (<["total_sleep_duration" := VNone]> (<["efficiency" := VInt 88]> ∅))).

Definition full_night : dict :=
  <["day" := VStr "2025-10-24"]> (<["score" := VInt 82]>
    (<["total_sleep_duration" := VInt 27000]> (<["efficiency" := VInt 91]> ∅))).

Definition null_duration_stored (q : query) : result (list dict) :=
  if String.eqb (q_table q) "oura_sleep"
  then Ok [full_night; night_without_duration]
  else one_day_stored q.

Definition null_duration : Env :=
  scripted (Ok "ACTION: TOOL_CALL | get_readiness_report")
    (Ok "Take it easy today.") null_duration_stored (Ok None) default_profile.

Definition squat_older : dict := workout "2025-10-22" "Squat" (VInt 100) 5.

(** Decisions with white space beyond ASCII around their fields. *)
Definition padded_greeting : Env :=
  scripted (Ok ("ACTION: DIRECT_ANSWER | Hello!" +:+ nbsp))
    (Ok "unused") no_records (Ok None) default_profile.

Definition padded_tool_name : Env :=
  scripted (Ok ("ACTION: TOOL_CALL |" +:+ nbsp +:+ "get_oura_activity_steps"
                  +:+ nbsp +:+ "| 2025-10-24"))
    (Ok "You walked a lot.") no_records (Ok None) default_profile.

Definition third_field_nbsp : Env :=
  scripted (Ok ("ACTION: TOOL_CALL | get_readiness_report | 2025-10-20 | 2025-10-24 | "
                  +:+ nbsp))
    (Ok "Take it easy today.") no_records (Ok None) default_profile.

(** A report decision whose end date leaves no room for the default
    start. *)
Definition overflow_second_entry : Env :=
  scripted (Ok "ACTION: TOOL_CALL | get_readiness_report |  | 0001-01-02")
    (Ok "Take it easy today.") no_records (Ok None) default_profile.

Definition insert_rejected : Env :=
  scripted (Ok "ACTION: TOOL_CALL | log_gym_set | 2025-10-25 | Squat | 100.0 | 5 | 3")
    (Ok "Logged.") no_records (Ok (Some "permission denied")) default_profile.

End Scenarios.

(** * Properties *)

(** Reduction of the monad and of the requests only. *)
Ltac mred :=
  cbv beta iota zeta delta
    [bind ret lift raise try_except execute_select execute_insert llm_call].

(** Case analysis on an innermost scrutinee of the goal. *)
Ltac mcase :=
  repeat match goal with
    | |- context [match ?x with _ => _ end] =>
        lazymatch x with
        | context [match _ with _ => _ end] => fail
        | _ => destruct x eqn:?; mred
        end
    end.

(** ** Text and dates *)

Lemma append_cons (c : ascii) (s t : string) :
  String c s +:+ t = String c (s +:+ t).
Proof. reflexivity. Qed.

Lemma append_empty_r (s : string) : s +:+ EmptyString = s.
Proof.
  induction s as [|c s IH]; [reflexivity |].
  rewrite append_cons. f_equal. exact IH.
Qed.

Lemma append_same_prefix (h x : string) : h +:+ x = h -> x = EmptyString.
Proof.
  induction h as [|c h IH]; intros H; [exact H |].
  rewrite append_cons in H. injection H as H. auto.
Qed.

Lemma append_assoc (a b c : string) : (a +:+ b) +:+ c = a +:+ (b +:+ c).
Proof.
  induction a as [|x a IH]; [reflexivity |].
  rewrite !append_cons. f_equal. exact IH.
Qed.

Lemma gtb_true (a b : Z) : b < a -> (a >? b) = true.
Proof. intros H. rewrite Z.gtb_ltb. now apply Z.ltb_lt. Qed.


Lemma date_sub_days_today (env : Env) (n : Z) :
  n <= 719162 -> date_sub_days (today env) n = Ok (today env - n).
Proof.
  intros Hn. unfold date_sub_days, today, epoch, date_min.
  destruct (Z.leb_spec 1 (719163 + Z.of_N (clock_days env) - n)); [reflexivity | lia].
Qed.

(** ** The report when the store has nothing in the window *)

Section Readiness.
Context {rt : PyRuntime}.
Variable env : Env.

(** C1. When the sleep, the activity and the workout query of the window
    all return no records, [get_readiness_report] returns the header
    followed by the three "No data available" sections, after its three
    queries: the comparison of the report with the bare header cannot
    succeed once the placeholders are appended, so the result is not the
    "no data found" sentinel. *)
Theorem readiness_all_empty_returns_template
    (start_date end_date : pyval) (start end_ : date) (tr : trace) :
  supabase_available env = true ->
  readiness_window env start_date end_date tr = (Ok (start, end_), tr) ->
  store_select env tr (sleep_range_query start end_) = Ok [] ->
  store_select env (ESelect (sleep_range_query start end_) :: tr)
    (activity_range_query start end_) = Ok [] ->
  store_select env
    (ESelect (activity_range_query start end_)
       :: ESelect (sleep_range_query start end_) :: tr)
    (workout_range_query start end_) = Ok [] ->
  get_readiness_report env start_date end_date tr
  = (Ok (empty_report start end_),
     ESelect (workout_range_query start end_)
       :: ESelect (activity_range_query start end_)
       :: ESelect (sleep_range_query start end_) :: tr)
  /\ empty_report start end_ <> no_data_sentinel.
Proof.
  intros Hup Hwin Hsleep Hact Hwork.
  assert (Hne : String.eqb
            (((report_header start end_
                 +:+ nl +:+ "SLEEP SUMMARY: No data available" +:+ nl)
                +:+ nl +:+ "ACTIVITY SUMMARY: No data available" +:+ nl)
               +:+ nl +:+ "RECENT WORKOUTS: No data available" +:+ nl)
            (report_header start end_) = false).
  { apply String.eqb_neq. rewrite !append_assoc. intros H.
    apply append_same_prefix in H. discriminate H. }
  split.
  - unfold get_readiness_report. rewrite Hup.
    cbv beta iota zeta delta [negb bind]. rewrite Hwin.
    cbv beta iota zeta delta [try_except bind execute_select].
    rewrite Hsleep, Hact, Hwork.
    cbv beta iota zeta delta
      [sleep_section activity_section workout_section ret].
    rewrite Hne. unfold empty_report. now rewrite !append_assoc.
  - unfold empty_report, report_header, no_data_sentinel. discriminate.
Qed.

(** *** Three sections, whatever the store returns *)

Lemma foldM_appends {B} (f : string -> B -> M string) (l : list B) :
  (forall a x tr r tr', f a x tr = (Ok r, tr') -> exists y, r = a +:+ y) ->
  forall a tr r tr', foldM f l a tr = (Ok r, tr') -> exists y, r = a +:+ y.
Proof.
  intros Hf. induction l as [|x l IH]; intros a tr r tr'; simpl.
  - intros [= <- _]. exists EmptyString. now rewrite append_empty_r.
  - unfold bind. destruct (f a x tr) as [[a' | e] tr1] eqn:Hstep; [| discriminate].
    intros Hrest. destruct (Hf _ _ _ _ _ Hstep) as [y1 ->].
    destruct (IH _ _ _ _ Hrest) as [y2 ->].
    exists (y1 +:+ y2). apply append_assoc.
Qed.

Lemma sleep_line_appends (report : string) (record : dict) (tr tr' : trace)
    (r : string) :
  sleep_line report record tr = (Ok r, tr') -> exists y, r = report +:+ y.
Proof.
  unfold sleep_line. mred. mcase; intros [= <- _]; eauto.
Qed.

Lemma activity_line_appends (report : string) (record : dict) (tr tr' : trace)
    (r : string) :
  activity_line report record tr = (Ok r, tr') -> exists y, r = report +:+ y.
Proof.
  unfold activity_line. mred. mcase; intros [= <- _]; eauto.
Qed.

Lemma lift_lines_append (exercises : exercises_dict) (report : string) :
  exists y, fold_left lift_line exercises report = report +:+ y.
Proof.
  revert report. induction exercises as [|[k v] l IH]; intros report; simpl.
  - exists EmptyString. now rewrite append_empty_r.
  - destruct (IH (report +:+ " - " +:+ py_str k +:+ ": Max " +:+ py_str (e_weight v)
                    +:+ "kg x " +:+ py_str (e_reps v) +:+ " reps on "
                    +:+ py_str (e_date v) +:+ nl)) as [y ->].
    eexists. apply append_assoc.
Qed.

(** Each section starts with its label, and an empty one is the
    placeholder. *)
Lemma sleep_section_labelled (report : string) (data : list dict)
    (tr tr' : trace) (r : string) :
  sleep_section report data tr = (Ok r, tr') ->
  exists body,
    r = report +:+ (nl +:+ "SLEEP SUMMARY:" +:+ body)
    /\ (data = [] -> body = " No data available" +:+ nl).
Proof.
  destruct data as [|x data].
  - intros [= <- _]. exists (" No data available" +:+ nl). split; reflexivity.
  - unfold sleep_section. intros H.
    apply (foldM_appends sleep_line) in H as [y ->];
      [| intros; eapply sleep_line_appends; eassumption].
    exists (nl +:+ y). split; [| discriminate].
    now rewrite !append_assoc.
Qed.

Lemma activity_section_labelled (report : string) (data : list dict)
    (tr tr' : trace) (r : string) :
  activity_section report data tr = (Ok r, tr') ->
  exists body,
    r = report +:+ (nl +:+ "ACTIVITY SUMMARY:" +:+ body)
    /\ (data = [] -> body = " No data available" +:+ nl).
Proof.
  destruct data as [|x data].
  - intros [= <- _]. exists (" No data available" +:+ nl). split; reflexivity.
  - unfold activity_section. intros H.
    apply (foldM_appends activity_line) in H as [y ->];
      [| intros; eapply activity_line_appends; eassumption].
    exists (nl +:+ y). split; [| discriminate].
    now rewrite !append_assoc.
Qed.

Lemma workout_section_labelled (report : string) (data : list dict)
    (tr tr' : trace) (r : string) :
  workout_section report data tr = (Ok r, tr') ->
  exists body,
    r = report +:+ (nl +:+ "RECENT WORKOUTS:" +:+ body)
    /\ (data = [] -> body = " No data available" +:+ nl).
Proof.
  destruct data as [|x data].
  - intros [= <- _]. exists (" No data available" +:+ nl). split; reflexivity.
  - unfold workout_section. mred.
    destruct (max_lifts (x :: data) tr) as [[exercises | e] tr1]; [| discriminate].
    intros [= <- _].
    destruct (lift_lines_append exercises (report +:+ nl +:+ "RECENT WORKOUTS:" +:+ nl))
      as [y ->].
    exists (nl +:+ y). split; [| discriminate].
    now rewrite !append_assoc.
Qed.

(** What [get_readiness_report] returns is the "not available" message,
    the error message of its handler, or a report made of the header and
    the three labelled sections. *)
Lemma readiness_report_sections (start_date end_date : pyval)
    (tr tr' : trace) (r : string) :
  get_readiness_report env start_date end_date tr = (Ok r, tr') ->
  r = "Database connection not available."
  \/ (exists e,
        r = "An error occurred while accessing the aggregated data for the report: "
              +:+ exn_str e)
  \/ exists start end_ sleep activity workouts,
       r = report_header start end_
             +:+ (nl +:+ "SLEEP SUMMARY:" +:+ sleep)
             +:+ (nl +:+ "ACTIVITY SUMMARY:" +:+ activity)
             +:+ (nl +:+ "RECENT WORKOUTS:" +:+ workouts).
Proof.
  unfold get_readiness_report.
  destruct (negb (supabase_available env)); [intros [= <- _]; now left |].
  unfold bind at 1.
  destruct (readiness_window env start_date end_date tr)
    as [[[start end_] | e] tr0]; [| discriminate].
  unfold try_except.
  match goal with
  | |- (let (_, _) := ?m tr0 in _) = _ -> _ =>
      destruct (m tr0) as [[report | e] tr1] eqn:Hbody
  end.
  2: { intros [= <- _]. right. left. eauto. }
  intros [= <- <-]. right. right.
  revert Hbody. unfold bind, execute_select.
  destruct (store_select env tr0 _) as [sleep_res |]; [| discriminate].
  destruct (store_select env _ _) as [activity_res |]; [| discriminate].
  destruct (store_select env _ _) as [workout_res |]; [| discriminate].
  destruct (sleep_section _ sleep_res _) as [[r1 |] t1] eqn:H1; [| discriminate].
  destruct (activity_section r1 activity_res t1) as [[r2 |] t2] eqn:H2;
    [| discriminate].
  destruct (workout_section r2 workout_res t2) as [[r3 |] t3] eqn:H3;
    [| discriminate].
  apply sleep_section_labelled in H1 as (sleep & -> & _).
  apply activity_section_labelled in H2 as (activity & -> & _).
  apply workout_section_labelled in H3 as (workouts & -> & _).
  destruct (String.eqb_spec
              (((report_header start end_ +:+ nl +:+ "SLEEP SUMMARY:" +:+ sleep)
                  +:+ nl +:+ "ACTIVITY SUMMARY:" +:+ activity)
                 +:+ nl +:+ "RECENT WORKOUTS:" +:+ workouts)
              (report_header start end_)) as [Heq | _].
  - exfalso. rewrite !append_assoc in Heq.
    apply append_same_prefix in Heq. discriminate Heq.
  - intros [= <-]. exists start, end_, sleep, activity, workouts.
    now rewrite !append_assoc.
Qed.

(** So the "no data found" sentinel is never the result. *)
Lemma readiness_report_never_sentinel (start_date end_date : pyval)
    (tr : trace) :
  fst (get_readiness_report env start_date end_date tr) <> Ok no_data_sentinel.
Proof.
  destruct (get_readiness_report env start_date end_date tr) as [[r | e] tr']
    eqn:Hrun; [| discriminate].
  simpl. intros [= ->].
  apply readiness_report_sections in Hrun
    as [H | [(e & H) | (start & end_ & sleep & activity & workouts & H)]];
    revert H; unfold no_data_sentinel, report_header; discriminate.
Qed.

End Readiness.

(** ** Composition of computations and their traces *)

Section TraceLemmas.
Context {A B : Type}.

Lemma pure_ret (a : A) : pure (ret a).
Proof. intros tr. reflexivity. Qed.

Lemma pure_raise (e : exn) : pure (@raise A e).
Proof. intros tr. reflexivity. Qed.

Lemma pure_lift (r : result A) : pure (lift r).
Proof. intros tr. reflexivity. Qed.

Lemma pure_bind (m : M A) (k : A -> M B) :
  pure m -> (forall a, pure (k a)) -> pure (bind m k).
Proof.
  intros Hm Hk tr. unfold bind. specialize (Hm tr).
  destruct (m tr) as [[a | e] tr']; simpl in Hm; subst tr'.
  - apply Hk.
  - reflexivity.
Qed.

Lemma pure_try (m : M A) (h : exn -> M A) :
  pure m -> (forall e, pure (h e)) -> pure (try_except m h).
Proof.
  intros Hm Hh tr. unfold try_except. specialize (Hm tr).
  destruct (m tr) as [[a | e] tr']; simpl in Hm; subst tr'.
  - reflexivity.
  - apply Hh.
Qed.

Lemma pure_emits (m : M A) : pure m -> emits (fun ev => ev = []) m.
Proof. intros Hm tr. exists []. split; [apply Hm | reflexivity]. Qed.

Lemma emits_weaken (P Q : list event -> Prop) (m : M A) :
  (forall ev, P ev -> Q ev) -> emits P m -> emits Q m.
Proof.
  intros HPQ Hm tr. destruct (Hm tr) as (ev & Heq & HP). eauto.
Qed.

Lemma emits_bind (P Q R : list event -> Prop) (m : M A) (k : A -> M B) :
  emits P m -> (forall a, emits Q (k a)) ->
  (forall e1, P e1 -> R e1) ->
  (forall e1 e2, P e1 -> Q e2 -> R (e2 ++ e1)) ->
  emits R (bind m k).
Proof.
  intros Hm Hk Hr Hc tr. unfold bind.
  destruct (Hm tr) as (e1 & Heq & HP).
  destruct (m tr) as [[a | e] tr']; simpl in Heq; subst tr'.
  - destruct (Hk a (e1 ++ tr)) as (e2 & Heq2 & HQ).
    exists (e2 ++ e1). rewrite Heq2, app_assoc. auto.
  - exists e1. auto.
Qed.

Lemma emits_try (P Q R : list event -> Prop) (m : M A) (h : exn -> M A) :
  emits P m -> (forall e, emits Q (h e)) ->
  (forall e1, P e1 -> R e1) ->
  (forall e1 e2, P e1 -> Q e2 -> R (e2 ++ e1)) ->
  emits R (try_except m h).
Proof.
  intros Hm Hh Hr Hc tr. unfold try_except.
  destruct (Hm tr) as (e1 & Heq & HP).
  destruct (m tr) as [[a | e] tr']; simpl in Heq; subst tr'.
  - exists e1. auto.
  - destruct (Hh e (e1 ++ tr)) as (e2 & Heq2 & HQ).
    exists (e2 ++ e1). rewrite Heq2, app_assoc. auto.
Qed.

Lemma returns_try (m : M A) (h : exn -> M A) :
  (forall e, returns (h e)) -> returns (try_except m h).
Proof.
  intros Hh tr. unfold try_except.
  destruct (m tr) as [[a | e] tr']; [exists a; reflexivity | apply Hh].
Qed.

Lemma returns_ret (a : A) : returns (ret a).
Proof. intros tr. exists a. reflexivity. Qed.

End TraceLemmas.

Lemma pure_foldM {A B} (f : A -> B -> M A) (l : list B) :
  (forall a x, pure (f a x)) -> forall a, pure (foldM f l a).
Proof.
  intros Hf. induction l as [|x l IH]; intros a.
  - apply pure_ret.
  - simpl. apply pure_bind; [apply Hf | exact IH].
Qed.

Lemma n_llm_app (a b : list event) : n_llm (a ++ b) = (n_llm a + n_llm b)%nat.
Proof. unfold n_llm. now rewrite List.filter_app, length_app. Qed.

Lemma n_store_app (a b : list event) : n_store (a ++ b) = (n_store a + n_store b)%nat.
Proof. unfold n_store. now rewrite List.filter_app, length_app. Qed.

Lemma n_insert_app (a b : list event) :
  n_insert (a ++ b) = (n_insert a + n_insert b)%nat.
Proof. unfold n_insert. now rewrite List.filter_app, length_app. Qed.

Lemma calls_app (a b : list event) : calls (a ++ b) = calls a ++ calls b.
Proof. apply List.filter_app. Qed.

Lemma trip_budget_app (a b : list event) :
  trip_budget (a ++ b) = (trip_budget a + trip_budget b)%nat.
Proof. unfold trip_budget. now rewrite map_app, list_sum_app. Qed.

Lemma store_only_counts (k : nat) (ev : list event) :
  store_only k ev ->
  n_llm ev = 0%nat /\ calls ev = [] /\ (n_store ev <= k)%nat
  /\ trip_budget ev = 0%nat.
Proof.
  intros [Hall Hlen]. revert k Hlen.
  induction ev as [|e ev IH]; intros k Hlen.
  - repeat split; try reflexivity. unfold n_store. simpl. lia.
  - simpl in Hall. apply andb_true_iff in Hall as [He Hall].
    simpl in Hlen. destruct k as [|k]; [lia |].
    destruct (IH Hall k ltac:(lia)) as (H1 & H2 & H3 & H4).
    unfold n_llm, n_store, calls, trip_budget in *.
    destruct e; try discriminate He; simpl; rewrite ?H1, ?H2, ?H4;
      repeat split; try reflexivity; simpl; lia.
Qed.

Section ToolLemmas.
Context {rt : PyRuntime}.
Variable env : Env.

(** *** The three tools wrapped in one [try] *)

Lemma get_oura_sleep_score_returns (day : pyval) :
  returns (get_oura_sleep_score env day).
Proof. apply returns_try. intros e. apply returns_ret. Qed.

Lemma get_oura_activity_steps_returns (day : pyval) :
  returns (get_oura_activity_steps env day).
Proof. apply returns_try. intros e. apply returns_ret. Qed.

Lemma log_gym_set_returns (date_str exercise weight reps sets : pyval) :
  returns (log_gym_set env date_str exercise weight reps sets).
Proof. apply returns_try. intros e. apply returns_ret. Qed.

Lemma get_oura_sleep_score_events (day : pyval) :
  emits (fun ev => ev = [] \/ ev = [ESelect sleep_recent_query])
    (get_oura_sleep_score env day).
Proof.
  intros tr. unfold get_oura_sleep_score. mred.
  destruct (fromisoformat day); [| exists []; auto].
  exists [ESelect sleep_recent_query]. split; [| auto].
  mcase; reflexivity.
Qed.

Lemma get_oura_activity_steps_events (day : pyval) :
  emits (fun ev => ev = [] \/ exists q, ev = [ESelect q])
    (get_oura_activity_steps env day).
Proof.
  intros tr. unfold get_oura_activity_steps. mred.
  destruct (fromisoformat day) as [d |]; [| exists []; auto].
  exists [ESelect (activity_day_query (isoformat d))]. split; [| eauto].
  mcase; reflexivity.
Qed.

Lemma log_gym_set_events (date_str exercise weight reps sets : pyval) :
  emits (fun ev =>
           ev = [] \/
           ev = [EInsert "manual_workouts"
                   (workout_row date_str exercise weight reps sets)])
    (log_gym_set env date_str exercise weight reps sets).
Proof.
  intros tr. unfold log_gym_set. mred.
  destruct (fromisoformat date_str); [| exists []; auto].
  destruct (parameters_ok exercise weight reps sets) as [[|] |];
    cbv beta iota zeta delta [negb]; [| exists []; auto | exists []; auto].
  eexists. split; [| right; reflexivity].
  mcase; reflexivity.
Qed.

(** *** The report tool *)

Lemma store_only_nil (k : nat) : store_only k [].
Proof. split; [reflexivity | simpl; lia]. Qed.

Lemma store_only_app (a b : nat) (e1 e2 : list event) :
  store_only a e1 -> store_only b e2 -> store_only (a + b) (e2 ++ e1).
Proof.
  intros [H1 L1] [H2 L2]. split.
  - rewrite forallb_app, H1, H2. reflexivity.
  - rewrite length_app. lia.
Qed.

Lemma store_only_le (a b : nat) (ev : list event) :
  (a <= b)%nat -> store_only a ev -> store_only b ev.
Proof. intros Hab [H L]. split; [exact H | lia]. Qed.

Lemma pure_store_only {A} (k : nat) (m : M A) : pure m -> emits (store_only k) m.
Proof.
  intros Hm. apply emits_weaken with (P := fun ev => ev = []).
  - intros ev ->. apply store_only_nil.
  - now apply pure_emits.
Qed.

Lemma emits_bind_store {A B} (a b : nat) (m : M A) (k : A -> M B) :
  emits (store_only a) m -> (forall x, emits (store_only b) (k x)) ->
  emits (store_only (a + b)) (bind m k).
Proof.
  intros Hm Hk. apply emits_bind with (P := store_only a) (Q := store_only b);
    auto using store_only_app.
  intros e1. apply store_only_le. lia.
Qed.

Lemma emits_try_store {A} (a b : nat) (m : M A) (h : exn -> M A) :
  emits (store_only a) m -> (forall e, emits (store_only b) (h e)) ->
  emits (store_only (a + b)) (try_except m h).
Proof.
  intros Hm Hh. apply emits_try with (P := store_only a) (Q := store_only b);
    auto using store_only_app.
  intros e1. apply store_only_le. lia.
Qed.

Lemma execute_select_events (q : query) :
  emits (store_only 1) (execute_select env q).
Proof.
  intros tr. exists [ESelect q]. split; [reflexivity |].
  split; [reflexivity | simpl; lia].
Qed.

Lemma readiness_window_pure (start_date end_date : pyval) :
  pure (readiness_window env start_date end_date).
Proof.
  unfold readiness_window.
  apply pure_bind; [| intros end_; apply pure_bind ].
  - apply pure_try; [| intros; apply pure_ret].
    destruct (truthy end_date); [apply pure_lift | apply pure_ret].
  - apply pure_try; [| intros; apply pure_lift].
    destruct (truthy start_date); apply pure_lift.
  - intros start. apply pure_ret.
Qed.

Lemma sleep_line_pure (report : string) (record : dict) :
  pure (sleep_line report record).
Proof.
  unfold sleep_line.
  repeat (apply pure_bind; [apply pure_lift | intros ?]). apply pure_ret.
Qed.

Lemma sleep_section_pure (report : string) (data : list dict) :
  pure (sleep_section report data).
Proof.
  destruct data; [apply pure_ret |].
  apply pure_foldM. apply sleep_line_pure.
Qed.

Lemma activity_line_pure (report : string) (record : dict) :
  pure (activity_line report record).
Proof.
  unfold activity_line.
  repeat (apply pure_bind; [apply pure_lift | intros ?]). apply pure_ret.
Qed.

Lemma activity_section_pure (report : string) (data : list dict) :
  pure (activity_section report data).
Proof.
  destruct data; [apply pure_ret |].
  apply pure_foldM. apply activity_line_pure.
Qed.

Lemma max_lift_step_pure (exercises : exercises_dict) (record : dict) :
  pure (max_lift_step exercises record).
Proof.
  unfold max_lift_step.
  apply pure_bind; [apply pure_lift | intros ex_name].
  apply pure_bind.
  - destruct (exercises_get ex_name exercises); [apply pure_lift | apply pure_ret].
  - intros [|]; [| apply pure_ret].
    apply pure_bind; [apply pure_lift | intros ?; apply pure_ret].
Qed.

Lemma max_lifts_pure (data : list dict) : pure (max_lifts data).
Proof. apply pure_foldM. apply max_lift_step_pure. Qed.

Lemma workout_section_pure (report : string) (data : list dict) :
  pure (workout_section report data).
Proof.
  destruct data; [apply pure_ret |].
  unfold workout_section.
  apply pure_bind; [apply max_lifts_pure | intros ?; apply pure_ret].
Qed.

Lemma get_readiness_report_events (start_date end_date : pyval) :
  emits (store_only 3) (get_readiness_report env start_date end_date).
Proof.
  unfold get_readiness_report.
  destruct (negb (supabase_available env)).
  { apply pure_store_only, pure_ret. }
  apply (emits_bind_store 0 3); [apply pure_store_only, readiness_window_pure |].
  intros [start end_].
  apply (emits_try_store 3 0); [| intros e; apply pure_store_only, pure_ret].
  apply (emits_bind_store 1 2); [apply execute_select_events | intros sleep_res].
  apply (emits_bind_store 1 1); [apply execute_select_events | intros activity_res].
  apply (emits_bind_store 1 0); [apply execute_select_events | intros workout_res].
  apply pure_store_only.
  apply pure_bind; [apply sleep_section_pure | intros r1].
  apply pure_bind; [apply activity_section_pure | intros r2].
  apply pure_bind; [apply workout_section_pure | intros r3].
  destruct (String.eqb r3 _); apply pure_ret.
Qed.

(** The report tool raises nothing but the OverflowError of its default
    start date. *)
Lemma get_readiness_report_raises (start_date end_date : pyval)
    (tr tr' : trace) (e : exn) :
  get_readiness_report env start_date end_date tr = (Raise e, tr') ->
  e = OverflowError /\ tr' = tr.
Proof.
  unfold get_readiness_report.
  destruct (negb (supabase_available env)); [discriminate |].
  unfold bind at 1.
  pose proof (readiness_window_pure start_date end_date tr) as Hpure.
  destruct (readiness_window env start_date end_date tr)
    as [[[start end_] | e'] tr0] eqn:Hw; simpl in Hpure; subst tr0.
  - intros H. exfalso. revert H.
    match goal with
    | |- try_except ?m ?h tr = _ -> _ =>
        destruct (returns_try m h (fun e => returns_ret _) tr) as [a Ha];
        destruct (try_except m h tr) as [r t]; simpl in Ha; subst r
    end.
    discriminate.
  - intros [= <- <-]. split; [| reflexivity].
    revert Hw. unfold readiness_window. mred.
    destruct (if truthy end_date then _ else _) as [[d|] ?];
      destruct (if truthy start_date then _ else _) as [[d'|] ?]; mred;
      try discriminate;
      unfold date_sub_days; destruct (date_min <=? _); congruence.
Qed.

(** *** Entering a tool *)

Lemma entered_events (t : tool) (args : list pyval) (k : nat) (body : M string) :
  emits (store_only k) body ->
  (k <= trips_allowed (ECall (tool_name t) args))%nat ->
  emits (call_events t args)
    (fun tr => body (ECall (tool_name t) args :: tr)).
Proof.
  intros Hbody Hk tr.
  destruct (Hbody (ECall (tool_name t) args :: tr)) as (ev & Heq & Hev).
  exists (ev ++ [ECall (tool_name t) args]). split.
  - rewrite Heq, <- app_assoc. reflexivity.
  - right. exists ev. split; [reflexivity |].
    eapply store_only_le; eassumption.
Qed.

Lemma one_request_store_only (P : list event -> Prop) {A} (m : M A) :
  (forall ev, P ev -> ev = [] \/ exists e, ev = [e] /\ is_store e = true) ->
  emits P m -> emits (store_only 1) m.
Proof.
  intros HP. apply emits_weaken. intros ev Hev.
  destruct (HP ev Hev) as [-> | (e & -> & He)].
  - apply store_only_nil.
  - split; [simpl; now rewrite He | simpl; lia].
Qed.

Lemma call_tool_events (t : tool) (args : list pyval) :
  emits (call_events t args) (call_tool env t args).
Proof.
  assert (Hraise : forall e, emits (call_events t args) (@raise string e)).
  { intros e tr. exists []. split; [reflexivity | now left]. }
  destruct t; destruct args as [|a1 [|a2 [|a3 [|a4 [|a5 [|a6 args]]]]]];
    try apply Hraise; unfold call_tool.
  - apply entered_events with (k := 1%nat); [| simpl; lia].
    eapply one_request_store_only; [| apply get_oura_sleep_score_events].
    intros ev [-> | ->]; eauto.
  - apply entered_events with (k := 1%nat); [| simpl; lia].
    eapply one_request_store_only; [| apply get_oura_activity_steps_events].
    intros ev [-> | (q & ->)]; eauto.
  - apply entered_events with (k := 1%nat); [| simpl; lia].
    eapply one_request_store_only; [| apply log_gym_set_events].
    intros ev [-> | ->]; eauto.
  - apply entered_events with (k := 3%nat); [| simpl; lia].
    apply get_readiness_report_events.
  - apply entered_events with (k := 3%nat); [| simpl; lia].
    apply get_readiness_report_events.
  - apply entered_events with (k := 3%nat); [| simpl; lia].
    apply get_readiness_report_events.
Qed.

Lemma tool_phase_nil : tool_phase [].
Proof. split; [reflexivity | unfold n_store, trip_budget; simpl; lia]. Qed.

Lemma tool_phase_app (e1 e2 : list event) :
  tool_phase e1 -> tool_phase e2 -> tool_phase (e2 ++ e1).
Proof.
  intros [L1 S1] [L2 S2]. split.
  - rewrite n_llm_app. lia.
  - rewrite n_store_app, trip_budget_app. lia.
Qed.

Lemma call_events_tool_phase (t : tool) (args : list pyval) (ev : list event) :
  call_events t args ev -> tool_phase ev.
Proof.
  intros [-> | (body & -> & Hbody)]; [apply tool_phase_nil |].
  apply store_only_counts in Hbody as (Hl & _ & Hs & Hb).
  split.
  - rewrite n_llm_app, Hl. reflexivity.
  - rewrite n_store_app, trip_budget_app, Hb.
    unfold n_store at 2, trip_budget at 1. simpl List.filter. simpl length.
    simpl map. simpl list_sum. simpl in Hs. lia.
Qed.

Lemma call_tool_tool_phase (t : tool) (args : list pyval) :
  emits tool_phase (call_tool env t args).
Proof.
  eapply emits_weaken; [apply call_events_tool_phase | apply call_tool_events].
Qed.

Lemma pure_tool_phase {A} (m : M A) : pure m -> emits tool_phase m.
Proof.
  intros Hm. apply emits_weaken with (P := fun ev => ev = []).
  - intros ev ->. apply tool_phase_nil.
  - now apply pure_emits.
Qed.

Lemma emits_bind_tool_phase {A B} (m : M A) (k : A -> M B) :
  emits tool_phase m -> (forall x, emits tool_phase (k x)) ->
  emits tool_phase (bind m k).
Proof.
  intros Hm Hk.
  apply emits_bind with (P := tool_phase) (Q := tool_phase);
    auto using tool_phase_app.
Qed.

Lemma branch_call_tool_phase (t : tool) (name : string) (tool_inputs : list string) :
  emits tool_phase (branch_call env t name tool_inputs).
Proof.
  unfold branch_call.
  destruct (String.eqb name "log_gym_set").
  { apply emits_bind_tool_phase; [apply pure_tool_phase, pure_lift |].
    intros args. apply call_tool_tool_phase. }
  destruct (String.eqb name "get_readiness_report").
  { destruct tool_inputs as [|a [|b rest]]; apply call_tool_tool_phase. }
  apply call_tool_tool_phase.
Qed.

Lemma llm_call_events (prompt : string) (stop : list string) :
  emits (query_phase 1) (llm_call env prompt stop).
Proof.
  intros tr. exists [ELlm prompt stop]. split; [reflexivity |].
  split; [unfold n_llm; simpl; lia | unfold n_store, trip_budget; simpl; lia].
Qed.

Lemma tool_phase_then_query (k : nat) (e1 e2 : list event) :
  tool_phase e1 -> query_phase k e2 -> query_phase k (e2 ++ e1).
Proof.
  intros [L1 S1] [L2 S2]. split.
  - rewrite n_llm_app. lia.
  - rewrite n_store_app, trip_budget_app. lia.
Qed.

Lemma tool_phase_query (k : nat) (ev : list event) :
  tool_phase ev -> query_phase k ev.
Proof. intros [L S]. split; [lia | exact S]. Qed.

Lemma execute_tool_call_events (decision user_query : string) :
  emits (query_phase 1) (execute_tool_call env decision user_query).
Proof.
  unfold execute_tool_call.
  apply emits_bind with (P := tool_phase) (Q := query_phase 1);
    [apply pure_tool_phase, pure_lift | | apply tool_phase_query
    | intros; now apply tool_phase_then_query].
  intros name_field.
  destruct (tools_dict_get env (strip name_field)) as [tool_func |].
  2: { apply emits_weaken with (P := tool_phase);
       [apply tool_phase_query | apply pure_tool_phase, pure_ret]. }
  apply emits_bind with (P := tool_phase) (Q := query_phase 1);
    [apply call_tool_tool_phase | | apply tool_phase_query
    | intros; now apply tool_phase_then_query].
  intros r1.
  apply emits_bind with (P := tool_phase) (Q := query_phase 1);
    [apply branch_call_tool_phase | | apply tool_phase_query
    | intros; now apply tool_phase_then_query].
  intros r2.
  apply emits_bind with (P := tool_phase) (Q := query_phase 1);
    [apply pure_tool_phase, pure_lift | | apply tool_phase_query
    | intros; now apply tool_phase_then_query].
  intros coaching. apply llm_call_events.
Qed.

Lemma process_query_phases (user_query : string) :
  emits (query_phase 2) (process_query env user_query).
Proof.
  unfold process_query.
  destruct (negb (llm_ready env)).
  { apply emits_weaken with (P := tool_phase);
      [apply tool_phase_query | apply pure_tool_phase, pure_ret]. }
  apply emits_bind with (P := tool_phase) (Q := query_phase 2);
    [apply pure_tool_phase, pure_lift | | apply tool_phase_query
    | intros; now apply tool_phase_then_query].
  intros yesterday.
  apply emits_try with (P := query_phase 2) (Q := tool_phase);
    [| intros e; apply pure_tool_phase, pure_ret | auto
     | intros e1 e2 [L1 S1] [L2 S2]; split;
       [rewrite n_llm_app; lia | rewrite n_store_app, trip_budget_app; lia] ].
  apply emits_bind with (P := query_phase 1) (Q := query_phase 1);
    [apply llm_call_events | | intros e1 [L S]; split; [lia | exact S]
    | intros e1 e2 [L1 S1] [L2 S2]; split;
      [rewrite n_llm_app; lia | rewrite n_store_app, trip_budget_app; lia] ].
  intros answer.
  destruct (String.prefix "ACTION: TOOL_CALL" (strip answer)).
  { apply emits_try with (P := query_phase 1) (Q := tool_phase);
      [apply execute_tool_call_events | intros e; apply pure_tool_phase, pure_ret
      | auto
      | intros e1 e2 [L1 S1] [L2 S2]; split;
        [rewrite n_llm_app; lia | rewrite n_store_app, trip_budget_app; lia] ]. }
  destruct (String.prefix "ACTION: DIRECT_ANSWER" (strip answer));
    (apply emits_weaken with (P := tool_phase);
     [apply tool_phase_query | apply pure_tool_phase, pure_ret]).
Qed.

(** *** Round trips, entry by entry *)

Lemma trips_left_app (allowed : nat) (l1 l2 : list event) :
  trips_left allowed (l1 ++ l2)
  = match trips_left allowed l1 with
    | Some rest => trips_left rest l2
    | None => None
    end.
Proof.
  revert allowed. induction l1 as [|e l1 IH]; intros allowed; [reflexivity |].
  destruct e; cbn [app trips_left]; try apply IH; destruct allowed; auto.
Qed.

Lemma self_contained_nil : self_contained [].
Proof. intros allowed. cbn. eauto. Qed.

Lemma self_contained_app (e1 e2 : list event) :
  self_contained e1 -> self_contained e2 -> self_contained (e2 ++ e1).
Proof.
  intros H1 H2 allowed. rewrite rev_app_distr, trips_left_app.
  destruct (H1 allowed) as [rest ->]. apply H2.
Qed.

Lemma stores_left (l : list event) (allowed : nat) :
  forallb is_store l = true -> (length l <= allowed)%nat ->
  trips_left allowed l = Some (allowed - length l)%nat.
Proof.
  revert allowed. induction l as [|e l IH]; intros allowed Hs Hl.
  { cbn. f_equal. lia. }
  cbn [forallb] in Hs. apply andb_prop in Hs as [He Hs].
  cbn [length] in Hl. destruct allowed as [|fewer]; [lia |].
  destruct e; try discriminate He; cbn [trips_left];
    rewrite (IH fewer Hs) by lia; reflexivity.
Qed.

Lemma call_events_self_contained (t : tool) (args : list pyval) (ev : list event) :
  call_events t args ev -> self_contained ev.
Proof.
  intros [-> | (body & -> & Hs & Hl)]; [apply self_contained_nil |].
  intros allowed. rewrite rev_app_distr. cbn [rev app trips_left].
  rewrite stores_left; [eauto | | now rewrite length_rev].
  rewrite forallb_forall in *. intros x Hx. apply Hs. now apply in_rev.
Qed.

Lemma pure_self_contained {A} (m : M A) : pure m -> emits self_contained m.
Proof.
  intros Hm. apply emits_weaken with (P := fun ev => ev = []).
  - intros ev ->. apply self_contained_nil.
  - now apply pure_emits.
Qed.

Lemma emits_bind_self_contained {A B} (m : M A) (k : A -> M B) :
  emits self_contained m -> (forall a, emits self_contained (k a)) ->
  emits self_contained (bind m k).
Proof.
  intros Hm Hk.
  apply emits_bind with (P := self_contained) (Q := self_contained);
    auto using self_contained_app.
Qed.

Lemma emits_try_self_contained {A} (m : M A) (h : exn -> M A) :
  emits self_contained m -> (forall e, emits self_contained (h e)) ->
  emits self_contained (try_except m h).
Proof.
  intros Hm Hh.
  apply emits_try with (P := self_contained) (Q := self_contained);
    auto using self_contained_app.
Qed.

Lemma call_tool_self_contained (t : tool) (args : list pyval) :
  emits self_contained (call_tool env t args).
Proof.
  eapply emits_weaken; [apply call_events_self_contained | apply call_tool_events].
Qed.

Lemma llm_call_self_contained (prompt : string) (stop : list string) :
  emits self_contained (llm_call env prompt stop).
Proof.
  intros tr. exists [ELlm prompt stop]. split; [reflexivity |].
  intros allowed. cbn. eauto.
Qed.

Lemma branch_call_self_contained (t : tool) (name : string)
    (tool_inputs : list string) :
  emits self_contained (branch_call env t name tool_inputs).
Proof.
  unfold branch_call.
  destruct (String.eqb name "log_gym_set").
  { apply emits_bind_self_contained; [apply pure_self_contained, pure_lift |].
    intros args. apply call_tool_self_contained. }
  destruct (String.eqb name "get_readiness_report").
  { destruct tool_inputs as [|a [|b rest]]; apply call_tool_self_contained. }
  apply call_tool_self_contained.
Qed.

Lemma execute_tool_call_self_contained (decision user_query : string) :
  emits self_contained (execute_tool_call env decision user_query).
Proof.
  unfold execute_tool_call.
  apply emits_bind_self_contained; [apply pure_self_contained, pure_lift |].
  intros name_field.
  destruct (tools_dict_get env (strip name_field)) as [tool_func |];
    [| apply pure_self_contained, pure_ret].
  apply emits_bind_self_contained; [apply call_tool_self_contained |].
  intros r1.
  apply emits_bind_self_contained; [apply branch_call_self_contained |].
  intros r2.
  apply emits_bind_self_contained; [apply pure_self_contained, pure_lift |].
  intros coaching. apply llm_call_self_contained.
Qed.

Lemma process_query_self_contained (user_query : string) :
  emits self_contained (process_query env user_query).
Proof.
  unfold process_query.
  destruct (negb (llm_ready env)); [apply pure_self_contained, pure_ret |].
  apply emits_bind_self_contained; [apply pure_self_contained, pure_lift |].
  intros yesterday.
  apply emits_try_self_contained; [| intros e; apply pure_self_contained, pure_ret].
  apply emits_bind_self_contained; [apply llm_call_self_contained |].
  intros answer.
  destruct (String.prefix "ACTION: TOOL_CALL" (strip answer)).
  { apply emits_try_self_contained;
      [apply execute_tool_call_self_contained
      | intros e; apply pure_self_contained, pure_ret]. }
  destruct (String.prefix "ACTION: DIRECT_ANSWER" (strip answer));
    apply pure_self_contained, pure_ret.
Qed.

(** C3 (amended). For every query and history, [process_query] sends at
    most two completion requests (the decision and at most one synthesis),
    and every store round trip is made inside an entry into a tool: reading
    the new events from the oldest on, each store request follows an entry
    that still allows it, where an entry into the report tool, which reads
    three tables, allows three round trips and an entry into any other tool
    allows one ([trips_per_entry]); so no round trip happens outside a
    tool, and the round trips together stay within what the entries allow
    together. *)
Theorem process_query_request_bounds (user_query : string) (tr : trace) :
  exists ev,
    snd (process_query env user_query tr) = ev ++ tr
    /\ (n_llm ev <= 2)%nat
    /\ (n_store ev <= trip_budget ev)%nat
    /\ trips_per_entry ev.
Proof.
  destruct (process_query_phases user_query tr) as (ev & Heq & Hl & Hs).
  destruct (process_query_self_contained user_query tr) as (ev' & Heq' & Hc).
  rewrite Heq in Heq'. apply app_inv_tail in Heq'. subst ev'.
  exists ev. repeat split; try assumption. apply Hc.
Qed.

(** *** The dispatch, step by step *)

Lemma tools_dict_get_name (name : string) (t : tool) :
  tools_dict_get env name = Some t ->
  tool_name t = name /\ supabase_available env = true.
Proof.
  unfold tools_dict_get, tools_dict. intros H.
  destruct (supabase_available env); [| discriminate].
  apply find_some in H as [_ H]. apply String.eqb_eq in H. auto.
Qed.

(** A call either does not fit the parameters, and then raises without a
    trace, or enters the tool and adds the requests of its body. *)
Lemma call_tool_cases (t : tool) (args : list pyval) (tr : trace) :
  call_tool env t args tr
  = (Raise (TypeError_arity (tool_name t) (length args)), tr)
  \/ exists r body,
       call_tool env t args tr = (r, body ++ ECall (tool_name t) args :: tr)
       /\ store_only (trips_allowed (ECall (tool_name t) args)) body.
Proof.
  assert (Hin : forall (k : nat) (body : M string),
             emits (store_only k) body ->
             (k <= trips_allowed (ECall (tool_name t) args))%nat ->
             exists r ev,
               body (ECall (tool_name t) args :: tr)
               = (r, ev ++ ECall (tool_name t) args :: tr)
               /\ store_only (trips_allowed (ECall (tool_name t) args)) ev).
  { intros k body Hbody Hk.
    destruct (Hbody (ECall (tool_name t) args :: tr)) as (ev & Heq & Hev).
    destruct (body (ECall (tool_name t) args :: tr)) as [r tr'].
    simpl in Heq. subst tr'. exists r, ev. split; [reflexivity |].
    eapply store_only_le; eassumption. }
  destruct t; destruct args as [|a1 [|a2 [|a3 [|a4 [|a5 [|a6 args]]]]]];
    try (left; reflexivity); right; unfold call_tool.
  - apply Hin with (k := 1%nat); [| simpl; lia].
    eapply one_request_store_only; [| apply get_oura_sleep_score_events].
    intros ev [-> | ->]; eauto.
  - apply Hin with (k := 1%nat); [| simpl; lia].
    eapply one_request_store_only; [| apply get_oura_activity_steps_events].
    intros ev [-> | (q & ->)]; eauto.
  - apply Hin with (k := 1%nat); [| simpl; lia].
    eapply one_request_store_only; [| apply log_gym_set_events].
    intros ev [-> | ->]; eauto.
  - apply Hin with (k := 3%nat); [| simpl; lia].
    apply get_readiness_report_events.
  - apply Hin with (k := 3%nat); [| simpl; lia].
    apply get_readiness_report_events.
  - apply Hin with (k := 3%nat); [| simpl; lia].
    apply get_readiness_report_events.
Qed.

Lemma branch_call_args (t : tool) (name : string) (tool_inputs : list string)
    (tr : trace) :
  branch_call env t name tool_inputs tr
  = match branch_args name tool_inputs with
    | Ok args => call_tool env t args tr
    | Raise e => (Raise e, tr)
    end.
Proof.
  unfold branch_call, branch_args.
  destruct (String.eqb name "log_gym_set").
  { mred. destruct (typed_inputs tool_inputs); reflexivity. }
  destruct (String.eqb name "get_readiness_report"); [| reflexivity].
  destruct tool_inputs as [|a [|b rest]]; reflexivity.
Qed.

(** The outcome of [process_query] once the decision is known to be a tool
    call: the reply of the handler when the inner block raises. *)
Lemma process_query_tool_call (user_query answer : string) (tr : trace) :
  llm_ready env = true ->
  let prompt := decision_prompt env (today env) (today env - 1) user_query in
  llm_invoke env tr prompt [nl] = Ok answer ->
  String.prefix "ACTION: TOOL_CALL" (strip answer) = true ->
  process_query env user_query tr
  = match execute_tool_call env (strip answer) user_query
            (ELlm prompt [nl] :: tr) with
    | (Ok reply, tr') => (Ok reply, tr')
    | (Raise e, tr') => (Ok (tool_error_reply e), tr')
    end.
Proof.
  intros Hllm prompt Hans Hpre. unfold process_query.
  rewrite Hllm. cbv beta iota zeta delta [negb].
  rewrite date_sub_days_today by lia. mred.
  fold prompt. rewrite Hans, Hpre.
  destruct (execute_tool_call _ _ _ _) as [[reply | e] tr']; reflexivity.
Qed.

(** The inner block either stops in its tool phase or ends with the
    synthesis request, whose answer is its result. *)
Lemma execute_tool_call_cases (decision user_query : string) (tr : trace) :
  (exists r ev,
     execute_tool_call env decision user_query tr = (r, ev ++ tr)
     /\ tool_phase ev)
  \/ (exists prompt ev,
        execute_tool_call env decision user_query tr
        = (llm_invoke env (ev ++ tr) prompt [], ELlm prompt [] :: ev ++ tr)
        /\ tool_phase ev).
Proof.
  unfold execute_tool_call. mred.
  destruct (list_item (split_on "|" decision) 1) as [name_field | e].
  2: { left. exists (Raise e), []. split; [reflexivity | apply tool_phase_nil]. }
  destruct (tools_dict_get env (strip name_field)) as [t |].
  2: { left. eexists _, []. split; [reflexivity | apply tool_phase_nil]. }
  destruct (call_tool_tool_phase t
              (map VStr (clean_inputs (map strip (drop 2 (split_on "|" decision)))))
              tr) as (e1 & Heq1 & H1).
  destruct (call_tool env t _ tr) as [[r1 | x] tr1]; simpl in Heq1; subst tr1.
  2: { left. exists (Raise x), e1. auto. }
  destruct (branch_call_tool_phase t (strip name_field)
              (map strip (drop 2 (split_on "|" decision))) (e1 ++ tr))
    as (e2 & Heq2 & H2).
  destruct (branch_call env t _ _ (e1 ++ tr)) as [[r2 | x] tr2];
    simpl in Heq2; subst tr2.
  2: { left. exists (Raise x), (e2 ++ e1). rewrite <- app_assoc.
       auto using tool_phase_app. }
  destruct (coaching_instruction env (strip name_field)) as [c | x].
  2: { left. exists (Raise x), (e2 ++ e1). rewrite <- app_assoc.
       auto using tool_phase_app. }
  right. exists (format_prompt r2 user_query c), (e2 ++ e1).
  rewrite <- app_assoc. auto using tool_phase_app.
Qed.

Lemma tool_phase_no_synthesis_head (ev rest : list event) (e : event)
    (prompt : string) :
  tool_phase ev -> is_llm e = true -> e <> ELlm prompt [] ->
  ev ++ [e] <> ELlm prompt [] :: rest.
Proof.
  intros [Hl _] He Hne H. destruct ev as [|x ev].
  - injection H as H _. contradiction.
  - injection H as -> _. unfold n_llm in Hl. simpl in Hl. lia.
Qed.

Lemma process_query_returns (user_query : string) :
  returns (process_query env user_query).
Proof.
  intros tr. unfold process_query.
  destruct (negb (llm_ready env)); [apply returns_ret |].
  rewrite date_sub_days_today by lia.
  cbv beta iota zeta delta [bind lift].
  apply returns_try. intros e. apply returns_ret.
Qed.

(** C5 (amended). [process_query] lets no exception out: it always returns
    a reply. In particular, when its last request is a synthesis request
    (the completion request without stop sequence) that fails with [e], the
    failure is caught by the handler of the tool-execution block and the
    reply is the "Sorry, I ran into an error ..." message with [e]
    inlined. *)
Theorem synthesis_failure_becomes_reply (user_query : string) (tr : trace) :
  exists reply,
    fst (process_query env user_query tr) = Ok reply
    /\ forall prompt ev e,
         snd (process_query env user_query tr) = (ELlm prompt [] :: ev) ++ tr ->
         llm_invoke env (ev ++ tr) prompt [] = Raise e ->
         reply = tool_error_reply e.
Proof.
  destruct (process_query_returns user_query tr) as [reply Hreply].
  exists reply. split; [exact Hreply |].
  intros prompt ev e Htr Hfail. revert Hreply Htr.
  unfold process_query.
  destruct (negb (llm_ready env)).
  { simpl. intros _ H. exfalso.
    apply (f_equal (@length event)) in H. simpl in H.
    rewrite length_app in H. lia. }
  rewrite date_sub_days_today by lia. mred.
  set (dp := decision_prompt env (today env) (today env - 1) user_query).
  assert (Hdp : forall x, x ++ ELlm dp [nl] :: tr = (ELlm prompt [] :: ev) ++ tr ->
                          x ++ [ELlm dp [nl]] = ELlm prompt [] :: ev).
  { intros x H. apply (app_inv_tail tr). rewrite <- H, <- app_assoc. reflexivity. }
  assert (Hno : forall x, tool_phase x ->
                          x ++ ELlm dp [nl] :: tr <> (ELlm prompt [] :: ev) ++ tr).
  { intros x Hx H. apply Hdp in H. revert H.
    apply tool_phase_no_synthesis_head; [exact Hx | reflexivity | discriminate]. }
  destruct (llm_invoke env tr dp [nl]) as [answer | x].
  2: { simpl. intros _ H. exfalso. now apply (Hno [] tool_phase_nil). }
  destruct (String.prefix "ACTION: TOOL_CALL" (strip answer)).
  2: { destruct (String.prefix "ACTION: DIRECT_ANSWER" (strip answer));
       simpl; intros _ H; exfalso; now apply (Hno [] tool_phase_nil). }
  destruct (execute_tool_call_cases (strip answer) user_query (ELlm dp [nl] :: tr))
    as [(r & x & -> & Hx) | (p & x & -> & Hx)].
  - destruct r; simpl; intros _ H; exfalso; now apply (Hno x Hx).
  - assert (Hshape : forall t, t = ELlm p [] :: x ++ ELlm dp [nl] :: tr ->
                t = (ELlm prompt [] :: ev) ++ tr -> p = prompt /\ x ++ [ELlm dp [nl]] = ev).
    { intros t -> H. injection H as -> H. split; [reflexivity |].
      apply (app_inv_tail tr). rewrite <- H, <- app_assoc. reflexivity. }
    destruct (llm_invoke env (x ++ ELlm dp [nl] :: tr) p []) as [a | e'] eqn:Hsyn;
      simpl; intros Hreply Htr;
      destruct (Hshape _ eq_refl Htr) as [-> <-];
      rewrite <- app_assoc in Hfail; simpl in Hfail; rewrite Hsyn in Hfail.
    + discriminate.
    + congruence.
Qed.

(** *** The query tools on a date without records *)

(** C6. At a date that parses, when the store returns no sleep record,
    [get_oura_sleep_score] does not say "No Oura sleep data found ...": the
    message is built from the name [summary_date], which is bound nowhere,
    so a NameError is raised, caught by the handler of the tool, and the
    result is the error string of that handler. *)
Theorem sleep_score_no_records_is_error (day : pyval) (d : date) (tr : trace) :
  fromisoformat day = Ok d ->
  store_select env tr sleep_recent_query = Ok [] ->
  get_oura_sleep_score env day tr
  = (Ok ("Error while fetching sleep data: " +:+ exn_str (NameError "summary_date")),
     ESelect sleep_recent_query :: tr).
Proof.
  intros Hday Hsel. unfold get_oura_sleep_score. mred.
  rewrite Hday, Hsel. reflexivity.
Qed.

Lemma activity_steps_no_records (day : pyval) (d : date) (tr : trace) :
  fromisoformat day = Ok d ->
  store_select env tr (activity_day_query (isoformat d)) = Ok [] ->
  get_oura_activity_steps env day tr
  = (Ok ("No activity data found for " +:+ py_str day +:+ "."),
     ESelect (activity_day_query (isoformat d)) :: tr).
Proof.
  intros Hday Hsel. unfold get_oura_activity_steps. mred.
  rewrite Hday, Hsel. reflexivity.
Qed.

Lemma sleep_score_bad_date (day : pyval) (e : exn) (tr : trace) :
  fromisoformat day = Raise e ->
  get_oura_sleep_score env day tr
  = (Ok ("Error while fetching sleep data: " +:+ exn_str e), tr).
Proof.
  intros Hday. unfold get_oura_sleep_score. mred. rewrite Hday. reflexivity.
Qed.

Lemma activity_steps_bad_date (day : pyval) (e : exn) (tr : trace) :
  fromisoformat day = Raise e ->
  get_oura_activity_steps env day tr
  = (Ok ("Error while fetching activity data: " +:+ exn_str e), tr).
Proof.
  intros Hday. unfold get_oura_activity_steps. mred. rewrite Hday. reflexivity.
Qed.

(** *** Logging a set *)

(** A finite weight that is not above zero fails [weight > 0]; so do nan
    and minus infinity. *)
Lemma float_gt_zero_false (q : Q) :
  (q <= 0)%Q -> float_gt (FFin q) (exact 0) = false.
Proof.
  intros H. unfold float_gt, exact.
  destruct (Qcompare q (inject_Z 0)) eqn:Hc; try reflexivity.
  apply Qgt_alt in Hc. exfalso.
  apply (Qlt_irrefl q). eapply Qle_lt_trans; [exact H | exact Hc].
Qed.

(** With numbers for weight, repetitions and sets, the test of
    [log_gym_set] is the conjunction it reads as. *)
Lemma parameters_ok_typed (exercise : string) (w : pyfloat) (r s : Z) :
  parameters_ok (VStr exercise) (VFloat w) (VInt r) (VInt s)
  = Ok (negb (String.eqb exercise EmptyString) && float_gt w (exact 0)
          && (r >? 0) && (s >? 0)).
Proof.
  unfold parameters_ok, truthy, py_gt.
  destruct (negb (String.eqb exercise EmptyString)); [| reflexivity].
  destruct (float_gt w (exact 0)); [| reflexivity].
  destruct (r >? 0); reflexivity.
Qed.

(** A weight that is still a string never passes the test: the call ends
    without a request. *)
Lemma log_gym_set_string_weight (date_str exercise weight : string)
    (reps sets : pyval) (tr : trace) :
  exists msg,
    log_gym_set env (VStr date_str) (VStr exercise) (VStr weight) reps sets tr
    = (Ok msg, tr)
    /\ (exercise <> EmptyString -> msg = internal_error_message).
Proof.
  unfold log_gym_set. mred.
  destruct (fromisoformat (VStr date_str)); [| eauto].
  unfold parameters_ok, truthy.
  destruct (String.eqb_spec exercise EmptyString) as [-> | Hne];
    cbv beta iota zeta delta [negb py_gt type_name].
  - eexists. split; [reflexivity | congruence].
  - eauto.
Qed.


Lemma log_gym_set_accepts (date_str exercise : string) (w : pyfloat) (r s : Z)
    (tr : trace) :
  parse_isoformat date_str <> None -> exercise <> EmptyString ->
  float_gt w (exact 0) = true -> 0 < r -> 0 < s ->
  let row := workout_row (VStr date_str) (VStr exercise) (VFloat w) (VInt r)
               (VInt s) in
  store_insert env tr "manual_workouts" row = Ok None ->
  log_gym_set env (VStr date_str) (VStr exercise) (VFloat w) (VInt r) (VInt s) tr
  = (Ok (confirmation (VStr date_str) (VStr exercise) (VFloat w) (VInt r) (VInt s)),
     EInsert "manual_workouts" row :: tr).
Proof.
  intros Hdate Hex Hw Hr Hs row Hins. unfold log_gym_set. mred.
  unfold fromisoformat.
  destruct (parse_isoformat date_str); [| congruence].
  rewrite parameters_ok_typed.
  apply String.eqb_neq in Hex. rewrite Hex, Hw.
  rewrite (gtb_true r 0 Hr), (gtb_true s 0 Hs).
  cbv beta iota zeta delta [negb andb]. fold row. rewrite Hins. reflexivity.
Qed.

(** *** A decision that calls a tool *)

(** The whole dispatch of such a decision, call by call. *)
Lemma process_query_dispatch (user_query : string) (tr : trace)
    (name : string) (tool_inputs : list string) (t : tool) :
  decides_tool_call env user_query tr name tool_inputs ->
  tools_dict_get env name = Some t ->
  process_query env user_query tr
  = match call_tool env t (map VStr (clean_inputs tool_inputs))
            (decision_event env user_query :: tr) with
    | (Raise e, tr1) => (Ok (tool_error_reply e), tr1)
    | (Ok _, tr1) =>
        match branch_args name tool_inputs with
        | Raise e => (Ok (tool_error_reply e), tr1)
        | Ok args =>
            match call_tool env t args tr1 with
            | (Raise e, tr2) => (Ok (tool_error_reply e), tr2)
            | (Ok tool_result, tr2) =>
                match coaching_instruction env name with
                | Raise e => (Ok (tool_error_reply e), tr2)
                | Ok coaching =>
                    let prompt := format_prompt tool_result user_query coaching in
                    (Ok (match llm_invoke env tr2 prompt [] with
                         | Ok reply => reply
                         | Raise e => tool_error_reply e
                         end),
                     ELlm prompt [] :: tr2)
                end
            end
        end
    end.
Proof.
  intros (Hllm & answer & name_field & Hans & Hpre & Hname & -> & ->) Htool.
  rewrite (process_query_tool_call user_query answer tr Hllm Hans Hpre).
  unfold execute_tool_call, decision_event. mred.
  unfold list_item. rewrite Hname, Htool.
  destruct (call_tool env t _ _) as [[r1 | e1] tr1]; [| reflexivity].
  rewrite branch_call_args.
  destruct (branch_args _ _) as [args | e2]; [| reflexivity].
  destruct (call_tool env t args tr1) as [[r2 | e3] tr2]; [| reflexivity].
  destruct (coaching_instruction env _) as [c | e4]; [| reflexivity].
  destruct (llm_invoke env tr2 _ []); reflexivity.
Qed.

Lemma registered_log_gym_set (t : tool) :
  tools_dict_get env "log_gym_set" = Some t -> t = LogGymSet.
Proof.
  intros H. apply tools_dict_get_name in H as [H _].
  destruct t; simpl in H; congruence.
Qed.

(** The first call of the dispatch hands [log_gym_set] strings only: it
    fits the five parameters or raises, and sends no request. *)
Lemma call_log_gym_set_strings (fields : list string) (tr : trace) :
  (length fields <> 5%nat
   /\ call_tool env LogGymSet (map VStr fields) tr
      = (Raise (TypeError_arity "log_gym_set" (length fields)), tr))
  \/ (length fields = 5%nat
      /\ exists msg,
           call_tool env LogGymSet (map VStr fields) tr
           = (Ok msg, ECall "log_gym_set" (map VStr fields) :: tr)
           /\ (Forall (fun f => f <> EmptyString) fields ->
               msg = internal_error_message)).
Proof.
  destruct fields as [|a [|b [|c [|d [|e [|f rest]]]]]];
    try (left; split; [simpl; lia | simpl; rewrite ?length_map; reflexivity]).
  right. split; [reflexivity |].
  unfold call_tool. simpl map.
  destruct (log_gym_set_string_weight a b c (VStr d) (VStr e)
              (ECall (tool_name LogGymSet) [VStr a; VStr b; VStr c; VStr d; VStr e] :: tr))
    as (msg & Heq & Hmsg).
  exists msg. split; [exact Heq |].
  intros Hall. apply Hmsg.
  exact (Forall_inv (Forall_inv_tail Hall)).
Qed.


Lemma calls_entry (body : list event) (k : nat) (name : string)
    (args : list pyval) (rest : list event) :
  store_only k body ->
  calls (body ++ ECall name args :: rest) = ECall name args :: calls rest.
Proof.
  intros H. apply store_only_counts in H as (_ & H & _).
  rewrite calls_app, H. reflexivity.
Qed.

Lemma n_llm_entry (body : list event) (k : nat) (name : string)
    (args : list pyval) (rest : list event) :
  store_only k body ->
  n_llm (body ++ ECall name args :: rest) = n_llm rest.
Proof.
  intros H. apply store_only_counts in H as (H & _).
  rewrite n_llm_app, H. reflexivity.
Qed.

Lemma dispatch_outcome (user_query : string) (tr : trace)
    (name : string) (tool_inputs : list string) (t : tool) :
  decides_tool_call env user_query tr name tool_inputs ->
  tools_dict_get env name = Some t ->
  error_outcome name tool_inputs (decision_event env user_query :: tr)
    (process_query env user_query tr)
  \/ synthesis_outcome env t name tool_inputs user_query
       (decision_event env user_query :: tr) (process_query env user_query tr).
Proof.
  intros Hdec Htool.
  rewrite (process_query_dispatch _ _ _ _ _ Hdec Htool).
  destruct (tools_dict_get_name _ _ Htool) as [Hname _].
  set (tr0 := decision_event env user_query :: tr).
  pose (first := ECall name (map VStr (clean_inputs tool_inputs))).
  destruct (call_tool_cases t (map VStr (clean_inputs tool_inputs)) tr0)
    as [Heq | (r1 & body1 & Heq & Hb1)]; rewrite Hname in Heq.
  { left. rewrite Heq.
    exists (TypeError_arity name (length (map VStr (clean_inputs tool_inputs)))), [].
    repeat split; auto. }
  rewrite Hname in Hb1. fold first in Heq, Hb1.
  assert (Hleft1 : forall e,
             error_outcome name tool_inputs tr0
               (Ok (tool_error_reply e), body1 ++ first :: tr0)).
  { intros e. exists e, (body1 ++ [first]). split; [| split].
    - rewrite <- app_assoc. reflexivity.
    - unfold first. now rewrite (n_llm_entry _ _ _ _ _ Hb1).
    - right. left. unfold first. now rewrite (calls_entry _ _ _ _ _ Hb1). }
  destruct (call_tool env t (map VStr (clean_inputs tool_inputs)) tr0)
    as [r1' tr1] eqn:Hcall1.
  injection Heq as -> ->.
  destruct r1 as [r1 | e1]; [| left; apply Hleft1].
  destruct (branch_args name tool_inputs) as [args | e2] eqn:Hargs;
    [| left; apply Hleft1].
  destruct (call_tool_cases t args (body1 ++ first :: tr0))
    as [Heq | (r2 & body2 & Hcall2 & Hb2)];
    [rewrite Heq; left; apply Hleft1 | rewrite Hcall2].
  rewrite Hname in *.
  assert (Hb2' : store_only (trips_allowed first) body2) by exact Hb2.
  assert (Hleft2 : forall e,
             error_outcome name tool_inputs tr0
               (Ok (tool_error_reply e),
                body2 ++ ECall name args :: body1 ++ first :: tr0)).
  { intros e. exists e, (body2 ++ ECall name args :: body1 ++ [first]).
    split; [| split].
    - rewrite <- app_assoc. simpl. rewrite <- app_assoc. reflexivity.
    - rewrite (n_llm_entry _ _ _ _ _ Hb2). unfold first.
      now rewrite (n_llm_entry _ _ _ _ _ Hb1).
    - right. right. exists args. split; [exact Hargs |].
      rewrite (calls_entry _ _ _ _ _ Hb2). unfold first.
      now rewrite (calls_entry _ _ _ _ _ Hb1). }
  destruct r2 as [result | e3]; [| left; apply Hleft2].
  destruct (coaching_instruction env name) as [coaching | e4] eqn:Hco;
    [| left; apply Hleft2].
  right. exists args, r1, body1, result, body2, coaching.
  split; [exact Hargs |]. split; [exact Hb1 |]. split; [exact Hb2' |].
  split; [exact Hcall1 |]. split; [exact Hcall2 |]. split; [exact Hco |].
  reflexivity.
Qed.

(** *** The two calls of the dispatch *)

Lemma call_tool_rejects (t : tool) (args : list pyval) (tr : trace) :
  accepts t (length args) = false ->
  call_tool env t args tr
  = (Raise (TypeError_arity (tool_name t) (length args)), tr).
Proof.
  destruct t; destruct args as [|a1 [|a2 [|a3 [|a4 [|a5 [|a6 args]]]]]];
    cbn [accepts length Nat.eqb Nat.leb]; intros H; try discriminate H;
    reflexivity.
Qed.

Lemma call_tool_enters (t : tool) (args : list pyval) (tr : trace) :
  accepts t (length args) = true ->
  exists r body,
    call_tool env t args tr = (r, body ++ ECall (tool_name t) args :: tr)
    /\ store_only (trips_allowed (ECall (tool_name t) args)) body.
Proof.
  intros Hfit.
  destruct (call_tool_cases t args tr) as [Heq | H]; [| exact H].
  exfalso. destruct (call_tool_events t args tr) as (ev & Hev & Hcall).
  rewrite Heq in Hev. cbn [snd] in Hev.
  assert (Hnil : ev = []).
  { apply (f_equal (@length event)) in Hev. rewrite length_app in Hev.
    destruct ev; [reflexivity | simpl in Hev; lia]. }
  clear Hev Hcall. revert Heq.
  destruct t; destruct args as [|a1 [|a2 [|a3 [|a4 [|a5 [|a6 args]]]]]];
    cbn [accepts length Nat.eqb Nat.leb] in Hfit; try discriminate Hfit;
    unfold call_tool; intros Heq.
  all: match type of Heq with
       | ?body ?tr1 = _ =>
           assert (Hlen : (length tr < length (snd (body tr1)))%nat);
           [| rewrite Heq in Hlen; cbn [snd] in Hlen; lia]
       end.
  - destruct (get_oura_sleep_score_events a1 (ECall (tool_name GetOuraSleepScore) [a1] :: tr))
      as (e1 & -> & _). rewrite length_app. simpl. lia.
  - destruct (get_oura_activity_steps_events a1
                (ECall (tool_name GetOuraActivitySteps) [a1] :: tr))
      as (e1 & -> & _). rewrite length_app. simpl. lia.
  - destruct (log_gym_set_events a1 a2 a3 a4 a5
                (ECall (tool_name LogGymSet) [a1; a2; a3; a4; a5] :: tr))
      as (e1 & -> & _). rewrite length_app. simpl. lia.
  - destruct (get_readiness_report_events VNone VNone
                (ECall (tool_name GetReadinessReport) [] :: tr))
      as (e1 & -> & _). rewrite length_app. simpl. lia.
  - destruct (get_readiness_report_events a1 VNone
                (ECall (tool_name GetReadinessReport) [a1] :: tr))
      as (e1 & -> & _). rewrite length_app. simpl. lia.
  - destruct (get_readiness_report_events a1 a2
                (ECall (tool_name GetReadinessReport) [a1; a2] :: tr))
      as (e1 & -> & _). rewrite length_app. simpl. lia.
Qed.

(** The dispatch of a decision that names a registered tool, call by call:
    whether the arguments fit, what each call returns and adds to the
    history, and what the outcome then is. *)
Lemma dispatch_run (user_query : string) (tr : trace)
    (name : string) (tool_inputs : list string) (t : tool) :
  decides_tool_call env user_query tr name tool_inputs ->
  tools_dict_get env name = Some t ->
  let tr0 := decision_event env user_query :: tr in
  let clean := map VStr (clean_inputs tool_inputs) in
  let first := ECall name clean in
  let out := process_query env user_query tr in
  (accepts t (length clean) = false
   /\ out = (Ok (tool_error_reply (TypeError_arity name (length clean))), tr0))
  \/ exists r1 body1,
       accepts t (length clean) = true
       /\ call_tool env t clean tr0 = (r1, body1 ++ first :: tr0)
       /\ store_only (trips_allowed first) body1
       /\ match r1 with
          | Raise e => out = (Ok (tool_error_reply e), body1 ++ first :: tr0)
          | Ok _ =>
              match branch_args name tool_inputs with
              | Raise e => out = (Ok (tool_error_reply e), body1 ++ first :: tr0)
              | Ok args =>
                  if accepts t (length args) then
                    exists r2 body2,
                      let tr2 := body2 ++ ECall name args :: body1 ++ first :: tr0 in
                      call_tool env t args (body1 ++ first :: tr0) = (r2, tr2)
                      /\ store_only (trips_allowed first) body2
                      /\ match r2 with
                         | Raise e => out = (Ok (tool_error_reply e), tr2)
                         | Ok result =>
                             match coaching_instruction env name with
                             | Raise e => out = (Ok (tool_error_reply e), tr2)
                             | Ok coaching =>
                                 let prompt :=
                                   format_prompt result user_query coaching in
                                 out
                                 = (Ok (match llm_invoke env tr2 prompt [] with
                                        | Ok reply => reply
                                        | Raise e => tool_error_reply e
                                        end),
                                    ELlm prompt [] :: tr2)
                             end
                         end
                  else
                    out
                    = (Ok (tool_error_reply
                             (TypeError_arity name (length args))),
                       body1 ++ first :: tr0)
              end
          end.
Proof.
  intros Hdec Htool tr0 clean first out. subst out.
  rewrite (process_query_dispatch _ _ _ _ _ Hdec Htool). fold tr0 clean.
  destruct (tools_dict_get_name _ _ Htool) as [Hname _].
  destruct (accepts t (length clean)) eqn:Hfit1.
  2: { left. split; [reflexivity |].
       rewrite (call_tool_rejects t clean tr0 Hfit1), Hname. reflexivity. }
  right. destruct (call_tool_enters t clean tr0 Hfit1) as (r1 & body1 & Hc1 & Hb1).
  rewrite Hname in Hc1, Hb1. fold first in Hc1, Hb1.
  exists r1, body1. split; [reflexivity |]. split; [exact Hc1 |].
  split; [exact Hb1 |]. rewrite Hc1.
  destruct r1 as [r1 | e1]; [| reflexivity].
  destruct (branch_args name tool_inputs) as [args | e2]; [| reflexivity].
  destruct (accepts t (length args)) eqn:Hfit2.
  2: { rewrite (call_tool_rejects t args _ Hfit2), Hname. reflexivity. }
  destruct (call_tool_enters t args (body1 ++ first :: tr0) Hfit2)
    as (r2 & body2 & Hc2 & Hb2).
  rewrite Hname in Hc2, Hb2.
  exists r2, body2. cbv zeta. split; [exact Hc2 |]. split; [exact Hb2 |].
  rewrite Hc2. destruct r2 as [result | e3]; [| reflexivity].
  destruct (coaching_instruction env name) as [coaching | e4]; reflexivity.
Qed.

(** *** The arguments of the call that feeds the synthesis *)




(** *** The profile behind the coaching block *)

Lemma registered_readiness :
  supabase_available env = true ->
  tools_dict_get env "get_readiness_report" = Some GetReadinessReport.
Proof.
  intros H. unfold tools_dict_get, tools_dict. rewrite H. reflexivity.
Qed.

(** C9. When the profile document is missing, is not JSON or is not a JSON
    object, the loader leaves [USER_PROFILE] empty: no default is
    substituted. The coaching block then fails on its first read,
    [USER_PROFILE['age']], with a KeyError, so every decision for
    [get_readiness_report] ends in the error reply of the dispatch, without
    a synthesis request. *)
Theorem missing_profile_breaks_readiness (file : profile_file)
    (user_query : string) (tr : trace) (tool_inputs : list string) :
  file = FileMissing \/ file = FileNotJson \/ file = FileJsonOther ->
  USER_PROFILE env = load_user_profile file ->
  supabase_available env = true ->
  decides_tool_call env user_query tr "get_readiness_report" tool_inputs ->
  USER_PROFILE env = ∅
  /\ coaching_instruction env "get_readiness_report" = Raise (KeyError "age")
  /\ exists e ev,
       process_query env user_query tr
       = (Ok (tool_error_reply e), ev ++ decision_event env user_query :: tr)
       /\ n_llm ev = 0%nat.
Proof.
  intros Hfile Hprofile Hup Hdec.
  assert (Hempty : USER_PROFILE env = ∅).
  { rewrite Hprofile. destruct Hfile as [-> | [-> | ->]]; reflexivity. }
  assert (Hco : coaching_instruction env "get_readiness_report"
                = Raise (KeyError "age")).
  { unfold coaching_instruction, dict_item. rewrite Hempty. reflexivity. }
  split; [exact Hempty |]. split; [exact Hco |].
  destruct (dispatch_outcome _ _ _ _ _ Hdec (registered_readiness Hup))
    as [(e & ev & Heq & Hl & _)
       | (args & r1 & body1 & result & body2 & coaching
          & _ & _ & _ & _ & _ & Hco' & _)].
  - exists e, ev. auto.
  - congruence.
Qed.

(** *** Two entries per request *)

Lemma clean_inputs_nonempty (fields : list string) :
  Forall (fun f => f <> EmptyString) fields -> clean_inputs fields = fields.
Proof.
  unfold clean_inputs. induction 1 as [|f fields Hf _ IH]; [reflexivity |].
  simpl. apply String.eqb_neq in Hf. rewrite Hf. simpl. now rewrite IH.
Qed.

Lemma dispatch_entries (user_query : string) (tr : trace)
    (name : string) (tool_inputs : list string) (t : tool) :
  decides_tool_call env user_query tr name tool_inputs ->
  tools_dict_get env name = Some t ->
  let tr0 := decision_event env user_query :: tr in
  let first := ECall name (map VStr (clean_inputs tool_inputs)) in
  exists reply ev,
    process_query env user_query tr = (Ok reply, ev ++ tr0)
    /\ (calls ev = [] \/ calls ev = [first]
        \/ exists args,
             branch_args name tool_inputs = Ok args
             /\ calls ev = [ECall name args; first])
    /\ ((n_llm ev = 0%nat /\ exists e, reply = tool_error_reply e)
        \/ (length (calls ev) = 2%nat
            /\ synthesis_outcome env t name tool_inputs user_query tr0
                 (process_query env user_query tr))).
Proof.
  intros Hdec Htool tr0 first.
  destruct (dispatch_outcome _ _ _ _ _ Hdec Htool)
    as [(e & ev & Heq & Hl & Hcalls) | Hsyn].
  + exists (tool_error_reply e), ev. split; [exact Heq |].
    split; [exact Hcalls |]. left. eauto.
  + pose proof Hsyn as (args & r1 & body1 & result & body2 & coaching
                        & Hargs & Hb1 & Hb2 & Hc1 & Hc2 & Hco & Heq).
    fold first tr0 in Hb1, Hb2, Hc1, Hc2, Heq.
    assert (Hcalls : calls (ELlm (format_prompt result user_query coaching) []
                              :: body2 ++ ECall name args :: body1 ++ [first])
                     = [ECall name args; first]).
    { change (calls (body2 ++ ECall name args :: body1 ++ [first])
              = [ECall name args; first]).
      rewrite (calls_entry _ _ _ _ _ Hb2). unfold first.
      now rewrite (calls_entry _ _ _ _ _ Hb1). }
    eexists _, (ELlm (format_prompt result user_query coaching) []
                  :: body2 ++ ECall name args :: body1 ++ [first]).
    split; [| split].
    * rewrite Heq. f_equal. simpl. f_equal.
      rewrite <- app_assoc. simpl. rewrite <- app_assoc. reflexivity.
    * right. right. exists args. split; [exact Hargs | exact Hcalls].
    * right. rewrite Hcalls. split; [reflexivity | exact Hsyn].
Qed.

(** C10 (amended). For a TOOL_CALL decision naming a registered tool the
    dispatch returns a reply, and its calls of the tool are these. The
    first call is made with the cleaned strings: when they fit the
    parameters the tool is entered with them, before any other entry, and
    when they do not, the call raises without entering it and the reply is
    the error message with that TypeError, after the decision request
    alone. When the first call has returned and the arguments of the branch
    on the tool name can be built, the second call is made with them: when
    they fit, the tool is entered a second time, so that the entries are
    exactly these two, and when they do not, the one entry stays and the
    reply is the error message. There are never more than two entries.
    Either the dispatch stopped in its error reply without a synthesis
    request (after no, one or two entries: a call that raises inside the
    tool has entered it), or it entered the tool twice and the synthesis
    prompt carries the result of the second entry, on the line after "Based
    on this data:". For a [log_gym_set]
    decision with five non-empty fields that are valid and accepted by the
    store, the first entry returns the internal-error message without a
    request (its weight is a string), and the request ends after the one
    insert of the second entry, the insert of the record that holds the
    coerced fields. *)
Theorem dispatch_enters_tool_twice (user_query : string) (tr : trace)
    (name : string) (tool_inputs : list string) (t : tool) :
  decides_tool_call env user_query tr name tool_inputs ->
  tools_dict_get env name = Some t ->
  let tr0 := decision_event env user_query :: tr in
  let clean := map VStr (clean_inputs tool_inputs) in
  let first := ECall name clean in
  (exists reply ev,
     process_query env user_query tr = (Ok reply, ev ++ tr0)
     /\ (if accepts t (length clean)
         then exists later, calls ev = later ++ [first]
         else ev = []
              /\ reply = tool_error_reply (TypeError_arity name (length clean)))
     /\ (forall r1 tr1 args,
           call_tool env t clean tr0 = (Ok r1, tr1) ->
           branch_args name tool_inputs = Ok args ->
           if accepts t (length args)
           then calls ev = [ECall name args; first]
           else calls ev = [first]
                /\ reply = tool_error_reply (TypeError_arity name (length args)))
     /\ (calls ev = [] \/ calls ev = [first]
         \/ exists args,
              branch_args name tool_inputs = Ok args
              /\ calls ev = [ECall name args; first])
     /\ ((n_llm ev = 0%nat /\ exists e, reply = tool_error_reply e)
         \/ (length (calls ev) = 2%nat
             /\ synthesis_outcome env t name tool_inputs user_query tr0
                  (process_query env user_query tr)
             /\ exists args tr1 result tr2 rest,
                  branch_args name tool_inputs = Ok args
                  /\ call_tool env t args tr1 = (Ok result, tr2)
                  /\ ev ++ tr0
                     = ELlm ("Based on this data:" +:+ nl +:+ result +:+ nl
                               +:+ rest) [] :: tr2)))
  /\ (forall date_str exercise weight reps sets w r s,
        name = "log_gym_set" ->
        tool_inputs = [date_str; exercise; weight; reps; sets] ->
        Forall (fun f => f <> EmptyString) tool_inputs ->
        parse_isoformat date_str <> None ->
        parse_float weight = Some w -> float_gt w (exact 0) = true ->
        parse_int reps = Some r -> 0 < r ->
        parse_int sets = Some s -> 0 < s ->
        let typed := [VStr date_str; VStr exercise; VFloat w; VInt r; VInt s] in
        let row : dict :=
          <["workout_date" := VStr date_str]>
            (<["exercise_name" := VStr exercise]>
               (<["weight_kg" := VFloat w]>
                  (<["repetitions" := VInt r]>
                     (<["sets" := VInt s]> ∅)))) in
        store_insert env (ECall name typed :: first :: tr0) "manual_workouts" row
        = Ok None ->
        call_tool env t (map VStr tool_inputs) tr0
        = (Ok "An internal error occurred while trying to log the workout.",
           first :: tr0)
        /\ exists reply rest,
             process_query env user_query tr
             = (Ok reply,
                [ELlm ("Based on this data:" +:+ nl
                         +:+ ("Successfully logged Set " +:+ pretty s +:+ " of "
                                +:+ exercise +:+ " (" +:+ float_repr w +:+ "kg x "
                                +:+ pretty r +:+ " reps) for " +:+ date_str
                                +:+ ".")
                         +:+ nl +:+ rest) [];
                 EInsert "manual_workouts" row;
                 ECall name typed;
                 first] ++ tr0)).
Proof.
  intros Hdec Htool tr0 clean first.
  destruct (tools_dict_get_name _ _ Htool) as [Hname _].
  split.
  - destruct (dispatch_entries _ _ _ _ _ Hdec Htool)
      as (reply & ev & Heq & Hcalls & Hout).
    fold tr0 clean first in Heq, Hcalls, Hout.
    exists reply, ev. split; [exact Heq |].
    assert (Hout' :
              (n_llm ev = 0%nat /\ exists e, reply = tool_error_reply e)
              \/ (length (calls ev) = 2%nat
                  /\ synthesis_outcome env t name tool_inputs user_query tr0
                       (process_query env user_query tr)
                  /\ exists args tr1 result tr2 rest,
                       branch_args name tool_inputs = Ok args
                       /\ call_tool env t args tr1 = (Ok result, tr2)
                       /\ ev ++ tr0
                          = ELlm ("Based on this data:" +:+ nl +:+ result +:+ nl
                                    +:+ rest) [] :: tr2)).
    { destruct Hout as [Hout | [Hlen Hsyn]]; [left; exact Hout | right].
      split; [exact Hlen |]. split; [exact Hsyn |].
      destruct Hsyn as (args & r1 & body1 & result & body2 & coaching
                        & Hargs & _ & _ & _ & Hc2 & _ & Hrun).
      rewrite Heq in Hrun. injection Hrun as _ Hev.
      exists args. eexists _, result, _, _.
      split; [exact Hargs |]. split; [exact Hc2 |]. exact Hev. }
    clear Hout. rename Hout' into Hout.
    cut ((if accepts t (length clean)
          then exists later, calls ev = later ++ [first]
          else ev = []
               /\ reply = tool_error_reply (TypeError_arity name (length clean)))
         /\ (forall r1 tr1 args,
               call_tool env t clean tr0 = (Ok r1, tr1) ->
               branch_args name tool_inputs = Ok args ->
               if accepts t (length args)
               then calls ev = [ECall name args; first]
               else calls ev = [first]
                    /\ reply
                       = tool_error_reply (TypeError_arity name (length args)))).
    { intros [H2 H3]. auto. }
    destruct (dispatch_run _ _ _ _ _ Hdec Htool)
      as [[Hfit Hrun] | (r1 & body1 & Hfit & Hc1 & Hb1 & Hrun)];
      fold tr0 clean first in Hfit, Hrun; rewrite Hfit.
    { rewrite Heq in Hrun. injection Hrun as -> Hev.
      apply (app_inv_tail tr0 ev []) in Hev. subst ev.
      split; [split; reflexivity |].
      intros r1 tr1 args Hcall _.
      rewrite (call_tool_rejects _ _ _ Hfit) in Hcall. discriminate Hcall. }
    fold tr0 clean first in Hc1, Hb1.
    assert (Hone : forall x,
               process_query env user_query tr
               = (Ok x, body1 ++ first :: tr0) ->
               reply = x /\ calls ev = [first]).
    { intros x Hx. rewrite Heq in Hx. injection Hx as -> Hev.
      split; [reflexivity |].
      change (body1 ++ first :: tr0) with (body1 ++ [first] ++ tr0) in Hev.
      rewrite app_assoc in Hev. apply app_inv_tail in Hev. subst ev.
      unfold first. now rewrite (calls_entry _ _ _ _ _ Hb1). }
    destruct r1 as [r1 | e1].
    2: { destruct (Hone _ Hrun) as [_ Hc]. split; [exists []; exact Hc |].
         intros r1 tr1 args Hcall _. rewrite Hc1 in Hcall. discriminate Hcall. }
    destruct (branch_args name tool_inputs) as [args | e2] eqn:Hargs.
    2: { destruct (Hone _ Hrun) as [_ Hc]. split; [exists []; exact Hc |].
         intros r1' tr1 args _ Habs. discriminate Habs. }
    destruct (accepts t (length args)) eqn:Hfit2.
    2: { destruct (Hone _ Hrun) as [-> Hc]. split; [exists []; exact Hc |].
         intros r1' tr1 args' _ [= <-]. rewrite Hfit2. split; [exact Hc | reflexivity]. }
    destruct Hrun as (r2 & body2 & Hc2 & Hb2 & Hrun). cbv zeta in Hc2, Hrun.
    assert (Htwo : calls (body2 ++ ECall name args :: body1 ++ [first])
                   = [ECall name args; first]).
    { rewrite (calls_entry _ _ _ _ _ Hb2). unfold first.
      now rewrite (calls_entry _ _ _ _ _ Hb1). }
    assert (Hsplit : body2 ++ ECall name args :: body1 ++ first :: tr0
                     = (body2 ++ ECall name args :: body1 ++ [first]) ++ tr0).
    { rewrite <- app_assoc. simpl. rewrite <- app_assoc. reflexivity. }
    assert (Hboth : calls ev = [ECall name args; first]).
    { destruct r2 as [result | e3];
        [destruct (coaching_instruction env name) as [coaching | e4] |];
        rewrite Heq in Hrun; injection Hrun as _ Hev; rewrite Hsplit in Hev.
      - change (ev ++ tr0
                = (ELlm (format_prompt result user_query coaching) []
                     :: body2 ++ ECall name args :: body1 ++ [first]) ++ tr0)
          in Hev.
        apply app_inv_tail in Hev. subst ev. exact Htwo.
      - apply app_inv_tail in Hev. subst ev. exact Htwo.
      - apply app_inv_tail in Hev. subst ev. exact Htwo. }
    split; [exists [ECall name args]; exact Hboth |].
    intros r1' tr1 args' _ [= <-]. rewrite Hfit2. exact Hboth.
  - intros date_str exercise weight reps sets w r s -> Hin Hne Hdate Hw Hwpos
      Hr Hrpos Hs Hspos typed row Hins.
    pose proof (registered_log_gym_set t Htool) as ->.
    pose proof (clean_inputs_nonempty _ Hne) as Hclean.
    assert (Hfirst : call_tool env LogGymSet (map VStr tool_inputs) tr0
                     = (Ok internal_error_message, first :: tr0)).
    { destruct (call_log_gym_set_strings tool_inputs tr0)
        as [[Hlen _] | (_ & msg & Heq & Hmsg)].
      - subst tool_inputs. simpl in Hlen. lia.
      - rewrite Heq, (Hmsg Hne). unfold first, clean. rewrite Hclean. reflexivity. }
    split; [exact Hfirst |].
    rewrite (process_query_dispatch _ _ _ _ _ Hdec Htool).
    fold tr0. rewrite Hclean, Hfirst.
    assert (Hargs : branch_args "log_gym_set" tool_inputs = Ok typed).
    { subst tool_inputs. unfold branch_args, typed_inputs, list_item, py_float, py_int.
      simpl. rewrite Hw, Hr, Hs. reflexivity. }
    rewrite Hargs. subst typed. unfold call_tool at 1.
    cbv beta iota zeta delta [tool_name].
    rewrite (log_gym_set_accepts date_str exercise w r s
               (ECall "log_gym_set"
                  [VStr date_str; VStr exercise; VFloat w; VInt r; VInt s]
                  :: first :: tr0) Hdate);
      try assumption.
    + eexists _, _. reflexivity.
    + subst tool_inputs.
      exact (Forall_inv (Forall_inv_tail Hne)).
Qed.

End ToolLemmas.

(** ** The readiness window *)

Section Window.
Context {rt : PyRuntime}.
Variable env : Env.

(** C4 (amended). A missing or unparseable end date is replaced by today
    and a missing or unparseable start date by three days before the end,
    silently: the window is computed without an exception and without a
    request, and the tool returns a string, as long as that default start is
    a date (three days before the end is not before 0001-01-01). The dates
    are not compared: a supplied start is kept whatever the end is, also
    when it is after the end. *)
Theorem readiness_window_defaults (start_date end_date : pyval) (tr : trace) :
  let end_ := default (today env) (supplied end_date) in
  (supplied start_date = None -> date_min + 3 <= end_) ->
  readiness_window env start_date end_date tr
  = (Ok (default (end_ - 3) (supplied start_date), end_), tr)
  /\ exists reply,
       fst (get_readiness_report env start_date end_date tr) = Ok reply.
Proof.
  intros end_ Hrange.
  assert (Hwin : readiness_window env start_date end_date tr
                 = (Ok (default (end_ - 3) (supplied start_date), end_), tr)).
  { unfold readiness_window. mred.
    assert (Hend : (let (r, tr') :=
                      (if truthy end_date then lift (fromisoformat end_date)
                       else ret (today env)) tr in
                    match r with
                    | Ok a => (Ok a, tr')
                    | Raise _ => (Ok (today env), tr')
                    end) = (Ok end_, tr)).
    { unfold end_, supplied, lift, ret.
      destruct (truthy end_date); [| reflexivity].
      destruct (fromisoformat end_date); reflexivity. }
    unfold lift, ret in Hend |- *. rewrite Hend.
    unfold supplied in *.
    destruct (truthy start_date).
    - destruct (fromisoformat start_date) as [d | e]; [reflexivity |].
      unfold date_sub_days.
      destruct (Z.leb_spec date_min (end_ - 3)); [reflexivity |].
      specialize (Hrange eq_refl). lia.
    - unfold date_sub_days.
      destruct (Z.leb_spec date_min (end_ - 3)); [reflexivity |].
      specialize (Hrange eq_refl). lia. }
  split; [exact Hwin |].
  unfold get_readiness_report.
  destruct (negb (supabase_available env)); [eexists; reflexivity |].
  unfold bind at 1. rewrite Hwin.
  apply returns_try. intros e. apply returns_ret.
Qed.

End Window.

(** ** The heaviest lift per exercise *)

Lemma Qgtb_true (a b : Q) : Qgtb a b = true -> (b < a)%Q.
Proof.
  unfold Qgtb. destruct (Qcompare a b) eqn:H; try discriminate.
  intros _. apply Qgt_alt. exact H.
Qed.

Lemma Qgtb_false (a b : Q) : Qgtb a b = false -> (a <= b)%Q.
Proof.
  unfold Qgtb. intros H. apply Qle_alt. intros Hgt. now rewrite Hgt in H.
Qed.

Lemma py_gt_numbers (a b : pyval) (qa qb : Q) :
  num_value a = Some qa -> num_value b = Some qb ->
  py_gt a b = Ok (Qgtb qa qb).
Proof.
  destruct a as [| |m|[| |p]]; try discriminate;
    destruct b as [| |n|[| |q]]; try discriminate;
    simpl; intros [= <-] [= <-]; try reflexivity.
  unfold Qgtb, Qcompare, Z.gtb. simpl. now rewrite !Z.mul_1_r.
Qed.

Section MaxLifts.
Context {rt : PyRuntime}.

Lemma exercises_get_set_same (name : string) (v : lift_entry) (d : exercises_dict) :
  exercises_get (VStr name) (exercises_set (VStr name) v d) = Some v.
Proof.
  induction d as [|[k w] d IH]; simpl.
  - now rewrite String.eqb_refl.
  - destruct (py_eq k (VStr name)) eqn:Hk; simpl; rewrite Hk; [reflexivity | exact IH].
Qed.

Lemma py_eq_str (k : pyval) (name : string) :
  py_eq k (VStr name) = true -> k = VStr name.
Proof.
  destruct k; simpl; try discriminate.
  intros H. apply String.eqb_eq in H. now subst.
Qed.

Lemma exercises_get_set_other (name other : string) (v : lift_entry)
    (d : exercises_dict) :
  name <> other ->
  exercises_get (VStr other) (exercises_set (VStr name) v d)
  = exercises_get (VStr other) d.
Proof.
  intros Hne. induction d as [|[k w] d IH]; simpl.
  - apply String.eqb_neq in Hne. now rewrite Hne.
  - destruct (py_eq k (VStr name)) eqn:Hk; simpl.
    + apply py_eq_str in Hk. subst k. simpl.
      apply String.eqb_neq in Hne. now rewrite Hne.
    + destruct (py_eq k (VStr other)); [reflexivity | exact IH].
Qed.

Lemma keeps_heaviest_nil : keeps_heaviest [] [].
Proof. intros name. simpl. intros record H. inversion H. Qed.

Lemma first_heaviest_snoc_other (seen : list dict) (x : dict) (name : string)
    (i : nat) (record : dict) :
  ~ named x name ->
  first_heaviest seen name i record ->
  first_heaviest (seen ++ [x]) name i record.
Proof.
  intros Hx (Hi & Hn & Hall). split; [| split; [exact Hn |]].
  - now apply lookup_app_l_Some.
  - intros j other Hj Hother.
    apply lookup_app_Some in Hj as [Hj | [_ Hj]]; [now apply Hall |].
    apply list_lookup_singleton_Some in Hj as [_ <-]. contradiction.
Qed.

Lemma first_heaviest_snoc_lighter (seen : list dict) (x : dict) (name : string)
    (i : nat) (record : dict) :
  (weight_of x <= weight_of record)%Q ->
  first_heaviest seen name i record ->
  first_heaviest (seen ++ [x]) name i record.
Proof.
  intros Hx (Hi & Hn & Hall). split; [| split; [exact Hn |]].
  - now apply lookup_app_l_Some.
  - intros j other Hj Hother.
    apply lookup_app_Some in Hj as [Hj | [Hlen Hj]]; [now apply Hall |].
    apply list_lookup_singleton_Some in Hj as [Hj <-].
    split; [exact Hx |]. intros Hlt.
    apply lookup_lt_Some in Hi. lia.
Qed.

Lemma first_heaviest_snoc_new (seen : list dict) (x : dict) (name : string) :
  named x name ->
  (forall j other, seen !! j = Some other -> named other name ->
                   (weight_of other < weight_of x)%Q) ->
  first_heaviest (seen ++ [x]) name (length seen) x.
Proof.
  intros Hx Hall. split; [| split; [exact Hx |]].
  - rewrite lookup_app_r by lia. now rewrite Nat.sub_diag.
  - intros j other Hj Hother.
    apply lookup_app_Some in Hj as [Hj | [Hlen Hj]].
    + specialize (Hall j other Hj Hother). split; [now apply Qlt_le_weak | auto].
    + apply list_lookup_singleton_Some in Hj as [Hj <-].
      split; [apply Qle_refl | lia].
Qed.

Lemma conforms_weight (record : dict) :
  conforms record ->
  num_value (dict_get record "weight_kg" (VInt 0)) = Some (weight_of record).
Proof.
  intros (_ & _ & [q Hq]). unfold weight_of. now rewrite Hq.
Qed.

Lemma named_inj (record : dict) (a b : string) :
  named record a -> named record b -> a = b.
Proof. unfold named. congruence. Qed.

(** One pass of the loop keeps the invariant. *)
Lemma max_lift_step_keeps (seen : list dict) (exercises : exercises_dict)
    (x : dict) (tr : trace) :
  Forall conforms seen -> conforms x -> keeps_heaviest seen exercises ->
  exists exercises',
    max_lift_step exercises x tr = (Ok exercises', tr)
    /\ keeps_heaviest (seen ++ [x]) exercises'.
Proof.
  intros Hseen Hx Hinv.
  pose proof (conforms_weight x Hx) as Hwx.
  destruct Hx as ((n & Hn) & (d & Hd) & _).
  assert (Hentry : {| e_weight := dict_get x "weight_kg" (VInt 0);
                      e_reps := dict_get x "repetitions" (VInt 0);
                      e_date := d |} = entry_of x).
  { unfold entry_of, dict_get at 5. now rewrite Hd. }
  (* the invariant after storing [x] under its name *)
  assert (Hstore :
            (forall j other, seen !! j = Some other -> named other n ->
                             (weight_of other < weight_of x)%Q) ->
            keeps_heaviest (seen ++ [x])
              (exercises_set (VStr n) (entry_of x) exercises)).
  { intros Hall name. destruct (String.eqb_spec n name) as [<- | Hne].
    - rewrite exercises_get_set_same. exists (length seen), x.
      split; [now apply first_heaviest_snoc_new | reflexivity].
    - rewrite (exercises_get_set_other n name _ _ Hne).
      specialize (Hinv name).
      destruct (exercises_get (VStr name) exercises) as [entry |].
      + destruct Hinv as (i & record & Hfh & ->). exists i, record.
        split; [| reflexivity].
        apply first_heaviest_snoc_other; [| exact Hfh].
        intros Hxn. apply Hne. exact (named_inj x n name Hn Hxn).
      + intros record Hin. apply elem_of_app in Hin as [Hin | Hin].
        * now apply Hinv.
        * apply list_elem_of_singleton in Hin as ->.
          intros Hxn. apply Hne. exact (named_inj x n name Hn Hxn). }
  (* the invariant after leaving the dictionary as it is *)
  assert (Hkeep :
            forall i record,
              first_heaviest seen n i record ->
              exercises_get (VStr n) exercises = Some (entry_of record) ->
              (weight_of x <= weight_of record)%Q ->
              keeps_heaviest (seen ++ [x]) exercises).
  { intros i record Hfh Hget Hle name.
    destruct (String.eqb_spec n name) as [<- | Hne].
    - rewrite Hget. exists i, record.
      split; [now apply first_heaviest_snoc_lighter | reflexivity].
    - specialize (Hinv name).
      destruct (exercises_get (VStr name) exercises) as [entry |].
      + destruct Hinv as (i' & record' & Hfh' & ->). exists i', record'.
        split; [| reflexivity].
        apply first_heaviest_snoc_other; [| exact Hfh'].
        intros Hxn. apply Hne. exact (named_inj x n name Hn Hxn).
      + intros record' Hin. apply elem_of_app in Hin as [Hin | Hin].
        * now apply Hinv.
        * apply list_elem_of_singleton in Hin as ->.
          intros Hxn. apply Hne. exact (named_inj x n name Hn Hxn). }
  unfold max_lift_step. mred. unfold dict_item. rewrite Hn, Hd.
  pose proof (Hinv n) as Hn_inv.
  destruct (exercises_get (VStr n) exercises) as [best |] eqn:Hget.
  - destruct Hn_inv as (i & record & Hfh & ->).
    assert (Hrec : conforms record).
    { destruct Hfh as (Hi & _).
      rewrite Forall_forall in Hseen. apply Hseen.
      eapply list_elem_of_lookup_2. exact Hi. }
    simpl e_weight.
    rewrite (py_gt_numbers _ _ _ _ Hwx (conforms_weight record Hrec)).
    destruct (Qgtb (weight_of x) (weight_of record)) eqn:Hcmp.
    + rewrite Hentry. eexists. split; [reflexivity |].
      apply Hstore. intros j other Hj Hother.
      destruct Hfh as (_ & _ & Hall).
      destruct (Hall j other Hj Hother) as [Hle _].
      eapply Qle_lt_trans; [exact Hle | now apply Qgtb_true].
    + eexists. split; [reflexivity |].
      apply (Hkeep i record Hfh eq_refl). now apply Qgtb_false.
  - rewrite Hentry. eexists. split; [reflexivity |].
    apply Hstore. intros j other Hj Hother. exfalso.
    apply (Hn_inv other); [| exact Hother].
    eapply list_elem_of_lookup_2. exact Hj.
Qed.

Lemma foldM_max_lift_step_keeps (rest seen : list dict)
    (exercises : exercises_dict) (tr : trace) :
  Forall conforms seen -> Forall conforms rest ->
  keeps_heaviest seen exercises ->
  exists exercises',
    foldM max_lift_step rest exercises tr = (Ok exercises', tr)
    /\ keeps_heaviest (seen ++ rest) exercises'.
Proof.
  revert seen exercises.
  induction rest as [|x rest IH]; intros seen exercises Hseen Hrest Hinv.
  - exists exercises. rewrite app_nil_r. split; [reflexivity | exact Hinv].
  - pose proof (Forall_inv Hrest) as Hx.
    pose proof (Forall_inv_tail Hrest) as Hrest'.
    destruct (max_lift_step_keeps seen exercises x tr Hseen Hx Hinv)
      as (ex1 & Hstep & Hinv1).
    destruct (IH (seen ++ [x]) ex1) as (ex2 & Hfold & Hinv2);
      [apply Forall_app; split; [exact Hseen | now constructor]
      | exact Hrest' | exact Hinv1 |].
    exists ex2. split.
    + simpl. unfold bind. rewrite Hstep. exact Hfold.
    + rewrite <- app_assoc in Hinv2. exact Hinv2.
Qed.

Lemma first_heaviest_unique (records : list dict) (name : string)
    (i j : nat) (a b : dict) :
  first_heaviest records name i a -> first_heaviest records name j b ->
  i = j /\ a = b.
Proof.
  intros (Hi & Ha & Halla) (Hj & Hb & Hallb).
  assert (Hij : i = j).
  { destruct (Nat.lt_trichotomy i j) as [Hlt | [Heq | Hgt]]; [| exact Heq |].
    - exfalso. destruct (Hallb i a Hi Ha) as [_ Hs].
      destruct (Halla j b Hj Hb) as [Hle _].
      apply (Qlt_irrefl (weight_of a)).
      eapply Qlt_le_trans; [exact (Hs Hlt) | exact Hle].
    - exfalso. destruct (Halla j b Hj Hb) as [_ Hs].
      destruct (Hallb i a Hi Ha) as [Hle _].
      apply (Qlt_irrefl (weight_of b)).
      eapply Qlt_le_trans; [exact (Hs Hgt) | exact Hle]. }
  subst j. split; [reflexivity | congruence].
Qed.

(** C8. Over workout records that conform to the data model, taken in the
    order of the query (newest first), the aggregation raises nothing and
    sends no request, and the dictionary it builds holds, for every exercise
    name, what it keeps of the first heaviest record of that name: a record
    that no record of the name outweighs and that every earlier (more
    recent) record of the name is strictly lighter than. So an older heavier
    record replaces a newer lighter one, and among equal weights the one
    seen first stays. A name without records has no entry. *)
Theorem max_lifts_keeps_first_heaviest (records : list dict) (tr : trace) :
  Forall conforms records ->
  exists exercises,
    max_lifts records tr = (Ok exercises, tr)
    /\ forall name,
         (forall i record,
            first_heaviest records name i record ->
            exercises_get (VStr name) exercises = Some (entry_of record))
         /\ ((exists record, record ∈ records /\ named record name) ->
             exists i record, first_heaviest records name i record)
         /\ ((forall record, record ∈ records -> ~ named record name) ->
             exercises_get (VStr name) exercises = None).
Proof.
  intros Hall.
  destruct (foldM_max_lift_step_keeps records [] [] tr
              (List.Forall_nil _) Hall keeps_heaviest_nil)
    as (exercises & Hrun & Hinv).
  simpl in Hinv. exists exercises. split; [exact Hrun |].
  intros name. specialize (Hinv name).
  destruct (exercises_get (VStr name) exercises) as [entry |].
  - destruct Hinv as (i & record & Hfh & ->).
    split; [| split].
    + intros j other Hother.
      destruct (first_heaviest_unique _ _ _ _ _ _ Hfh Hother) as [_ ->].
      reflexivity.
    + intros _. eauto.
    + intros Hnone. exfalso. destruct Hfh as (Hi & Hn & _).
      apply (Hnone record); [| exact Hn].
      eapply list_elem_of_lookup_2. exact Hi.
  - split; [| split].
    + intros i record (Hi & Hn & _). exfalso.
      apply (Hinv record); [| exact Hn].
      eapply list_elem_of_lookup_2. exact Hi.
    + intros (record & Hin & Hn). exfalso. now apply (Hinv record).
    + reflexivity.
Qed.

End MaxLifts.

(** ** Closed instances *)

Section Closed.
Import Examples.
#[local] Existing Instance Reference.runtime.

(** C1 at the default window of an empty store. *)
Lemma readiness_all_empty_witness :
  get_readiness_report nothing_stored VNone VNone []
  = (Ok (empty_report 739546 739549),
     [ESelect (workout_range_query 739546 739549);
      ESelect (activity_range_query 739546 739549);
      ESelect (sleep_range_query 739546 739549)])
  /\ empty_report 739546 739549 <> no_data_sentinel.
Proof.
  apply (readiness_all_empty_returns_template nothing_stored VNone VNone
           739546 739549 []); reflexivity.
Defined.

(** No result of the report tool is the sentinel: at the failing input the
    report is the three-section template. *)
Lemma readiness_report_of_empty_store :
  fst (get_readiness_report nothing_stored VNone VNone [])
  = Ok (join nl
          [ "--- HEALTH READINESS REPORT (2025-10-22 to 2025-10-25) ---";
            EmptyString;
            "SLEEP SUMMARY: No data available";
            EmptyString;
            "ACTIVITY SUMMARY: No data available";
            EmptyString;
            "RECENT WORKOUTS: No data available";
            EmptyString ]).
Proof. vm_compute. reflexivity. Qed.

(** The report over a store with records, line by line. *)
Lemma readiness_report_with_records :
  fst (get_readiness_report one_day VNone VNone [])
  = Ok (join nl
          [ "--- HEALTH READINESS REPORT (2025-10-22 to 2025-10-25) ---";
            EmptyString;
            "SLEEP SUMMARY:";
            " - 2025-10-24: Score 82, Duration 7h 30m, Efficiency 91%";
            EmptyString;
            "ACTIVITY SUMMARY:";
            " - 2025-10-24: Steps 12,345, Calories 450, Score 88";
            EmptyString;
            "RECENT WORKOUTS:";
            " - Bench Press: Max 100.5kg x 3 reps on 2025-10-23";
            EmptyString ]).
Proof. vm_compute. reflexivity. Qed.

(** C3, as stated, fails: a readiness query makes six store round trips,
    three in each of its two entries into the report tool. *)
Lemma readiness_query_six_round_trips :
  n_llm (snd (process_query nothing_stored "How ready am I?" [])) = 2%nat
  /\ n_store (snd (process_query nothing_stored "How ready am I?" [])) = 6%nat
  /\ length (calls (snd (process_query nothing_stored "How ready am I?" [])))
     = 2%nat.
Proof. vm_compute. auto. Qed.

(** C4 at an unparseable start date and no end date. *)
Lemma readiness_window_defaults_witness :
  readiness_window nothing_stored (VStr "next week") VNone []
  = (Ok (739546, 739549), [])
  /\ exists reply,
       fst (get_readiness_report nothing_stored (VStr "next week") VNone [])
       = Ok reply.
Proof.
  assert (Hrange : supplied (VStr "next week") = None ->
                   date_min + 3 <= default (today nothing_stored) (supplied VNone))
    by (intros _; vm_compute; discriminate).
  destruct (readiness_window_defaults nothing_stored (VStr "next week") VNone []
              Hrange) as [Hwin Hret].
  split; [| exact Hret].
  rewrite Hwin. vm_compute. reflexivity.
Defined.

(** C4, as stated, fails: a start date after the end date is kept, with
    the end date; the default window is not substituted. *)
Lemma inverted_window_is_kept :
  today nothing_stored = 739549
  /\ parse_isoformat "2025-10-20" = Some 739544
  /\ parse_isoformat "2025-10-10" = Some 739534
  /\ readiness_window nothing_stored (VStr "2025-10-20") (VStr "2025-10-10") []
     = (Ok (739544, 739534), [])
  /\ ~ 739544 <= 739534.
Proof. repeat split; try (vm_compute; reflexivity). lia. Qed.

(** The default start of a window that ends within the first three days of
    the calendar is not a date: the tool raises. *)
Lemma readiness_window_overflow :
  readiness_window nothing_stored (VStr "next week") (VStr "0001-01-02") []
  = (Raise OverflowError, []).
Proof. vm_compute. reflexivity. Qed.


Lemma squat_decision :
  decides_tool_call squat_logged "Log my squat" [] "log_gym_set"
    ["2025-10-25"; "Squat"; "100.0"; "5"; "3"].
Proof.
  split; [reflexivity |].
  exists "ACTION: TOOL_CALL | log_gym_set | 2025-10-25 | Squat | 100.0 | 5 | 3",
    " log_gym_set ".
  repeat split; vm_compute; reflexivity.
Defined.



(** The arguments of that call. *)
Lemma empty_start_positional :
  positional_args "get_readiness_report" [EmptyString; "2025-10-20"]
  = Some [VStr EmptyString; VStr "2025-10-20"].
Proof. reflexivity. Qed.

(** C5, as stated, fails: the failed synthesis request (the second of two
    requests) does not leave [process_query]; the reply is the error
    message of the tool-execution handler. *)
Lemma synthesis_failure_is_caught :
  process_query synthesis_down "Steps yesterday?" []
  = (Ok (tool_error_reply (ServiceError "connection refused")),
     [ELlm (format_prompt "No activity data found for 2025-10-24."
              "Steps yesterday?" EmptyString) [];
      ESelect (activity_day_query "2025-10-24");
      ECall "get_oura_activity_steps" [VStr "2025-10-24"];
      ESelect (activity_day_query "2025-10-24");
      ECall "get_oura_activity_steps" [VStr "2025-10-24"];
      decision_event synthesis_down "Steps yesterday?"])
  /\ llm_invoke synthesis_down
       [ESelect (activity_day_query "2025-10-24");
        ECall "get_oura_activity_steps" [VStr "2025-10-24"];
        ESelect (activity_day_query "2025-10-24");
        ECall "get_oura_activity_steps" [VStr "2025-10-24"];
        decision_event synthesis_down "Steps yesterday?"]
       (format_prompt "No activity data found for 2025-10-24."
          "Steps yesterday?" EmptyString) []
     = Raise (ServiceError "connection refused").
Proof. split; vm_compute; reflexivity. Qed.

(** C5 at that query. *)
Lemma synthesis_failure_witness :
  exists reply,
    fst (process_query synthesis_down "Steps yesterday?" []) = Ok reply
    /\ forall prompt ev e,
         snd (process_query synthesis_down "Steps yesterday?" [])
         = (ELlm prompt [] :: ev) ++ [] ->
         llm_invoke synthesis_down (ev ++ []) prompt [] = Raise e ->
         reply = tool_error_reply e.
Proof.
  exact (synthesis_failure_becomes_reply synthesis_down "Steps yesterday?" []).
Defined.

(** C6 at yesterday's date and an empty store. *)
Lemma sleep_score_no_records_witness :
  get_oura_sleep_score nothing_stored (VStr "2025-10-24") []
  = (Ok ("Error while fetching sleep data: "
           +:+ exn_str (NameError "summary_date")),
     [ESelect sleep_recent_query]).
Proof.
  apply (sleep_score_no_records_is_error nothing_stored (VStr "2025-10-24")
           739548 []); reflexivity.
Defined.

Lemma sleep_score_no_records_text :
  fst (get_oura_sleep_score nothing_stored (VStr "2025-10-24") [])
  = Ok "Error while fetching sleep data: name 'summary_date' is not defined".
Proof. vm_compute. reflexivity. Qed.


(** The insert and the confirmation of that set, spelled out. *)
Lemma squat_insert_and_confirmation :
  log_gym_set squat_logged (VStr "2025-10-25") (VStr "Squat")
    (VFloat (FFin 100)) (VInt 5) (VInt 3) []
  = (Ok "Successfully logged Set 3 of Squat (100.0kg x 5 reps) for 2025-10-25.",
     [EInsert "manual_workouts"
        (<["workout_date" := VStr "2025-10-25"]>
           (<["exercise_name" := VStr "Squat"]>
              (<["weight_kg" := VFloat (FFin 100)]>
                 (<["repetitions" := VInt 5]>
                    (<["sets" := VInt 3]> ∅)))))]).
Proof. vm_compute. reflexivity. Qed.

Lemma squat_confirmation_text :
  confirmation (VStr "2025-10-25") (VStr "Squat") (VFloat (FFin 100)) (VInt 5)
    (VInt 3)
  = "Successfully logged Set 3 of Squat (100.0kg x 5 reps) for 2025-10-25.".
Proof. vm_compute. reflexivity. Qed.

(** C8 at a newer lighter and an older heavier bench press. *)
Lemma max_lifts_witness :
  exists exercises,
    max_lifts [bench_newer_lighter; bench_older_heavier] [] = (Ok exercises, [])
    /\ forall name,
         (forall i record,
            first_heaviest [bench_newer_lighter; bench_older_heavier] name i record ->
            exercises_get (VStr name) exercises = Some (entry_of record))
         /\ ((exists record,
                record ∈ [bench_newer_lighter; bench_older_heavier]
                /\ named record name) ->
             exists i record,
               first_heaviest [bench_newer_lighter; bench_older_heavier] name i record)
         /\ ((forall record,
                record ∈ [bench_newer_lighter; bench_older_heavier] ->
                ~ named record name) ->
             exercises_get (VStr name) exercises = None).
Proof.
  apply (max_lifts_keeps_first_heaviest
           [bench_newer_lighter; bench_older_heavier] []).
  repeat constructor;
    try (exists "Bench Press"; vm_compute; reflexivity);
    eexists; vm_compute; reflexivity.
Defined.

Lemma older_heavier_record_wins :
  max_lifts [bench_newer_lighter; bench_older_heavier] []
  = (Ok [(VStr "Bench Press", entry_of bench_older_heavier)], []).
Proof. vm_compute. reflexivity. Qed.

Lemma equal_weights_first_seen_stays :
  max_lifts [bench_older_heavier; bench_heavier_again] []
  = (Ok [(VStr "Bench Press", entry_of bench_older_heavier)], []).
Proof. vm_compute. reflexivity. Qed.

Lemma readiness_decision_without_profile :
  decides_tool_call profile_missing "How ready am I?" []
    "get_readiness_report" [].
Proof.
  split; [reflexivity |].
  exists "ACTION: TOOL_CALL | get_readiness_report", " get_readiness_report".
  repeat split; vm_compute; reflexivity.
Defined.

(** C9 at a missing profile document. *)
Lemma missing_profile_witness :
  USER_PROFILE profile_missing = ∅
  /\ coaching_instruction profile_missing "get_readiness_report"
     = Raise (KeyError "age")
  /\ exists e ev,
       process_query profile_missing "How ready am I?" []
       = (Ok (tool_error_reply e),
          ev ++ [decision_event profile_missing "How ready am I?"])
       /\ n_llm ev = 0%nat.
Proof.
  apply (missing_profile_breaks_readiness profile_missing FileMissing
           "How ready am I?" [] []).
  - left. reflexivity.
  - reflexivity.
  - reflexivity.
  - exact readiness_decision_without_profile.
Defined.

Lemma missing_profile_reply :
  fst (process_query profile_missing "How ready am I?" [])
  = Ok (tool_error_reply (KeyError "age")).
Proof. vm_compute. reflexivity. Qed.

(** With a profile document that is a JSON object, every field has a
    value: the one of the document or the documented default. *)
Lemma profile_fields_present (fields : dict) :
  load_user_profile (FileJsonObject fields) !! "age"
  = Some (default (VInt 35) (fields !! "age"))
  /\ load_user_profile (FileJsonObject fields) !! "weight"
     = Some (default (VInt 59) (fields !! "weight"))
  /\ load_user_profile (FileJsonObject fields) !! "height"
     = Some (default (VInt 162) (fields !! "height"))
  /\ load_user_profile (FileJsonObject fields) !! "gender"
     = Some (default (VStr "FEMALE") (fields !! "gender")).
Proof.
  unfold load_user_profile, dict_get.
  repeat split; simplify_map_eq; reflexivity.
Qed.

(** C10, as stated, fails: a decision that names a registered tool and
    gives no date does not enter the tool at all. *)
Lemma sleep_score_without_date_never_entered :
  tools_dict_get sleep_without_date "get_oura_sleep_score"
  = Some GetOuraSleepScore
  /\ decides_tool_call sleep_without_date "How did I sleep?" []
       "get_oura_sleep_score" []
  /\ process_query sleep_without_date "How did I sleep?" []
     = (Ok (tool_error_reply (TypeError_arity "get_oura_sleep_score" 0)),
        [decision_event sleep_without_date "How did I sleep?"])
  /\ calls (snd (process_query sleep_without_date "How did I sleep?" [])) = [].
Proof.
  split; [reflexivity |]. split; [| split; vm_compute; reflexivity].
  split; [reflexivity |].
  exists "ACTION: TOOL_CALL | get_oura_sleep_score", " get_oura_sleep_score".
  repeat split; vm_compute; reflexivity.
Qed.

(** C10 at a valid [log_gym_set] decision. *)
Lemma dispatch_enters_tool_twice_witness :
  call_tool squat_logged LogGymSet
    (map VStr ["2025-10-25"; "Squat"; "100.0"; "5"; "3"])
    [decision_event squat_logged "Log my squat"]
  = (Ok "An internal error occurred while trying to log the workout.",
     [ECall "log_gym_set" squat_strings;
      decision_event squat_logged "Log my squat"])
  /\ exists reply rest,
       process_query squat_logged "Log my squat" []
       = (Ok reply,
          [ELlm ("Based on this data:" +:+ nl
                   +:+ ("Successfully logged Set " +:+ pretty 3 +:+ " of "
                          +:+ "Squat" +:+ " (" +:+ float_repr (FFin 100)
                          +:+ "kg x " +:+ pretty 5 +:+ " reps) for "
                          +:+ "2025-10-25" +:+ ".")
                   +:+ nl +:+ rest) [];
           EInsert "manual_workouts"
             (<["workout_date" := VStr "2025-10-25"]>
                (<["exercise_name" := VStr "Squat"]>
                   (<["weight_kg" := VFloat (FFin 100)]>
                      (<["repetitions" := VInt 5]>
                         (<["sets" := VInt 3]> ∅)))));
           ECall "log_gym_set" squat_typed;
           ECall "log_gym_set" squat_strings]
            ++ [decision_event squat_logged "Log my squat"]).
Proof.
  apply (proj2 (dispatch_enters_tool_twice squat_logged "Log my squat" []
                  "log_gym_set" ["2025-10-25"; "Squat"; "100.0"; "5"; "3"]
                  LogGymSet squat_decision eq_refl)
           "2025-10-25" "Squat" "100.0" "5" "3" (FFin 100) 5 3);
    try reflexivity; try (vm_compute; discriminate).
  repeat constructor; discriminate.
Defined.

(** The two entries and the one insert of that request. *)
Lemma squat_request_entries :
  calls (snd (process_query squat_logged "Log my squat" []))
  = [ECall "log_gym_set" squat_typed; ECall "log_gym_set" squat_strings]
  /\ n_insert (snd (process_query squat_logged "Log my squat" [])) = 1%nat.
Proof. split; vm_compute; reflexivity. Qed.

(** A second entry that raises after the tool was entered: the default
    start of an end date of 0001-01-02 is out of range, in the handler as
    well; the reply is the error message, after two entries. *)
Lemma second_entry_raises_after_entering :
  fst (process_query Scenarios.overflow_second_entry "How ready am I?" [])
  = Ok (tool_error_reply OverflowError)
  /\ calls (snd (process_query Scenarios.overflow_second_entry
                   "How ready am I?" []))
     = [ECall "get_readiness_report" [VStr EmptyString; VStr "0001-01-02"];
        ECall "get_readiness_report" [VStr "0001-01-02"]]
  /\ n_llm (snd (process_query Scenarios.overflow_second_entry
                   "How ready am I?" [])) = 1%nat.
Proof. repeat split; vm_compute; reflexivity. Qed.

(** What [trips_per_entry] refuses: two inserts inside one entry into
    [log_gym_set], and a store request that no entry precedes. *)
Lemma two_inserts_in_one_entry_refused :
  ~ trips_per_entry [EInsert "manual_workouts" ∅; EInsert "manual_workouts" ∅;
                     ECall "log_gym_set" []].
Proof. intros [left H]. discriminate H. Qed.

Lemma request_before_entry_refused :
  ~ trips_per_entry [ECall "log_gym_set" []; ESelect sleep_recent_query].
Proof. intros [left H]. discriminate H. Qed.

End Closed.

(** * Further properties of the code *)

(** ** Text: trimming, replacing, splitting *)

Lemma rev_app_app (a b c : string) :
  String.rev_app (String.rev_app a b) c = String.rev_app b (a +:+ c).
Proof.
  revert b c. induction a as [|x a IH]; intros b c; [reflexivity |].
  simpl. rewrite IH. reflexivity.
Qed.

Lemma rev_involutive (s : string) : String.rev (String.rev s) = s.
Proof.
  unfold String.rev. rewrite rev_app_app. simpl. apply append_empty_r.
Qed.

Lemma rev_app_spec (a b : string) : String.rev_app a b = String.rev a +:+ b.
Proof.
  unfold String.rev. revert b. induction a as [|x a IH]; intros b; [reflexivity |].
  simpl. rewrite (IH (String x b)), (IH (String x EmptyString)).
  rewrite append_assoc. reflexivity.
Qed.

Lemma rev_append (a b : string) :
  String.rev (a +:+ b) = String.rev b +:+ String.rev a.
Proof.
  induction a as [|x a IH].
  - simpl. now rewrite append_empty_r.
  - rewrite append_cons. unfold String.rev at 1 3. simpl.
    rewrite !rev_app_spec, IH, append_assoc. reflexivity.
Qed.

Section StripHead.
Variable two : ascii -> ascii -> option N.
Variable three : ascii -> ascii -> ascii -> option N.

Lemma strip_head_fixed (s : string) :
  space_head two three s = false -> strip_head two three s = s.
Proof.
  destruct s as [|a [|b [|c s3]]]; cbn [space_head strip_head]; intros H;
    repeat match type of H with
      | (_ || _) = false => apply orb_false_elim in H as [? H]
      end;
    repeat match goal with
      | Hx : ?x = false |- context [if ?x then _ else _] => rewrite Hx
      end; reflexivity.
Qed.

Lemma strip_head_spec (n : nat) :
  forall s, (String.length s <= n)%nat ->
    space_head two three (strip_head two three s) = false
    /\ exists w, s = w +:+ strip_head two three s.
Proof.
  induction n as [|n IH]; intros s Hn.
  { destruct s; [| simpl in Hn; lia]. split; [reflexivity | now exists EmptyString]. }
  destruct s as [|a s1]; [split; [reflexivity | now exists EmptyString] |].
  cbn [String.length] in Hn.
  cbn [strip_head].
  destruct (space_code (decode1 a)) eqn:H1.
  { destruct (IH s1 ltac:(lia)) as [Hh [w Hw]]. split; [exact Hh |].
    exists (String a w). rewrite append_cons. now f_equal. }
  destruct s1 as [|b s2].
  { split; [cbn [space_head]; now rewrite H1 | now exists EmptyString]. }
  cbn [String.length] in Hn.
  destruct (space_code (two a b)) eqn:H2.
  { destruct (IH s2 ltac:(lia)) as [Hh [w Hw]]. split; [exact Hh |].
    exists (String a (String b w)). rewrite !append_cons. now do 2 f_equal. }
  destruct s2 as [|c s3].
  { split; [cbn [space_head]; now rewrite H1, H2 | now exists EmptyString]. }
  cbn [String.length] in Hn.
  destruct (space_code (three a b c)) eqn:H3.
  { destruct (IH s3 ltac:(lia)) as [Hh [w Hw]]. split; [exact Hh |].
    exists (String a (String b (String c w))). rewrite !append_cons.
    now do 3 f_equal. }
  split; [cbn [space_head]; now rewrite H1, H2, H3 | now exists EmptyString].
Qed.

Lemma strip_head_no_space (s : string) :
  space_head two three (strip_head two three s) = false.
Proof. now apply (strip_head_spec (String.length s)). Qed.

Lemma strip_head_suffix (s : string) :
  exists w, s = w +:+ strip_head two three s.
Proof. now apply (strip_head_spec (String.length s)). Qed.

Lemma strip_head_idempotent (s : string) :
  strip_head two three (strip_head two three s) = strip_head two three s.
Proof. apply strip_head_fixed, strip_head_no_space. Qed.

Lemma space_head_prefix (p t : string) :
  space_head two three (p +:+ t) = false -> space_head two three p = false.
Proof.
  destruct p as [|a [|b [|c p3]]]; [reflexivity | | |];
    rewrite ?append_cons; cbn [space_head]; intros H;
    repeat match type of H with
      | (_ || _) = false => apply orb_false_elim in H as [? H]
      end;
    repeat match goal with
      | Hx : ?x = false |- context [?x] => rewrite Hx
      end; reflexivity.
Qed.

End StripHead.

(** What [rstrip] leaves is a prefix of the text. *)
Lemma rstrip_prefix (s : string) : exists w, s = rstrip s +:+ w.
Proof.
  unfold rstrip.
  destruct (strip_head_suffix (fun a b => decode2 b a) (fun a b c => decode3 c b a)
              (String.rev s)) as [w Hw].
  exists (String.rev w).
  rewrite <- rev_append, <- Hw. symmetry. apply rev_involutive.
Qed.

Lemma rstrip_idempotent (s : string) : rstrip (rstrip s) = rstrip s.
Proof.
  unfold rstrip. rewrite rev_involutive, strip_head_idempotent. reflexivity.
Qed.

(** Trimming a trimmed text changes nothing. *)
Lemma strip_idempotent (s : string) : strip (strip s) = strip s.
Proof.
  unfold strip.
  assert (H : lstrip (rstrip (lstrip s)) = rstrip (lstrip s)).
  { apply strip_head_fixed.
    destruct (rstrip_prefix (lstrip s)) as [w Hw].
    apply space_head_prefix with (t := w). rewrite <- Hw.
    apply strip_head_no_space. }
  rewrite H. apply rstrip_idempotent.
Qed.

Lemma prefix_cons (c : ascii) (a s : string) :
  String.prefix (String c a) (String c s) = String.prefix a s.
Proof. simpl. destruct (ascii_dec c c); [reflexivity | contradiction]. Qed.

Lemma prefix_app (a t : string) : String.prefix a (a +:+ t) = true.
Proof.
  induction a as [|c a IH]; [destruct t; reflexivity |].
  rewrite append_cons, prefix_cons. exact IH.
Qed.

Lemma replace_go_skip (old new a t : string) :
  replace_go old new (String.length a) (a +:+ t) = replace_go old new O t.
Proof.
  induction a as [|c a IH]; [reflexivity |].
  rewrite append_cons. simpl. exact IH.
Qed.

(** Replacing a text that does not occur changes nothing. *)
Lemma replace_absent (old new s : string) :
  occurs old s = false -> replace old new s = s.
Proof.
  unfold replace. induction s as [|c s IH]; [reflexivity |].
  intros H. cbn [occurs] in H. apply orb_false_elim in H as [Hp Ho].
  cbn [replace_go]. rewrite Hp. f_equal. auto.
Qed.

(** An occurrence at the head is replaced, and the scan goes on behind it. *)
Lemma replace_at_head (old new t : string) :
  old <> EmptyString ->
  replace old new (old +:+ t) = new +:+ replace old new t.
Proof.
  intros Hold. destruct old as [|c old]; [contradiction |].
  unfold replace. rewrite append_cons. cbn [replace_go].
  rewrite <- append_cons, prefix_app. cbn [String.length].
  replace (S (String.length old) - 1)%nat with (String.length old) by lia.
  now rewrite replace_go_skip.
Qed.

(** A text without the separator splits into itself. *)
Lemma split_on_absent (sep : ascii) (s : string) :
  has_char sep s = false -> split_on sep s = [s].
Proof.
  induction s as [|c s IH]; [reflexivity |].
  simpl. intros H. apply orb_false_elim in H as [Hc Hs].
  rewrite Hc, (IH Hs). reflexivity.
Qed.

Lemma direct_not_tool_call (s : string) :
  String.prefix "ACTION: DIRECT_ANSWER" s = true ->
  String.prefix "ACTION: TOOL_CALL" s = false.
Proof.
  intros H.
  do 9 (destruct s as [|? s]; [cbn in H; discriminate H |];
        cbn [String.prefix] in H;
        match type of H with
        | context [ascii_dec ?a ?b] =>
            destruct (ascii_dec a b); [subst | discriminate H]
        end).
  reflexivity.
Qed.

(** ** The replies of [process_query] that involve no tool *)

Section Replies.
Context {rt : PyRuntime}.
Variable env : Env.

Lemma process_query_decision_fails (user_query : string) (e : exn) (tr : trace) :
  llm_ready env = true ->
  llm_invoke env tr
    (decision_prompt env (today env) (today env - 1) user_query) [nl]
  = Raise e ->
  process_query env user_query tr
  = (Ok ("Sorry, I encountered a critical error: " +:+ exn_str e),
     decision_event env user_query :: tr).
Proof.
  intros Hllm Hans. unfold process_query. rewrite Hllm.
  cbv beta iota zeta delta [negb].
  rewrite date_sub_days_today by lia. mred. rewrite Hans. reflexivity.
Qed.

Lemma process_query_no_tool_call (user_query answer : string) (tr : trace) :
  llm_ready env = true ->
  llm_invoke env tr
    (decision_prompt env (today env) (today env - 1) user_query) [nl]
  = Ok answer ->
  String.prefix "ACTION: TOOL_CALL" (strip answer) = false ->
  process_query env user_query tr
  = (Ok (if String.prefix "ACTION: DIRECT_ANSWER" (strip answer)
         then strip (replace "ACTION: DIRECT_ANSWER |" EmptyString (strip answer))
         else malformed_reply),
     decision_event env user_query :: tr).
Proof.
  intros Hllm Hans Hpre. unfold process_query. rewrite Hllm.
  cbv beta iota zeta delta [negb].
  rewrite date_sub_days_today by lia. mred. rewrite Hans, Hpre.
  destruct (String.prefix "ACTION: DIRECT_ANSWER" (strip answer)); reflexivity.
Qed.

(** X1. A decision line [ACTION: DIRECT_ANSWER |<text>] is answered with
    [<text>] trimmed, the marker removed, provided the marker does not occur
    again inside the text; the decision request is the only request made
    and no tool is entered. *)
Theorem direct_answer_reply (user_query answer text : string) (tr : trace) :
  llm_ready env = true ->
  llm_invoke env tr
    (decision_prompt env (today env) (today env - 1) user_query) [nl]
  = Ok answer ->
  strip answer = "ACTION: DIRECT_ANSWER |" +:+ text ->
  occurs "ACTION: DIRECT_ANSWER |" text = false ->
  process_query env user_query tr
  = (Ok (strip text), decision_event env user_query :: tr).
Proof.
  intros Hllm Hans Hline Habsent.
  rewrite (process_query_no_tool_call _ _ _ Hllm Hans) by (now rewrite Hline).
  rewrite Hline.
  change (String.prefix "ACTION: DIRECT_ANSWER" ("ACTION: DIRECT_ANSWER |" +:+ text))
    with true.
  cbv beta iota.
  rewrite replace_at_head by discriminate.
  rewrite (replace_absent _ _ _ Habsent). reflexivity.
Qed.

(** X2. A decision line that starts with [ACTION: DIRECT_ANSWER] but does
    not contain the exact marker [ACTION: DIRECT_ANSWER |] (a colon or no
    space before the bar, say) is returned to the user whole, its
    [ACTION: DIRECT_ANSWER] prefix included: only the exact marker is
    removed. *)
Theorem direct_answer_without_marker (user_query answer : string) (tr : trace) :
  llm_ready env = true ->
  llm_invoke env tr
    (decision_prompt env (today env) (today env - 1) user_query) [nl]
  = Ok answer ->
  String.prefix "ACTION: DIRECT_ANSWER" (strip answer) = true ->
  occurs "ACTION: DIRECT_ANSWER |" (strip answer) = false ->
  process_query env user_query tr
  = (Ok (strip answer), decision_event env user_query :: tr).
Proof.
  intros Hllm Hans Hpre Habsent.
  rewrite (process_query_no_tool_call _ _ _ Hllm Hans (direct_not_tool_call _ Hpre)).
  rewrite Hpre.
  rewrite (replace_absent _ _ _ Habsent), strip_idempotent. reflexivity.
Qed.

Lemma tools_dict_get_none (name : string) :
  supabase_available env = false \/ (forall t, tool_name t <> name) ->
  tools_dict_get env name = None.
Proof.
  intros H. destruct (tools_dict_get env name) as [t |] eqn:Ht; [| reflexivity].
  apply tools_dict_get_name in Ht as [Hn Hs].
  destruct H as [H | H]; [congruence | destruct (H t Hn)].
Qed.

(** X3. [process_query] goes beyond its decision request only for a
    TOOL_CALL decision that names a registered tool. Whatever the query and
    the history: either the model is not set and nothing is requested; or
    the decision request is the only event (no tool entered, no store
    request, no second completion request); or the decision is a tool call
    whose trimmed name is registered, which needs the store client. *)
Theorem beyond_decision_needs_registered_tool (user_query : string) (tr : trace) :
  (llm_ready env = false /\ snd (process_query env user_query tr) = tr)
  \/ (llm_ready env = true
      /\ snd (process_query env user_query tr) = decision_event env user_query :: tr)
  \/ (exists name tool_inputs t,
        decides_tool_call env user_query tr name tool_inputs
        /\ tools_dict_get env name = Some t
        /\ supabase_available env = true).
Proof.
  destruct (llm_ready env) eqn:Hllm.
  2: { left. split; [reflexivity |]. unfold process_query. now rewrite Hllm. }
  right.
  destruct (llm_invoke env tr
              (decision_prompt env (today env) (today env - 1) user_query) [nl])
    as [answer | e] eqn:Hans.
  2: { left. now rewrite (process_query_decision_fails _ _ _ Hllm Hans). }
  destruct (String.prefix "ACTION: TOOL_CALL" (strip answer)) eqn:Hpre.
  2: { left. now rewrite (process_query_no_tool_call _ _ _ Hllm Hans Hpre). }
  destruct (split_on "|" (strip answer) !! 1%nat) as [name_field |] eqn:Hname.
  - destruct (tools_dict_get env (strip name_field)) as [t |] eqn:Htool.
    + right. exists (strip name_field),
        (map strip (drop 2 (split_on "|" (strip answer)))), t.
      split; [| split; [exact Htool | eapply tools_dict_get_name; eassumption]].
      split; [exact Hllm |]. exists answer, name_field. auto.
    + left. split; [reflexivity |].
      rewrite (process_query_tool_call env user_query answer tr Hllm Hans Hpre).
      unfold execute_tool_call, list_item. mred. rewrite Hname, Htool. reflexivity.
  - left. split; [reflexivity |].
    rewrite (process_query_tool_call env user_query answer tr Hllm Hans Hpre).
    unfold execute_tool_call, list_item. mred. rewrite Hname. reflexivity.
Qed.

(** X4. A TOOL_CALL decision whose trimmed name is not registered is
    answered "Error: Tool '<name>' not found." after the decision request
    alone. That is the case for every name that is not, letter for letter,
    the name of one of the four tools, and for every name at all when the
    store client is missing, since the tools are registered only with it. *)
Theorem unregistered_tool_reply (user_query : string) (tr : trace)
    (name : string) (tool_inputs : list string) :
  decides_tool_call env user_query tr name tool_inputs ->
  supabase_available env = false \/ (forall t, tool_name t <> name) ->
  process_query env user_query tr
  = (Ok ("Error: Tool '" +:+ name +:+ "' not found."),
     decision_event env user_query :: tr).
Proof.
  intros (Hllm & answer & name_field & Hans & Hpre & Hname & -> & ->) Hnone.
  rewrite (process_query_tool_call env user_query answer tr Hllm Hans Hpre).
  unfold execute_tool_call, list_item. mred.
  rewrite Hname, (tools_dict_get_none _ Hnone). reflexivity.
Qed.

(** X5. A decision line that starts with [ACTION: TOOL_CALL] and contains
    no bar has no field 1: [parts[1]] raises IndexError, which the handler
    of the tool-execution block turns into its error reply; nothing but the
    decision request is sent. *)
Theorem tool_call_without_bar (user_query answer : string) (tr : trace) :
  llm_ready env = true ->
  llm_invoke env tr
    (decision_prompt env (today env) (today env - 1) user_query) [nl]
  = Ok answer ->
  String.prefix "ACTION: TOOL_CALL" (strip answer) = true ->
  has_char "|" (strip answer) = false ->
  process_query env user_query tr
  = (Ok (tool_error_reply IndexError), decision_event env user_query :: tr).
Proof.
  intros Hllm Hans Hpre Hbar.
  rewrite (process_query_tool_call env user_query answer tr Hllm Hans Hpre).
  unfold execute_tool_call, list_item. mred.
  rewrite (split_on_absent _ _ Hbar). reflexivity.
Qed.

(** *** The fields a synthesis needs *)

Lemma call_tool_ok_arity (t : tool) (args : list pyval) (r : string)
    (tr tr' : trace) :
  call_tool env t args tr = (Ok r, tr') ->
  match t with
  | GetOuraSleepScore | GetOuraActivitySteps => length args = 1%nat
  | LogGymSet => length args = 5%nat
  | GetReadinessReport => (length args <= 2)%nat
  end.
Proof.
  destruct t; destruct args as [|a1 [|a2 [|a3 [|a4 [|a5 [|a6 args]]]]]];
    cbn [call_tool length]; intros H; try discriminate H; lia.
Qed.

Lemma typed_inputs_length (tool_inputs : list string) (args : list pyval) :
  typed_inputs tool_inputs = Ok args -> (5 <= length tool_inputs)%nat.
Proof.
  unfold typed_inputs, list_item.
  destruct tool_inputs as [|a1 [|a2 [|a3 [|a4 [|a5 rest]]]]]; cbn [lookup list_lookup];
    intros H.
  all: repeat match type of H with
         | match ?x with _ => _ end = _ => destruct x; try discriminate H
         end.
  all: try discriminate H.
  simpl. lia.
Qed.

(** X6. A synthesis request is made only when the argument fields of the
    decision fit the tool in both calls of the dispatch. For the two query
    tools the line must carry exactly one argument field, and a filled one:
    an empty field or a further field (a trailing bar is enough) ends in the
    error reply. For [log_gym_set] exactly five fields are filled, and for
    [get_readiness_report] at most two. *)
Theorem synthesis_needs_fitting_fields (user_query : string) (tr : trace)
    (name : string) (tool_inputs : list string) (t : tool)
    (prompt : string) (rest : trace) :
  decides_tool_call env user_query tr name tool_inputs ->
  tools_dict_get env name = Some t ->
  snd (process_query env user_query tr) = ELlm prompt [] :: rest ->
  match t with
  | GetOuraSleepScore | GetOuraActivitySteps =>
      exists day, tool_inputs = [day] /\ day <> EmptyString
  | LogGymSet =>
      length (clean_inputs tool_inputs) = 5%nat /\ (5 <= length tool_inputs)%nat
  | GetReadinessReport => (length (clean_inputs tool_inputs) <= 2)%nat
  end.
Proof.
  intros Hdec Htool Hsyn.
  destruct (tools_dict_get_name env _ _ Htool) as [Hname _].
  destruct (dispatch_outcome env _ _ _ _ _ Hdec Htool)
    as [(e & ev & Hout & Hl & _)
       | (args & r1 & body1 & result & body2 & coaching
          & Hargs & _ & _ & Hcall1 & Hcall2 & _)].
  { exfalso. rewrite Hout in Hsyn. cbn [snd] in Hsyn.
    destruct ev as [|x ev].
    - unfold decision_event in Hsyn. simpl in Hsyn. injection Hsyn as _ H _.
      discriminate H.
    - simpl in Hsyn. injection Hsyn as -> _. unfold n_llm in Hl. simpl in Hl. lia. }
  apply call_tool_ok_arity in Hcall1, Hcall2.
  rewrite length_map in Hcall1.
  unfold branch_args in Hargs. subst name.
  destruct t; cbn [tool_name String.eqb Ascii.eqb Bool.eqb] in Hargs.
  - injection Hargs as <-. rewrite length_map in Hcall2.
    destruct tool_inputs as [|day [|]]; try discriminate Hcall2.
    exists day. split; [reflexivity |]. intros ->. discriminate Hcall1.
  - injection Hargs as <-. rewrite length_map in Hcall2.
    destruct tool_inputs as [|day [|]]; try discriminate Hcall2.
    exists day. split; [reflexivity |]. intros ->. discriminate Hcall1.
  - split; [exact Hcall1 | eapply typed_inputs_length; eassumption].
  - exact Hcall1.
Qed.

(** *** The profile is read for the report only *)

Lemma execute_tool_call_profile (profile : dict) (decision user_query : string)
    (tr : trace) :
  (forall name_field,
     split_on "|" decision !! 1%nat = Some name_field ->
     strip name_field <> "get_readiness_report") ->
  execute_tool_call (with_profile profile env) decision user_query tr
  = execute_tool_call env decision user_query tr.
Proof.
  intros Hname. unfold execute_tool_call, list_item. mred.
  destruct (split_on "|" decision !! 1%nat) as [name_field |]; [| reflexivity].
  specialize (Hname name_field eq_refl).
  change (tools_dict_get (with_profile profile env)) with (tools_dict_get env).
  destruct (tools_dict_get env (strip name_field)) as [t |]; [| reflexivity].
  change (call_tool (with_profile profile env)) with (call_tool env).
  destruct (call_tool env t _ tr) as [[r1 | e] tr1]; [| reflexivity].
  change (branch_call (with_profile profile env)) with (branch_call env).
  destruct (branch_call env t _ _ tr1) as [[r2 | e] tr2]; [| reflexivity].
  unfold coaching_instruction.
  destruct (String.eqb_spec (strip name_field) "get_readiness_report");
    [contradiction | reflexivity].
Qed.

(** X7. [USER_PROFILE] is read for decisions that call
    [get_readiness_report] and for nothing else: when the decision of a
    query is not such a call, the reply and every request are the same
    under any other profile, an empty one included. *)
Theorem profile_only_matters_to_readiness (profile : dict) (user_query : string)
    (tr : trace) :
  (forall tool_inputs,
     ~ decides_tool_call env user_query tr "get_readiness_report" tool_inputs) ->
  process_query (with_profile profile env) user_query tr
  = process_query env user_query tr.
Proof.
  intros Hno. unfold process_query.
  change (llm_ready (with_profile profile env)) with (llm_ready env).
  destruct (llm_ready env) eqn:Hllm; [| reflexivity].
  cbv beta iota zeta delta [negb].
  change (today (with_profile profile env)) with (today env).
  rewrite date_sub_days_today by lia. mred.
  change (decision_prompt (with_profile profile env)) with (decision_prompt env).
  change (llm_invoke (with_profile profile env)) with (llm_invoke env).
  destruct (llm_invoke env tr _ [nl]) as [answer | e] eqn:Hans; [| reflexivity].
  destruct (String.prefix "ACTION: TOOL_CALL" (strip answer)) eqn:Hpre;
    [| reflexivity].
  rewrite execute_tool_call_profile; [reflexivity |].
  intros name_field Hfield Hname. eapply Hno.
  split; [exact Hllm |]. exists answer, name_field.
  repeat (split; [eassumption || (symmetry; eassumption) |]). reflexivity.
Qed.

End Replies.

(** ** The tools, call by call *)

Section ToolRuns.
Context {rt : PyRuntime}.
Variable env : Env.

Lemma parameters_ok_true (exercise weight reps sets : pyval) :
  parameters_ok exercise weight reps sets = Ok true <->
  truthy exercise = true
  /\ py_gt weight (VInt 0) = Ok true
  /\ py_gt reps (VInt 0) = Ok true
  /\ py_gt sets (VInt 0) = Ok true.
Proof.
  unfold parameters_ok. split.
  - destruct (truthy exercise); [| discriminate].
    destruct (py_gt weight (VInt 0)) as [[|] |]; try discriminate.
    destruct (py_gt reps (VInt 0)) as [[|] |]; try discriminate.
    auto.
  - intros (-> & -> & -> & ->). reflexivity.
Qed.

(** X8. [log_gym_set] on arguments of any type. It sends an insert exactly
    when the date parses, the exercise is truthy and each of weight, reps
    and sets compares greater than 0 without a type error; then it sends
    one insert, of the record that holds the five arguments unchanged under
    the columns workout_date, exercise_name, weight_kg, repetitions and
    sets, and its result is the confirmation "Successfully logged Set
    <sets> of <exercise> (<weight>kg x <reps> reps) for <date>.", or
    "Error: Failed to insert set. Details: ..." when the store answers with
    an error, or the internal error message when the request raises. In
    every other case nothing is sent and the result is one of the two fixed
    error messages. *)
Theorem log_gym_set_writes_only_valid
    (date_str exercise weight reps sets : pyval) (tr : trace) :
  let row : dict :=
    <["workout_date" := date_str]>
      (<["exercise_name" := exercise]>
         (<["weight_kg" := weight]>
            (<["repetitions" := reps]>
               (<["sets" := sets]> ∅)))) in
  let valid :=
    (exists d, fromisoformat date_str = Ok d)
    /\ truthy exercise = true
    /\ py_gt weight (VInt 0) = Ok true
    /\ py_gt reps (VInt 0) = Ok true
    /\ py_gt sets (VInt 0) = Ok true in
  let out := log_gym_set env date_str exercise weight reps sets tr in
  (~ valid
   /\ snd out = tr
   /\ (fst out
       = Ok "Error: Missing or invalid workout parameters. Please check exercise name, weight, reps, and set number."
       \/ fst out
          = Ok "An internal error occurred while trying to log the workout."))
  \/ (valid
      /\ snd out = EInsert "manual_workouts" row :: tr
      /\ fst out
         = Ok (match store_insert env tr "manual_workouts" row with
               | Ok None =>
                   "Successfully logged Set " +:+ py_str sets +:+ " of "
                     +:+ py_str exercise +:+ " (" +:+ py_str weight +:+ "kg x "
                     +:+ py_str reps +:+ " reps) for " +:+ py_str date_str +:+ "."
               | Ok (Some err) => "Error: Failed to insert set. Details: " +:+ err
               | Raise _ =>
                   "An internal error occurred while trying to log the workout."
               end)).
Proof.
  intros row valid out. subst out valid row. unfold log_gym_set. mred.
  destruct (fromisoformat date_str) as [d | e] eqn:Hd.
  2: { left. split; [| auto]. intros ([d Hd'] & _). discriminate. }
  destruct (parameters_ok exercise weight reps sets) as [[|] | e] eqn:Hok;
    cbv beta iota zeta delta [negb].
  - right. apply parameters_ok_true in Hok. split; [split; eauto |].
    destruct (store_insert env tr _ _) as [[err |] | e]; auto.
  - left. split; [| auto]. intros (_ & H). apply parameters_ok_true in H. congruence.
  - left. split; [| auto]. intros (_ & H). apply parameters_ok_true in H. congruence.
Qed.

(** X9. A date that [date.fromisoformat] rejects never reaches the store:
    the two query tools return their error message with the exception
    inlined, and [log_gym_set] returns its internal error message (not the
    message about invalid parameters), each without any request. *)
Theorem malformed_date_never_reaches_store (day : pyval) (e : exn) (tr : trace) :
  fromisoformat day = Raise e ->
  get_oura_sleep_score env day tr
  = (Ok ("Error while fetching sleep data: " +:+ exn_str e), tr)
  /\ get_oura_activity_steps env day tr
     = (Ok ("Error while fetching activity data: " +:+ exn_str e), tr)
  /\ forall exercise weight reps sets,
       log_gym_set env day exercise weight reps sets tr
       = (Ok internal_error_message, tr).
Proof.
  intros Hday. split; [| split].
  - now apply sleep_score_bad_date.
  - now apply activity_steps_bad_date.
  - intros. unfold log_gym_set. mred. rewrite Hday. reflexivity.
Qed.

(** X10. [get_oura_sleep_score] does not look the requested day up: its
    one query has no filter on the day, and the record it reports is the
    first row of the answer (the newest night), labelled with the day that
    was asked for. As the rows carry the selected columns ['day, score']
    only, no "Total sleep" line is printed and the efficiency is always
    "N/A". *)
Theorem sleep_score_reports_newest_night (day : pyval) (d : date)
    (data : dict) (rest : list dict) (tr : trace) :
  fromisoformat day = Ok d ->
  store_select env tr sleep_recent_query = Ok (data :: rest) ->
  dom data ⊆ ({["day"; "score"]} : gset string) ->
  q_filters sleep_recent_query = []
  /\ get_oura_sleep_score env day tr
     = (Ok ("Sleep data for " +:+ py_str day +:+ ":" +:+ nl +:+ "- Score: "
              +:+ py_str (dict_get data "score" (VStr "N/A")) +:+ nl
              +:+ "- Efficiency: N/A%"),
        ESelect sleep_recent_query :: tr).
Proof.
  intros Hday Hsel Hdom. split; [reflexivity |].
  assert (Hdur : data !! "total_sleep_duration" = None).
  { apply not_elem_of_dom. intros H. apply Hdom in H.
    rewrite elem_of_union, !elem_of_singleton in H. now destruct H. }
  assert (Heff : data !! "efficiency" = None).
  { apply not_elem_of_dom. intros H. apply Hdom in H.
    rewrite elem_of_union, !elem_of_singleton in H. now destruct H. }
  unfold get_oura_sleep_score. mred. rewrite Hday, Hsel.
  unfold dict_get. rewrite Hdur, Heff.
  cbv beta iota zeta delta [default truthy].
  rewrite !append_assoc. reflexivity.
Qed.

(** *** The report: three queries, then the rendering *)

(** X11. [get_readiness_report] sends its queries in the order sleep,
    activity, workouts, all three over the same window, and stops at the
    first that fails: the result is then the error message with that
    exception and the later queries are not sent. When the three are
    answered, the result is the error message (the rendering raised) or a
    report that starts with the header of that window. *)
Theorem readiness_queries_fail_fast (start_date end_date : pyval)
    (start end_ : date) (tr : trace) :
  supabase_available env = true ->
  readiness_window env start_date end_date tr = (Ok (start, end_), tr) ->
  let out := get_readiness_report env start_date end_date tr in
  match store_select env tr (sleep_range_query start end_) with
  | Raise x => out = (Ok (report_failed x), report_requested start end_ 1 tr)
  | Ok _ =>
      match store_select env (report_requested start end_ 1 tr)
              (activity_range_query start end_) with
      | Raise x => out = (Ok (report_failed x), report_requested start end_ 2 tr)
      | Ok _ =>
          match store_select env (report_requested start end_ 2 tr)
                  (workout_range_query start end_) with
          | Raise x =>
              out = (Ok (report_failed x), report_requested start end_ 3 tr)
          | Ok _ =>
              snd out = report_requested start end_ 3 tr
              /\ ((exists x, fst out = Ok (report_failed x))
                  \/ exists sections,
                       fst out = Ok (report_header start end_ +:+ sections))
          end
      end
  end.
Proof.
  intros Hs Hwin out.
  assert (Hout : out = get_readiness_report env start_date end_date tr)
    by reflexivity.
  clearbody out. unfold get_readiness_report in Hout. rewrite Hs in Hout.
  cbv beta iota zeta delta [negb] in Hout. unfold bind at 1 in Hout.
  rewrite Hwin in Hout.
  cbv beta iota zeta delta [bind ret try_except execute_select] in Hout.
  unfold report_requested, report_failed. cbn [take rev map app].
  set (tr1 := ESelect (sleep_range_query start end_) :: tr) in *.
  set (tr2 := ESelect (activity_range_query start end_) :: tr1) in *.
  set (tr3 := ESelect (workout_range_query start end_) :: tr2) in *.
  destruct (store_select env tr _) as [sleep_res | x]; [| exact Hout].
  destruct (store_select env tr1 _) as [activity_res | x]; [| exact Hout].
  destruct (store_select env tr2 _) as [workout_res | x]; [| exact Hout].
  pose proof (sleep_section_pure (report_header start end_) sleep_res tr3) as P1.
  destruct (sleep_section _ sleep_res tr3) as [[r1 | x] t1] eqn:E1;
    simpl in P1; subst t1; [| subst out; eauto].
  pose proof (activity_section_pure r1 activity_res tr3) as P2.
  destruct (activity_section r1 activity_res tr3) as [[r2 | x] t2] eqn:E2;
    simpl in P2; subst t2; [| subst out; eauto].
  pose proof (workout_section_pure r2 workout_res tr3) as P3.
  destruct (workout_section r2 workout_res tr3) as [[r3 | x] t3] eqn:E3;
    simpl in P3; subst t3; [| subst out; eauto].
  apply sleep_section_labelled in E1 as (b1 & -> & _).
  apply activity_section_labelled in E2 as (b2 & -> & _).
  apply workout_section_labelled in E3 as (b3 & -> & _).
  destruct (String.eqb _ (report_header start end_)) eqn:Heq.
  { exfalso. apply String.eqb_eq in Heq. rewrite !append_assoc in Heq.
    apply append_same_prefix in Heq. discriminate Heq. }
  subst out. split; [reflexivity |]. right. eexists. cbn [fst].
  rewrite !append_assoc. reflexivity.
Qed.

Lemma sleep_line_raises (report : string) (record : dict) (tr : trace) :
  sleep_record_ok record = false ->
  exists x, sleep_line report record tr = (Raise x, tr).
Proof.
  unfold sleep_record_ok, sleep_line, dict_item. mred. intros H.
  destruct (dict_get record "total_sleep_duration" (VInt 0)) as [| s | n | f];
    cbn [numeric floordiv modulo andb] in *; eauto.
  - destruct (record !! "day") as [day |]; [| eauto].
    rewrite bool_decide_eq_false in H. destruct H. eauto.
  - destruct (record !! "day") as [day |]; [| eauto].
    rewrite bool_decide_eq_false in H. destruct H. eauto.
Qed.

Lemma sleep_line_returns (report : string) (record : dict) (tr : trace) :
  sleep_record_ok record = true ->
  exists r, sleep_line report record tr = (Ok r, tr).
Proof.
  unfold sleep_record_ok, sleep_line, dict_item. mred. intros H.
  apply andb_prop in H as [Hnum Hday].
  apply bool_decide_eq_true in Hday as [day ->].
  destruct (dict_get record "total_sleep_duration" (VInt 0)) as [| s | n | f];
    try discriminate Hnum; cbn [floordiv modulo]; eauto.
Qed.

Lemma sleep_lines_raise (data : list dict) :
  Exists (fun record => sleep_record_ok record = false) data ->
  forall report tr, exists x, foldM sleep_line data report tr = (Raise x, tr).
Proof.
  induction data as [|record data IH]; intros Hbad report tr.
  { now apply Exists_nil in Hbad. }
  cbn [foldM]. unfold bind.
  destruct (sleep_record_ok record) eqn:Hok.
  - destruct (sleep_line_returns report record tr Hok) as [r ->].
    apply IH. apply Exists_cons in Hbad as [Hbad | Hbad]; [congruence | exact Hbad].
  - destruct (sleep_line_raises report record tr Hok) as [x ->]. eauto.
Qed.

(** X12. One sleep record that cannot be rendered spoils the whole report:
    when the three queries are answered and some sleep record has a
    duration that is not a number (a null of the store, a text) or has no
    day, the result of [get_readiness_report] is the error message, and the
    activity and workout records that were fetched are not reported. *)
Theorem bad_sleep_record_spoils_report (start_date end_date : pyval)
    (start end_ : date) (sleep_res activity_res workout_res : list dict)
    (tr : trace) :
  supabase_available env = true ->
  readiness_window env start_date end_date tr = (Ok (start, end_), tr) ->
  store_select env tr (sleep_range_query start end_) = Ok sleep_res ->
  store_select env (report_requested start end_ 1 tr)
    (activity_range_query start end_) = Ok activity_res ->
  store_select env (report_requested start end_ 2 tr)
    (workout_range_query start end_) = Ok workout_res ->
  Exists (fun record => sleep_record_ok record = false) sleep_res ->
  exists x,
    get_readiness_report env start_date end_date tr
    = (Ok (report_failed x), report_requested start end_ 3 tr).
Proof.
  unfold report_requested, report_failed. cbn [take rev map app].
  intros Hs Hwin H1 H2 H3 Hbad.
  unfold get_readiness_report. rewrite Hs.
  cbv beta iota zeta delta [negb]. unfold bind at 1. rewrite Hwin.
  mred. rewrite H1, H2, H3.
  unfold sleep_section. destruct sleep_res as [|record rest].
  { now apply Exists_nil in Hbad. }
  match goal with
  | |- context [foldM sleep_line ?data ?report ?t] =>
      destruct (sleep_lines_raise data Hbad report t) as [x ->]
  end.
  exists x. reflexivity.
Qed.

(** X13. The duration a sleep line prints. For a record whose duration is
    an int number of seconds, the line shows [hours] and [minutes] with
    [0 <= minutes < 60] and
    [3600 * hours + 60 * minutes <= seconds < 3600 * hours + 60 * minutes + 60]:
    the seconds are rounded down to the minute, whatever their sign. *)
Theorem sleep_line_duration (report : string) (record : dict) (seconds : Z)
    (day : pyval) (tr : trace) :
  record !! "total_sleep_duration" = Some (VInt seconds) ->
  record !! "day" = Some day ->
  exists hours minutes,
    sleep_line report record tr
    = (Ok (report +:+ " - " +:+ py_str day +:+ ": Score "
             +:+ py_str (dict_get record "score" (VStr "N/A")) +:+ ", Duration "
             +:+ pretty hours +:+ "h " +:+ pretty minutes +:+ "m, Efficiency "
             +:+ py_str (dict_get record "efficiency" (VStr "N/A")) +:+ "%" +:+ nl),
       tr)
    /\ 0 <= minutes < 60
    /\ 3600 * hours + 60 * minutes <= seconds < 3600 * hours + 60 * minutes + 60.
Proof.
  intros Hdur Hday. exists (seconds / 3600), (seconds mod 3600 / 60).
  split; [| split].
  - assert (Hd : dict_get record "total_sleep_duration" (VInt 0) = VInt seconds)
      by (unfold dict_get; now rewrite Hdur).
    unfold sleep_line, dict_item. rewrite Hd, Hday. reflexivity.
  - pose proof (Z.mod_pos_bound seconds 3600 ltac:(lia)).
    split; [apply Z.div_pos; lia | apply Z.div_lt_upper_bound; lia].
  - pose proof (Z.div_mod seconds 3600 ltac:(lia)).
    pose proof (Z.div_mod (seconds mod 3600) 60 ltac:(lia)).
    pose proof (Z.mod_pos_bound (seconds mod 3600) 60 ltac:(lia)).
    lia.
Qed.

End ToolRuns.

(** ** One entry per exercise, in the order of first appearance *)


Section LiftKeys.
Context {rt : PyRuntime}.






End LiftKeys.

(** ** The profile loaded at start-up *)

(** X15. The loader yields the four keys age, weight, height and gender,
    or nothing at all: no other key of the token document (its access
    token, say) is copied into [USER_PROFILE]. A value the document gives
    for one of the four keys is kept as it is, a null included; the default
    stands in only for a key the document does not have. *)
Theorem profile_has_four_keys_or_none (file : profile_file) :
  load_user_profile file = ∅
  \/ exists fields,
       file = FileJsonObject fields
       /\ dom (load_user_profile file)
          = ({["age"; "weight"; "height"; "gender"]} : gset string)
       /\ forall key v,
            key ∈ dom (load_user_profile file) ->
            fields !! key = Some v ->
            load_user_profile file !! key = Some v.
Proof.
  destruct file as [| | fields |]; try (left; reflexivity).
  right. exists fields. split; [reflexivity |].
  assert (Hdom : dom (load_user_profile (FileJsonObject fields))
                 = ({["age"; "weight"; "height"; "gender"]} : gset string)).
  { unfold load_user_profile. rewrite !dom_insert_L, dom_empty_L.
    apply set_eq. intros k. rewrite !elem_of_union, !elem_of_singleton,
      elem_of_empty. tauto. }
  split; [exact Hdom |]. intros key v Hkey Hv. rewrite Hdom in Hkey.
  rewrite !elem_of_union, !elem_of_singleton in Hkey.
  unfold load_user_profile, dict_get.
  destruct Hkey as [[[-> | ->] | ->] | ->]; simplify_map_eq; reflexivity.
Qed.

(** ** The page *)

Section PageRuns.
Context {rt : PyRuntime}.
Variable env : Env.

Lemma process_query_asks_decision (user_query : string) (tr : trace) :
  llm_ready env = true ->
  exists ev,
    snd (process_query env user_query tr) = ev ++ decision_event env user_query :: tr.
Proof.
  intros Hllm.
  destruct (llm_invoke env tr
              (decision_prompt env (today env) (today env - 1) user_query) [nl])
    as [answer | e] eqn:Hans.
  2: { exists []. now rewrite (process_query_decision_fails env _ _ _ Hllm Hans). }
  destruct (String.prefix "ACTION: TOOL_CALL" (strip answer)) eqn:Hpre.
  2: { exists []. now rewrite (process_query_no_tool_call env _ _ _ Hllm Hans Hpre). }
  rewrite (process_query_tool_call env user_query answer tr Hllm Hans Hpre).
  fold (decision_event env user_query).
  destruct (execute_tool_call_cases env (strip answer) user_query
              (decision_event env user_query :: tr))
    as [(r & ev & -> & _) | (prompt & ev & -> & _)].
  - exists ev. now destruct r.
  - exists (ELlm prompt [] :: ev). now destruct (llm_invoke env _ prompt []).
Qed.

(** X16. One chat input adds exactly two messages to the transcript, the
    input under the role "user" and then one reply under the role
    "assistant", behind the messages already there; the block never raises.
    A status is always shown in the sidebar, and the reply goes with it:
    under "AI Agent Ready" the reply and the requests are those of
    [process_query] (which never raises, so the handler around the call is
    never run); under either error status the reply is the fixed pointer to
    the sidebar and nothing is requested. *)
Theorem chat_turn_appends_exchange (ollama_available : bool)
    (messages : list message) (text : string) (tr : trace) :
  text <> EmptyString ->
  let out := chat_turn env ollama_available messages (Some text) tr in
  exists reply,
    fst out
    = Ok (messages ++ [ {| role := "user"; content := text |};
                        {| role := "assistant"; content := reply |} ])
    /\ match sidebar_status env ollama_available with
       | Some AgentReady => process_query env text tr = (Ok reply, snd out)
       | Some _ => reply = components_missing_reply /\ snd out = tr
       | None => False
       end.
Proof.
  intros Htext out. subst out. unfold chat_turn, sidebar_status.
  destruct (String.eqb_spec text EmptyString) as [-> | _]; [contradiction |].
  mred. destruct ollama_available, (supabase_available env);
    cbv beta iota zeta delta [andb negb].
  - destruct (process_query_returns env text tr) as [reply Hreply].
    destruct (process_query env text tr) as [r tr'] eqn:Hrun.
    cbn [fst] in Hreply. subst r. exists reply.
    rewrite <- app_assoc. split; reflexivity.
  - exists components_missing_reply. rewrite <- app_assoc. repeat split.
  - exists components_missing_reply. rewrite <- app_assoc. repeat split.
  - exists components_missing_reply. rewrite <- app_assoc. repeat split.
Qed.

(** X17. When the flags come from the start-up block and the status is
    "AI Agent Ready", the probe request "Say OK" was answered, the model is
    set, and so the guard "AI model is not running" of [process_query] is
    never taken from the chat: every chat input is followed by its decision
    request. *)
Theorem ready_chat_asks_for_decision (construct : result unit)
    (ollama_available : bool) (messages : list message) (text : string)
    (tr0 tr1 tr : trace) :
  init_ollama env construct tr0 = (Ok (llm_ready env, ollama_available), tr1) ->
  sidebar_status env ollama_available = Some AgentReady ->
  text <> EmptyString ->
  (exists answer, llm_invoke env tr0 "Say OK" [] = Ok answer)
  /\ tr1 = ELlm "Say OK" [] :: tr0
  /\ llm_ready env = true
  /\ exists ev,
       snd (chat_turn env ollama_available messages (Some text) tr)
       = ev ++ decision_event env text :: tr.
Proof.
  unfold init_ollama, sidebar_status. intros Hinit Hready Htext.
  destruct ollama_available; [| discriminate Hready].
  destruct (supabase_available env) eqn:Hs; [| discriminate Hready].
  destruct construct as [[] | e]; [| discriminate Hinit].
  revert Hinit. mred.
  destruct (llm_invoke env tr0 "Say OK" []) as [answer | e]; [| discriminate].
  intros [= Hllm <-]. split; [eauto |]. split; [reflexivity |].
  split; [now symmetry |].
  unfold chat_turn.
  destruct (String.eqb_spec text EmptyString) as [-> | _]; [contradiction |].
  rewrite Hs. mred. cbv beta iota zeta delta [andb].
  destruct (process_query_asks_decision text tr (eq_sym Hllm)) as [ev Hev].
  destruct (process_query_returns env text tr) as [reply Hreply].
  destruct (process_query env text tr) as [r tr'].
  cbn [fst snd] in *. subst r tr'. exists ev. reflexivity.
Qed.

End PageRuns.

(** ** Closed instances of the further properties *)

Section ClosedRuns.
Import Examples Scenarios.
#[local] Existing Instance Reference.runtime.

(** X1 at a greeting. *)
Lemma direct_answer_reply_witness :
  process_query greeting "hi" []
  = (Ok (strip " Hello! How can I help?"), [decision_event greeting "hi"]).
Proof.
  apply (direct_answer_reply greeting "hi"
           " ACTION: DIRECT_ANSWER | Hello! How can I help? "
           " Hello! How can I help?" []); vm_compute; reflexivity.
Defined.

(** White space beyond ASCII is trimmed like the space. *)
Lemma strip_no_break_space :
  strip (nbsp +:+ " get_readiness_report " +:+ nbsp) = "get_readiness_report".
Proof. vm_compute. reflexivity. Qed.

Lemma padded_greeting_text :
  fst (process_query padded_greeting "hi" []) = Ok "Hello!".
Proof. vm_compute. reflexivity. Qed.

Lemma padded_tool_name_is_found :
  calls (snd (process_query padded_tool_name "Steps yesterday?" []))
  = [ECall "get_oura_activity_steps" [VStr "2025-10-24"];
     ECall "get_oura_activity_steps" [VStr "2025-10-24"]]
  /\ n_llm (snd (process_query padded_tool_name "Steps yesterday?" [])) = 2%nat.
Proof. split; vm_compute; reflexivity. Qed.

Lemma blank_third_field_is_dropped :
  calls (snd (process_query third_field_nbsp "How ready am I?" []))
  = [ECall "get_readiness_report" [VStr "2025-10-20"; VStr "2025-10-24"];
     ECall "get_readiness_report" [VStr "2025-10-20"; VStr "2025-10-24"]]
  /\ n_llm (snd (process_query third_field_nbsp "How ready am I?" [])) = 2%nat.
Proof. split; vm_compute; reflexivity. Qed.

Lemma greeting_text :
  fst (process_query greeting "hi" []) = Ok "Hello! How can I help?".
Proof. vm_compute. reflexivity. Qed.

(** X2 at a greeting with a colon behind the action. *)
Lemma direct_answer_without_marker_witness :
  process_query greeting_colon "hi" []
  = (Ok (strip "ACTION: DIRECT_ANSWER: Hello!"),
     [decision_event greeting_colon "hi"]).
Proof.
  apply (direct_answer_without_marker greeting_colon "hi"
           "ACTION: DIRECT_ANSWER: Hello!" []); vm_compute; reflexivity.
Defined.

Lemma greeting_colon_text :
  fst (process_query greeting_colon "hi" []) = Ok "ACTION: DIRECT_ANSWER: Hello!".
Proof. vm_compute. reflexivity. Qed.

Lemma weather_decision :
  decides_tool_call weather_tool "Weather in Paris?" [] "get_weather" ["Paris"].
Proof.
  split; [reflexivity |].
  exists "ACTION: TOOL_CALL | get_weather | Paris", " get_weather ".
  repeat split; vm_compute; reflexivity.
Defined.

(** X4 at a tool that does not exist. *)
Lemma unregistered_tool_reply_witness :
  process_query weather_tool "Weather in Paris?" []
  = (Ok ("Error: Tool '" +:+ "get_weather" +:+ "' not found."),
     [decision_event weather_tool "Weather in Paris?"]).
Proof.
  apply (unregistered_tool_reply weather_tool "Weather in Paris?" []
           "get_weather" ["Paris"]).
  - exact weather_decision.
  - right. intros t. destruct t; discriminate.
Defined.

(** X5 at a tool call written without bars. *)
Lemma tool_call_without_bar_witness :
  process_query tool_call_no_bar "How ready am I?" []
  = (Ok (tool_error_reply IndexError),
     [decision_event tool_call_no_bar "How ready am I?"]).
Proof.
  apply (tool_call_without_bar tool_call_no_bar "How ready am I?"
           "ACTION: TOOL_CALL get_readiness_report" []); vm_compute; reflexivity.
Defined.

Lemma steps_decision :
  decides_tool_call synthesis_down "Steps yesterday?" []
    "get_oura_activity_steps" ["2025-10-24"].
Proof.
  split; [reflexivity |].
  exists "ACTION: TOOL_CALL | get_oura_activity_steps | 2025-10-24",
    " get_oura_activity_steps ".
  repeat split; vm_compute; reflexivity.
Defined.

(** X6 at a steps query with its one date. *)
Lemma synthesis_needs_fitting_fields_witness :
  exists day, ["2025-10-24"] = [day] /\ day <> EmptyString.
Proof.
  eapply (synthesis_needs_fitting_fields synthesis_down "Steps yesterday?" []
            "get_oura_activity_steps" ["2025-10-24"] GetOuraActivitySteps).
  - exact steps_decision.
  - reflexivity.
  - vm_compute. reflexivity.
Defined.

(** A trailing bar adds an empty field: the first call drops it and queries
    the store, the second call passes it on and does not fit. *)
Lemma trailing_bar_is_rejected :
  exists ev,
    process_query steps_trailing_bar "Steps yesterday?" []
    = (Ok (tool_error_reply (TypeError_arity "get_oura_activity_steps" 2)),
       ev ++ [decision_event steps_trailing_bar "Steps yesterday?"])
    /\ calls ev = [ECall "get_oura_activity_steps" [VStr "2025-10-24"]]
    /\ n_store ev = 1%nat.
Proof.
  exists [ESelect (activity_day_query "2025-10-24");
          ECall "get_oura_activity_steps" [VStr "2025-10-24"]].
  split; [vm_compute; reflexivity | split; reflexivity].
Qed.

(** X7 at a steps query, with the profile taken away. *)
Lemma profile_only_matters_to_readiness_witness :
  process_query (with_profile ∅ synthesis_down) "Steps yesterday?" []
  = process_query synthesis_down "Steps yesterday?" [].
Proof.
  apply (profile_only_matters_to_readiness synthesis_down ∅ "Steps yesterday?" []).
  intros tool_inputs (_ & answer & name_field & Hans & _ & Hfield & Hname & _).
  vm_compute in Hans. injection Hans as <-.
  vm_compute in Hfield. injection Hfield as <-.
  vm_compute in Hname. discriminate Hname.
Defined.

(** The store rejects the insert of a valid set. *)
Lemma rejected_insert_text :
  fst (log_gym_set insert_rejected (VStr "2025-10-25") (VStr "Squat")
         (VFloat (FFin 100)) (VInt 5) (VInt 3) [])
  = Ok "Error: Failed to insert set. Details: permission denied".
Proof. vm_compute. reflexivity. Qed.

(** X9 at a date given in words. *)
Lemma malformed_date_never_reaches_store_witness :
  get_oura_sleep_score nothing_stored (VStr "yesterday") []
  = (Ok ("Error while fetching sleep data: "
           +:+ exn_str (ValueError_isoformat "yesterday")), [])
  /\ get_oura_activity_steps nothing_stored (VStr "yesterday") []
     = (Ok ("Error while fetching activity data: "
              +:+ exn_str (ValueError_isoformat "yesterday")), [])
  /\ forall exercise weight reps sets,
       log_gym_set nothing_stored (VStr "yesterday") exercise weight reps sets []
       = (Ok internal_error_message, []).
Proof.
  apply (malformed_date_never_reaches_store nothing_stored (VStr "yesterday")
           (ValueError_isoformat "yesterday") []).
  vm_compute. reflexivity.
Defined.

(** X10 at a store with two nights, asked for a third. *)
Lemma sleep_score_reports_newest_night_witness :
  q_filters sleep_recent_query = []
  /\ get_oura_sleep_score two_nights (VStr "2025-10-20") []
     = (Ok ("Sleep data for " +:+ py_str (VStr "2025-10-20") +:+ ":" +:+ nl
              +:+ "- Score: "
              +:+ py_str (dict_get (night "2025-10-24" 82) "score" (VStr "N/A"))
              +:+ nl +:+ "- Efficiency: N/A%"),
        [ESelect sleep_recent_query]).
Proof.
  eapply (sleep_score_reports_newest_night two_nights (VStr "2025-10-20") _
            (night "2025-10-24" 82) [night "2025-10-23" 75] []).
  - vm_compute. reflexivity.
  - reflexivity.
  - unfold night. rewrite !dom_insert_L, dom_empty_L.
    intros k. rewrite !elem_of_union, !elem_of_singleton, elem_of_empty. tauto.
Defined.

Lemma newest_night_text :
  fst (get_oura_sleep_score two_nights (VStr "2025-10-20") [])
  = Ok ("Sleep data for 2025-10-20:" +:+ nl +:+ "- Score: 82" +:+ nl
          +:+ "- Efficiency: N/A%").
Proof. vm_compute. reflexivity. Qed.

(** X11 at the default window of an empty store. *)
Lemma readiness_queries_fail_fast_witness :
  snd (get_readiness_report nothing_stored VNone VNone [])
  = report_requested 739546 739549 3 []
  /\ ((exists x,
         fst (get_readiness_report nothing_stored VNone VNone [])
         = Ok (report_failed x))
      \/ exists sections,
           fst (get_readiness_report nothing_stored VNone VNone [])
           = Ok (report_header 739546 739549 +:+ sections)).
Proof.
  exact (readiness_queries_fail_fast nothing_stored VNone VNone 739546 739549 []
           eq_refl eq_refl).
Defined.

(** X12 at a store that holds a night without duration. *)
Lemma bad_sleep_record_spoils_report_witness :
  exists x,
    get_readiness_report null_duration VNone VNone []
    = (Ok (report_failed x), report_requested 739546 739549 3 []).
Proof.
  eapply (bad_sleep_record_spoils_report null_duration VNone VNone
            739546 739549 [full_night; night_without_duration]).
  - reflexivity.
  - reflexivity.
  - reflexivity.
  - reflexivity.
  - reflexivity.
  - apply Exists_cons_tl, Exists_cons_hd. vm_compute. reflexivity.
Defined.

Lemma null_duration_report_text :
  fst (get_readiness_report null_duration VNone VNone [])
  = Ok "An error occurred while accessing the aggregated data for the report: unsupported operand type(s) for //: 'NoneType' and 'int'".
Proof. vm_compute. reflexivity. Qed.

(** X13 at a night of seven and a half hours. *)
Lemma sleep_line_duration_witness :
  exists hours minutes,
    sleep_line EmptyString full_night []
    = (Ok (EmptyString +:+ " - " +:+ py_str (VStr "2025-10-24") +:+ ": Score "
             +:+ py_str (dict_get full_night "score" (VStr "N/A")) +:+ ", Duration "
             +:+ pretty hours +:+ "h " +:+ pretty minutes +:+ "m, Efficiency "
             +:+ py_str (dict_get full_night "efficiency" (VStr "N/A")) +:+ "%"
             +:+ nl),
       [])
    /\ 0 <= minutes < 60
    /\ 3600 * hours + 60 * minutes <= 27000 < 3600 * hours + 60 * minutes + 60.
Proof.
  apply (sleep_line_duration EmptyString full_night 27000 (VStr "2025-10-24") []);
    vm_compute; reflexivity.
Defined.

Lemma full_night_line_text :
  fst (sleep_line EmptyString full_night [])
  = Ok (" - 2025-10-24: Score 82, Duration 7h 30m, Efficiency 91%" +:+ nl).
Proof. vm_compute. reflexivity. Qed.


Lemma bench_then_squat :
  first_seen (omap name_of [bench_newer_lighter; squat_older; bench_older_heavier])
  = ["Bench Press"; "Squat"].
Proof. vm_compute. reflexivity. Qed.

(** X16 at a first question on a ready page. *)
Lemma chat_turn_appends_exchange_witness :
  let out := chat_turn nothing_stored true [] (Some "How ready am I?") [] in
  exists reply,
    fst out
    = Ok ([] ++ [ {| role := "user"; content := "How ready am I?" |};
                  {| role := "assistant"; content := reply |} ])
    /\ match sidebar_status nothing_stored true with
       | Some AgentReady =>
           process_query nothing_stored "How ready am I?" [] = (Ok reply, snd out)
       | Some _ => reply = components_missing_reply /\ snd out = []
       | None => False
       end.
Proof.
  apply (chat_turn_appends_exchange nothing_stored true [] "How ready am I?" []).
  discriminate.
Defined.

Lemma chat_without_ollama :
  chat_turn nothing_stored false [] (Some "How ready am I?") []
  = (Ok [ {| role := "user"; content := "How ready am I?" |};
          {| role := "assistant"; content := components_missing_reply |} ],
     []).
Proof. vm_compute. reflexivity. Qed.

(** X17 at a page whose start-up went through. *)
Lemma ready_chat_asks_for_decision_witness :
  (exists answer, llm_invoke nothing_stored [] "Say OK" [] = Ok answer)
  /\ [ELlm "Say OK" []] = ELlm "Say OK" [] :: []
  /\ llm_ready nothing_stored = true
  /\ exists ev,
       snd (chat_turn nothing_stored true [] (Some "How ready am I?") [])
       = ev ++ decision_event nothing_stored "How ready am I?" :: [].
Proof.
  apply (ready_chat_asks_for_decision nothing_stored (Ok tt) true []
           "How ready am I?" [] [ELlm "Say OK" []] []).
  - reflexivity.
  - reflexivity.
  - discriminate.
Defined.

End ClosedRuns.
